(** * Reward and streak engine of the ProductiveCasino backend

    A shallow embedding of [backend/api/wallet.py], of the request schema in
    [backend/models/schemas.py] and of the duplicated multiplier function of
    [backend/main_old.py], followed by the properties of the reward policy,
    the streak calculator and the earn transaction. *)

From Stdlib Require Import ZArith List String Bool Lia Permutation Sorted.
From Stdlib Require Import QArith Qround ListSet SpecFloat.
From Equations Require Import Equations.
Import ListNotations.

Local Open Scope string_scope.
Local Open Scope Z_scope.

(** ** Python floats

    CPython's [float] is IEEE 754 binary64.  The operations the wallet code
    performs on floats are: reading the literals of the multiplier table,
    [int * float] and [int(float)]; they are taken from the executable
    specification of binary64 of the standard library. *)
Module PyFloat.

Definition prec : Z := 53.
Definition emax : Z := 1024.

Definition float : Type := spec_float.

(** [float(n)] for a Python int: the nearest binary64, ties to even. *)
Definition of_int (n : Z) : float := binary_normalize prec emax n 0 false.

(** [x * y] on floats. *)
Definition mul (x y : float) : float := SFmul prec emax x y.

(** [x < y] on floats (false as soon as one side is a NaN). *)
Definition ltb (x y : float) : bool := SFltb x y.

(** A decimal literal [m / 10^k] written in the source, such as [1.2]
    ([m = 12], [k = 1]): the correctly rounded quotient of two integers
    that binary64 holds exactly. *)
Definition literal (m : Z) (k : nat) : float :=
  SFdiv prec emax (of_int m) (of_int (10 ^ Z.of_nat k)).

(** [int(x)]: truncation toward zero; [None] stands for the
    [OverflowError] / [ValueError] raised on an infinity or a NaN. *)
Definition to_int (x : float) : option Z :=
  match x with
  | S754_zero _ => Some 0
  | S754_finite s m e =>
      let a := if 0 <=? e then Z.shiftl (Zpos m) e
               else Z.shiftr (Zpos m) (- e) in
      Some (if s then - a else a)
  | S754_infinity _ | S754_nan => None
  end.

(** The rational number a finite float denotes, in lowest terms. *)
Definition to_Q (x : float) : option Q :=
  match x with
  | S754_zero _ => Some 0%Q
  | S754_finite s m e =>
      let a := (inject_Z (Zpos m) * Qpower 2 e)%Q in
      Some (Qred (if s then Qopp a else a))
  | S754_infinity _ | S754_nan => None
  end.

End PyFloat.

Abbreviation float := PyFloat.float.

(** ** Python's [sorted] on (int, float) pairs *)
Module Py.

(** Tuple comparison [a < b] on [(int, float)] items: the first components
    decide unless they are equal. *)
Definition item_ltb (a b : Z * float) : bool :=
  (fst a <? fst b) || ((fst a =? fst b) && PyFloat.ltb (snd a) (snd b)).

(** Stable insertion of [x] in front of a list sorted by [lt]: [x] moves
    past the elements that are strictly before it. *)
Fixpoint insert {A} (lt : A -> A -> bool) (x : A) (l : list A) : list A :=
  match l with
  | [] => [x]
  | y :: l' => if lt y x then y :: insert lt x l' else x :: l
  end.

(** [sorted(l)] and [sorted(l, reverse=True)]: a stable sort, ascending
    or descending. *)
Definition sorted {A} (lt : A -> A -> bool) (reverse : bool) (l : list A)
  : list A :=
  fold_right (insert (if reverse then fun a b => lt b a else lt)) [] l.

(** [d[k]] on a dict kept as an association list; [None] is [KeyError]. *)
Fixpoint getitem {K V} (eqb : K -> K -> bool) (d : list (K * V)) (k : K)
  : option V :=
  match d with
  | [] => None
  | (k', v) :: d' => if eqb k' k then Some v else getitem eqb d' k
  end.

(** [max(keys)]; [None] is the [ValueError] of an empty sequence. *)
Fixpoint max (l : list Z) : option Z :=
  match l with
  | [] => None
  | x :: l' => match max l' with
               | None => Some x
               | Some m => Some (if m <? x then x else m)
               end
  end.

End Py.

(** ** [models/schemas.py] *)
Module Schemas.

Inductive ActivityType := POMODORO | EXERCISE | STUDY | DEEP_WORK.

(** The [.value] of a member of the enumeration. *)
Definition value (a : ActivityType) : string :=
  match a with
  | POMODORO => "pomodoro_25min"
  | EXERCISE => "exercise_30min"
  | STUDY => "study_1h"
  | DEEP_WORK => "deep_work_2h"
  end.

Definition ActivityType_eqb (a b : ActivityType) : bool :=
  match a, b with
  | POMODORO, POMODORO | EXERCISE, EXERCISE
  | STUDY, STUDY | DEEP_WORK, DEEP_WORK => true
  | _, _ => false
  end.

(** Validation of a submitted value against the enumeration: the member
    whose value it is, if any. *)
Definition ActivityType_of_value (s : string) : option ActivityType :=
  find (fun a => String.eqb (value a) s)
       [POMODORO; EXERCISE; STUDY; DEEP_WORK].

(** [ActivityCreate], once validated. *)
Record ActivityCreate := {
  activity_type : ActivityType;
  duration_minutes : option Z;
  notes : option string
}.

(** The JSON body of a [POST /earn] request before validation. *)
Record ActivityCreateBody := {
  body_activity_type : string;
  body_duration_minutes : option Z;
  body_notes : option string
}.

(** Validation of the request body against [ActivityCreate]. *)
Definition validate (b : ActivityCreateBody) : option ActivityCreate :=
  match ActivityType_of_value (body_activity_type b) with
  | Some a => Some {| activity_type := a;
                      duration_minutes := body_duration_minutes b;
                      notes := body_notes b |}
  | None => None
  end.

End Schemas.

(** ** The reward policy of [api/wallet.py] *)
Module Policy.
Import Schemas.

Definition ACTIVITY_COINS : list (ActivityType * Z) :=
  [ (POMODORO, 50); (EXERCISE, 75); (STUDY, 100); (DEEP_WORK, 200) ].

Definition STREAK_MULTIPLIERS : list (Z * float) :=
  [ (3, PyFloat.literal 12 1);
    (7, PyFloat.literal 15 1);
    (30, PyFloat.literal 20 1) ].

(** The [for ... return] scan shared by the two multiplier queries. *)
Fixpoint first_item (p : Z * float -> bool) (l : list (Z * float))
  : option (Z * float) :=
  match l with
  | [] => None
  | it :: l' => if p it then Some it else first_item p l'
  end.

(** [get_streak_multiplier], with the module-level table as a parameter. *)
Definition get_streak_multiplier_of (table : list (Z * float))
    (streak_days : Z) : float :=
  match first_item (fun it => streak_days >=? fst it)
                   (Py.sorted Py.item_ltb true table) with
  | Some (_, multiplier) => multiplier
  | None => PyFloat.literal 10 1
  end.

Definition get_streak_multiplier : Z -> float :=
  get_streak_multiplier_of STREAK_MULTIPLIERS.

(** The dictionary [get_next_streak_target] returns; [message] is present
    only in the terminal case. *)
Record StreakTarget := {
  days_needed : Z;
  target_days : Z;
  bonus_multiplier : float;
  message : option string
}.

(** [get_next_streak_target]; [None] stands for the exception raised by
    [max] or by the subscript on an empty table. *)
Definition get_next_streak_target_of (table : list (Z * float))
    (current_streak : Z) : option StreakTarget :=
  match first_item (fun it => current_streak <? fst it)
                   (Py.sorted Py.item_ltb false table) with
  | Some (days, multiplier) =>
      Some {| days_needed := days - current_streak;
              target_days := days;
              bonus_multiplier := multiplier;
              message := None |}
  | None =>
      match Py.max (map fst table) with
      | None => None
      | Some top =>
          match Py.getitem Z.eqb table top with
          | None => None
          | Some multiplier =>
              Some {| days_needed := 0;
                      target_days := current_streak;
                      bonus_multiplier := multiplier;
                      message := Some "Maximum streak bonus achieved!" |}
          end
      end
  end.

Definition get_next_streak_target : Z -> option StreakTarget :=
  get_next_streak_target_of STREAK_MULTIPLIERS.

(** Lines 60 to 66 of [earn_coins]: the base coins, the multiplier and
    [int(base_coins * streak_multiplier)]; [None] stands for an exception
    ([KeyError] of the table, or [int] of a non-finite float). *)
Definition final_coins (base_coins : Z) (streak_multiplier : float)
  : option Z :=
  PyFloat.to_int (PyFloat.mul (PyFloat.of_int base_coins) streak_multiplier).

Definition reward (a : ActivityType) (streak_days : Z)
  : option (Z * float * Z) :=
  match Py.getitem ActivityType_eqb ACTIVITY_COINS a with
  | None => None
  | Some base_coins =>
      let streak_multiplier := get_streak_multiplier streak_days in
      match final_coins base_coins streak_multiplier with
      | None => None
      | Some coins => Some (base_coins, streak_multiplier, coins)
      end
  end.

End Policy.

(** ** [main_old.py]: the single-file variant *)
Module MainOld.

Definition STREAK_MULTIPLIERS : list (Z * float) :=
  [ (3, PyFloat.literal 12 1);
    (7, PyFloat.literal 15 1);
    (30, PyFloat.literal 20 1) ].

Fixpoint get_streak_multiplier_loop (items : list (Z * float))
    (streak_days : Z) : float :=
  match items with
  | [] => PyFloat.literal 10 1
  | (days, multiplier) :: rest =>
      if streak_days >=? days then multiplier
      else get_streak_multiplier_loop rest streak_days
  end.

Definition get_streak_multiplier (streak_days : Z) : float :=
  get_streak_multiplier_loop
    (Py.sorted Py.item_ltb true STREAK_MULTIPLIERS) streak_days.

End MainOld.

(** ** The datastore

    The two relations the wallet code reads and writes through the Supabase
    client, as lists of rows, and the queries the code builds.  Timestamps
    are seconds of UTC time; the calendar date [YYYY-MM-DD] of a timestamp,
    which the code obtains as the first ten characters of its ISO rendering
    or by [strftime], is its day number. *)
Module Store.

(** The columns [earn_coins] supplies when it inserts an activity. *)
Record ActivityValues := {
  user_id : string;
  activity_type : string;
  coins_earned : Z;
  duration_minutes : option Z;
  notes : option string;
  streak_days : Z;
  multiplier_applied : float
}.

(** A row of [activities]: [created_at] is set by the store on insertion. *)
Record Activity := {
  values : ActivityValues;
  created_at : Z
}.

Record Wallet := {
  wallet_user_id : string;
  balance : Z;
  updated_at : Z
}.

Record Tables := {
  activities : list Activity;
  wallets : list Wallet
}.

(** What a request runs against: the tables, the UTC clock (it stands
    still while requests are served), and for each of the coming store
    calls whether the store is unreachable for it (no entry: reachable). *)
Record World := {
  tables : Tables;
  clock : Z;
  faults : list bool
}.

Definition seconds_per_day : Z := 86400.

(** The calendar day of a timestamp. *)
Definition date_of (t : Z) : Z := t / seconds_per_day.

(** The result of [.execute()]: the rows, or an exception of the client. *)
Inductive outcome (A : Type) :=
| Data (data : A)
| APIError.
Arguments Data {A} data.
Arguments APIError {A}.

(** The calls the code makes, indexed by what they return. *)
Inductive op : Type -> Type :=
| UtcNow : op Z
    (* datetime.utcnow() *)
| SelectCreatedAt (user : string) (since : Z) : op (outcome (list Z))
    (* activities.select('created_at').eq('user_id', user)
         .gte('created_at', since).order('created_at', desc=True) *)
| InsertActivity (v : ActivityValues) : op (outcome (list Activity))
    (* activities.insert({...}) *)
| SelectBalance (user : string) : op (outcome (list Z))
    (* wallets.select('balance').eq('user_id', user) *)
| UpdateWallet (user : string) (new_balance now : Z)
    : op (outcome (list Wallet))
    (* wallets.update({'balance': .., 'updated_at': ..}).eq('user_id', user) *)
| SelectActivities (user : string) (limit : Z)
    : op (outcome (list Activity)).
    (* activities.select('*').eq('user_id', user)
         .order('created_at', desc=True).limit(limit) *)

Definition of_user (user : string) (a : Activity) : bool :=
  String.eqb (user_id (values a)) user.

Definition owned_by (user : string) (w : Wallet) : bool :=
  String.eqb (wallet_user_id w) user.

(** [.order('created_at', desc=True)] *)
Definition order_desc (l : list Activity) : list Activity :=
  Py.sorted (fun a b => created_at a <? created_at b) true l.

(** [.limit(n)]: the first [n] rows; the store refuses a negative [n]. *)
Definition limit_rows {A} (n : Z) (l : list A) : outcome (list A) :=
  if n <? 0 then APIError else Data (firstn (Z.to_nat n) l).

Definition set_balance (user : string) (new_balance now : Z) (w : Wallet)
  : Wallet :=
  if owned_by user w
  then {| wallet_user_id := wallet_user_id w;
          balance := new_balance;
          updated_at := now |}
  else w.

(** One call on the tables: the new tables and the rows returned. *)
Definition query {B} (o : op B) (now : Z) (t : Tables) : Tables * B :=
  match o in op B return Tables * B with
  | UtcNow => (t, now)
  | SelectCreatedAt user since =>
      (t, Data (map created_at
                 (order_desc
                    (filter (fun a => of_user user a
                                      && (since <=? created_at a))
                            (activities t)))))
  | InsertActivity v =>
      let row := {| values := v; created_at := now |} in
      ({| activities := activities t ++ [row]; wallets := wallets t |},
       Data [row])
  | SelectBalance user =>
      (t, Data (map balance (filter (owned_by user) (wallets t))))
  | UpdateWallet user new_balance at_ =>
      let ws := map (set_balance user new_balance at_) (wallets t) in
      ({| activities := activities t; wallets := ws |},
       Data (filter (owned_by user) ws))
  | SelectActivities user limit =>
      (t, limit_rows limit
            (order_desc (filter (of_user user) (activities t))))
  end.

(** The answer of an unreachable store. *)
Definition unreachable {B} (o : op B) (now : Z) : B :=
  match o in op B return B with
  | UtcNow => now
  | SelectCreatedAt _ _ => APIError
  | InsertActivity _ => APIError
  | SelectBalance _ => APIError
  | UpdateWallet _ _ _ => APIError
  | SelectActivities _ _ => APIError
  end.

Definition is_store_call {B} (o : op B) : bool :=
  match o with UtcNow => false | _ => true end.

(** One call in a world: reading the clock always succeeds; a store call
    consumes the next fault entry and leaves the tables alone when the
    store is unreachable. *)
Definition exec {B} (o : op B) (w : World) : World * B :=
  if is_store_call o then
    match faults w with
    | true :: fs =>
        ({| tables := tables w; clock := clock w; faults := fs |},
         unreachable o (clock w))
    | fs =>
        let '(t, r) := query o (clock w) (tables w) in
        ({| tables := t; clock := clock w; faults := tl fs |}, r)
    end
  else
    let '(t, r) := query o (clock w) (tables w) in
    ({| tables := t; clock := clock w; faults := faults w |}, r).

(** The balance a reader sees for a user: [data[0]['balance']]. *)
Definition balance_of (t : Tables) (user : string) : option Z :=
  hd_error (map balance (filter (owned_by user) (wallets t))).

End Store.

(** ** Request handlers as programs over the store

    A handler is a tree of calls: each call is one atomic step on the
    shared store, so the same definition runs alone ([run]) or interleaved
    with the requests that other workers serve at the same time
    ([interleave]). *)
Module Handler.
Import Store.

Inductive exn :=
| HTTPException (status_code : Z) (detail : string)
| RequestValidationError      (* raised by the framework: HTTP 422 *)
| Exception (msg : string).

(** [str(e)] *)
Definition str (e : exn) : string :=
  match e with
  | HTTPException _ detail => detail
  | RequestValidationError => "validation error"
  | Exception msg => msg
  end.

Inductive prog (A : Type) : Type :=
| Ret (a : A)
| Raise (e : exn)
| Call {B : Type} (o : op B) (k : B -> prog A).
Arguments Ret {A} a.
Arguments Raise {A} e.
Arguments Call {A B} o k.

Fixpoint bind {A B} (p : prog A) (f : A -> prog B) : prog B :=
  match p with
  | Ret a => f a
  | Raise e => Raise e
  | Call o k => Call o (fun r => bind (k r) f)
  end.

(** [try: body except ... as e: handler e] *)
Fixpoint try_except {A} (body : prog A) (handler : exn -> prog A) : prog A :=
  match body with
  | Ret a => Ret a
  | Raise e => handler e
  | Call o k => Call o (fun r => try_except (k r) handler)
  end.

(** [query.execute()]: the rows, or the client's exception raised. *)
Definition execute {A} (o : op (outcome A)) : prog A :=
  Call o (fun r => match r with
                   | Data d => Ret d
                   | APIError => Raise (Exception "APIError")
                   end).

Definition utcnow : prog Z := Call UtcNow Ret.

(** A Python expression that returns or raises. *)
Definition value_or {A} (o : option A) (msg : string) : prog A :=
  match o with
  | Some a => Ret a
  | None => Raise (Exception msg)
  end.

(** A request served alone. *)
Fixpoint run {A} (p : prog A) (w : World) : World * (exn + A) :=
  match p with
  | Ret a => (w, inr a)
  | Raise e => (w, inl e)
  | Call o k => let '(w', r) := exec o w in run (k r) w'
  end.

(** Requests served one after the other. *)
Fixpoint run_all {A} (ps : list (prog A)) (w : World)
  : World * list (exn + A) :=
  match ps with
  | [] => (w, [])
  | p :: ps' =>
      let '(w1, r) := run p w in
      let '(w2, rs) := run_all ps' w1 in
      (w2, r :: rs)
  end.

(** One step of one request. *)
Definition step {A} (p : prog A) (w : World) : World * prog A :=
  match p with
  | Call o k => let '(w', r) := exec o w in (w', k r)
  | _ => (w, p)
  end.

Fixpoint set_nth {A} (i : nat) (x : A) (l : list A) : list A :=
  match l, i with
  | [], _ => []
  | _ :: l', O => x :: l'
  | y :: l', S j => y :: set_nth j x l'
  end.

(** Concurrent requests: the schedule names, step after step, the request
    that makes its next store call. *)
Fixpoint interleave {A} (schedule : list nat) (threads : list (prog A))
    (w : World) : World * list (prog A) :=
  match schedule with
  | [] => (w, threads)
  | i :: rest =>
      match nth_error threads i with
      | None => interleave rest threads w
      | Some p =>
          let '(w', p') := step p w in
          interleave rest (set_nth i p' threads) w'
      end
  end.

(** The number of calls a request makes when it is served alone. *)
Fixpoint calls {A} (p : prog A) (w : World) : nat :=
  match p with
  | Call o k => let '(w', r) := exec o w in S (calls (k r) w')
  | _ => O
  end.

(** A request that has been answered. *)
Definition answered {A} (r : exn + A) : prog A :=
  match r with
  | inl e => Raise e
  | inr a => Ret a
  end.

(** The schedule that serves the requests one after the other, the first
    of them being request number [i]. *)
Fixpoint one_by_one {A} (i : nat) (ps : list (prog A)) (w : World)
  : list nat :=
  match ps with
  | [] => []
  | p :: ps' =>
      (repeat i (calls p w) ++ one_by_one (S i) ps' (fst (run p w)))%list
  end.

End Handler.

Declare Scope prog_scope.
Delimit Scope prog_scope with prog.
Notation "x <- c ;; k" := (Handler.bind c (fun x => k))
  (at level 61, c at next level, right associativity) : prog_scope.

(** ** The handlers of [api/wallet.py] *)
Module Wallet.
Import Store Handler.
Local Open Scope prog_scope.

(** The set of dates and its two operations, [add] and [in]. *)
Definition date_set : Type := set Z.
Definition date_add (d : Z) (s : date_set) : date_set := set_add Z.eq_dec d s.
Definition date_in (d : Z) (s : date_set) : bool := set_mem Z.eq_dec d s.

(** The dates of the set that the walk has not passed yet. *)
Definition dates_left (s : date_set) (current_date : Z) : nat :=
  List.length (filter (fun d => d <=? current_date) s).

(** The [while True] loop of [calculate_user_streak]: it ends because
    every turn that goes on passes a date of the finite set. *)
Equations? streak_loop (activity_dates : date_set) (current_date : Z)
    (streak : Z) : Z by wf (dates_left activity_dates current_date) lt :=
  streak_loop activity_dates current_date streak
    with Logic.inspect (date_in current_date activity_dates) => {
    | exist _ true _ =>
        streak_loop activity_dates (current_date - 1) (streak + 1)
    | exist _ false _ => streak }.
Proof.
  clear streak_loop.
  match goal with H : date_in _ _ = true |- _ =>
    apply set_mem_correct1 in H; revert H end.
  unfold dates_left. generalize current_date as c.
  induction activity_dates as [|d s IH]; intros c H; [contradiction|].
  assert (Hle : forall l : list Z,
            (List.length (filter (fun x => (x <=? c - 1)%Z) l)
             <= List.length (filter (fun x => (x <=? c)%Z) l))%nat).
  { induction l as [|x l IHl]; simpl; [lia|].
    destruct (x <=? c - 1) eqn:E1, (x <=? c) eqn:E2; simpl; lia. }
  specialize (Hle s). simpl.
  destruct H as [->|H].
  - replace (c <=? c - 1) with false by lia.
    replace (c <=? c) with true by lia. simpl. lia.
  - specialize (IH c H).
    destruct (d <=? c - 1) eqn:E1, (d <=? c) eqn:E2; simpl; lia.
Qed.

Definition sixty_days : Z := 60 * seconds_per_day.

Definition calculate_user_streak (user_id : string) : prog Z :=
  try_except
    (now <- utcnow ;;
     let sixty_days_ago := now - sixty_days in
     data <- execute (SelectCreatedAt user_id sixty_days_ago) ;;
     match data with
     | [] => Ret 0
     | _ =>
         let activity_dates :=
           fold_left (fun s created_at => date_add (date_of created_at) s)
                     data (empty_set Z) in
         today <- utcnow ;;
         Ret (streak_loop activity_dates (date_of today) 0)
     end)
    (fun _ => Ret 0).

(** The body of a successful [POST /earn]. *)
Record EarnResult := {
  earned_message : string;
  earned_activity_type : string;
  base_coins : Z;
  earned_streak_days : Z;
  streak_multiplier : float;
  final_coins : Z;
  new_balance : Z
}.

(** [except HTTPException: raise] followed by [except Exception as e:
    raise HTTPException(500, prefix + str(e))]. *)
Definition reraise_as_500 {A} (prefix : string) (e : exn) : prog A :=
  match e with
  | HTTPException _ _ => Raise e
  | _ => Raise (HTTPException 500 (prefix ++ str e)%string)
  end.

Definition earn_coins (activity : Schemas.ActivityCreate)
    (current_user : string) : prog EarnResult :=
  try_except
    (base <- value_or (Py.getitem Schemas.ActivityType_eqb
                         Policy.ACTIVITY_COINS
                         (Schemas.activity_type activity)) "KeyError" ;;
     streak <- calculate_user_streak current_user ;;
     let multiplier := Policy.get_streak_multiplier streak in
     coins <- value_or (Policy.final_coins base multiplier)
                "OverflowError" ;;
     activity_result <- execute (InsertActivity
       {| user_id := current_user;
          activity_type := Schemas.value (Schemas.activity_type activity);
          coins_earned := coins;
          duration_minutes := Schemas.duration_minutes activity;
          notes := Schemas.notes activity;
          streak_days := streak;
          multiplier_applied := multiplier |}) ;;
     match activity_result with
     | [] => Raise (HTTPException 500 "Failed to record activity")
     | _ =>
         wallet_result <- execute (SelectBalance current_user) ;;
         match wallet_result with
         | [] => Raise (HTTPException 404 "Wallet not found")
         | current_balance :: _ =>
             let new_balance := current_balance + coins in
             now <- utcnow ;;
             update_result <-
               execute (UpdateWallet current_user new_balance now) ;;
             match update_result with
             | [] => Raise (HTTPException 500 "Failed to update balance")
             | _ =>
                 Ret {| earned_message := "Coins earned successfully!";
                        earned_activity_type :=
                          Schemas.value (Schemas.activity_type activity);
                        base_coins := base;
                        earned_streak_days := streak;
                        streak_multiplier := multiplier;
                        final_coins := coins;
                        new_balance := new_balance |}
             end
         end
     end)
    (reraise_as_500 "Failed to earn coins: ").

(** [POST /earn] as the framework serves it: the body is validated
    against [ActivityCreate] before the handler is called. *)
Definition post_earn (body : Schemas.ActivityCreateBody)
    (current_user : string) : prog EarnResult :=
  match Schemas.validate body with
  | None => Raise RequestValidationError
  | Some activity => earn_coins activity current_user
  end.

Record History := {
  history_activities : list Activity;
  total : nat
}.

Definition get_activity_history (limit : Z) (current_user : string)
  : prog History :=
  try_except
    (data <- execute (SelectActivities current_user limit) ;;
     Ret {| history_activities := data; total := List.length data |})
    (fun e =>
       Raise (HTTPException 500 ("Failed to get history: " ++ str e)%string)).

(** [GET /activities/history]: [limit: int = 10]. *)
Definition get_history (limit : option Z) (current_user : string)
  : prog History :=
  get_activity_history (match limit with Some n => n | None => 10 end)
                       current_user.

End Wallet.

(** * Vocabulary of the properties *)

(** The comparison [ltr] places [x] rightly with respect to [y] for the
    order [R]. *)
Definition placed {A} (ltr : A -> A -> bool) (R : A -> A -> Prop) (x y : A)
  : Prop :=
  if ltr y x then R y x else R x y.

(** The tier selected for a streak: the entry of the highest threshold
    within the streak, if there is one. *)
Definition selects (table : list (Z * float)) (s : Z) (r : float) : Prop :=
  (exists d m, In (d, m) table /\ d <= s /\
               (forall d' m', In (d', m') table -> d' <= s -> d' <= d) /\
               r = m)
  \/ ((forall d' m', In (d', m') table -> s < d') /\
      r = PyFloat.literal 10 1).

(** The milestone reported for a streak: the lowest threshold above it with
    its multiplier and the distance, or the terminal state on the highest
    threshold's multiplier. *)
Definition milestone (table : list (Z * float)) (c : Z)
    (r : option Policy.StreakTarget) : Prop :=
  (exists d m, In (d, m) table /\ c < d /\
               (forall d' m', In (d', m') table -> c < d' -> d <= d') /\
               r = Some {| Policy.days_needed := d - c;
                           Policy.target_days := d;
                           Policy.bonus_multiplier := m;
                           Policy.message := None |})
  \/ (exists top m, In (top, m) table /\ top <= c /\
               (forall d' m', In (d', m') table -> d' <= top) /\
               r = Some {| Policy.days_needed := 0;
                           Policy.target_days := c;
                           Policy.bonus_multiplier := m;
                           Policy.message :=
                             Some "Maximum streak bonus achieved!" |}).

(** The reward as the specification words it, in exact arithmetic: the
    multiplier of the highest tier of {3: 1.2, 7: 1.5, 30: 2.0} that the
    streak reaches, 1.0 below the first, as tenths; and the floor of base
    coins times multiplier. *)
Definition spec_tenths (streak_days : Z) : Z :=
  if 30 <=? streak_days then 20
  else if 7 <=? streak_days then 15
  else if 3 <=? streak_days then 12
  else 10.

Definition spec_multiplier (streak_days : Z) : Q := spec_tenths streak_days # 10.

Definition spec_final_coins (base_coins streak_days : Z) : Z :=
  Qfloor (inject_Z base_coins * spec_multiplier streak_days).

(** The user has an activity of the window on calendar day [d]: one that
    the store returns for the 60-day lookback at [now]. *)
Definition active_on (t : Store.Tables) (user : string) (now d : Z) : Prop :=
  exists a, In a (Store.activities t)
            /\ Store.user_id (Store.values a) = user
            /\ now - Wallet.sixty_days <= Store.created_at a
            /\ Store.date_of (Store.created_at a) = d.

(** The rows of the lookback query of [calculate_user_streak]. *)
Definition window_rows (t : Store.Tables) (user : string) (now : Z) : list Z :=
  map Store.created_at
    (Store.order_desc
       (filter (fun a => Store.of_user user a
                         && (now - Wallet.sixty_days <=? Store.created_at a))
               (Store.activities t))).

(** The set of dates the loop of [calculate_user_streak] tests. *)
Definition dates_of (data : list Z) : Wallet.date_set :=
  fold_left (fun s created_at => Wallet.date_add (Store.date_of created_at) s)
            data (empty_set Z).

(** A world after one store call that left the tables alone. *)
Definition served (w : Store.World) : Store.World :=
  {| Store.tables := Store.tables w;
     Store.clock := Store.clock w;
     Store.faults := tl (Store.faults w) |}.

(** What [calculate_user_streak] returns when the store answers. *)
Definition streak_of (t : Store.Tables) (user : string) (now : Z) : Z :=
  match window_rows t user now with
  | [] => 0
  | data => Wallet.streak_loop (dates_of data) (Store.date_of now) 0
  end.

(** A user, a clock and some activities to run the handlers on. *)
Definition activity_at (user : string) (t : Z) : Store.Activity :=
  {| Store.values :=
       {| Store.user_id := user;
          Store.activity_type := "pomodoro_25min";
          Store.coins_earned := 50;
          Store.duration_minutes := Some 25;
          Store.notes := None;
          Store.streak_days := 0;
          Store.multiplier_applied := PyFloat.literal 10 1 |};
     Store.created_at := t |}.

Definition noon (day : Z) : Z := day * 86400 + 43200.

(** Day 1000 at 18:00; ana was active twice today, once yesterday and once
    three days ago; bob was active two days ago. *)
Definition ana_world (faults : list bool) : Store.World :=
  {| Store.tables :=
       {| Store.activities :=
            [ activity_at "ana" (noon 997);
              activity_at "bob" (noon 998);
              activity_at "ana" (noon 999);
              activity_at "ana" (noon 1000);
              activity_at "ana" (noon 1000 + 60) ];
          Store.wallets :=
            [ {| Store.wallet_user_id := "ana"; Store.balance := 100;
                 Store.updated_at := 0 |} ] |};
     Store.clock := 1000 * 86400 + 64800;
     Store.faults := faults |}.

(** Day 1000 at 18:00; dan was active at noon on each of the hundred days
    up to today, and also at 23:00 sixty days ago. *)
Definition dan_world : Store.World :=
  {| Store.tables :=
       {| Store.activities :=
            (map (fun i => activity_at "dan" (noon (1000 - Z.of_nat i)))
                 (seq 0 100)
             ++ [ activity_at "dan" (940 * 86400 + 82800) ])%list;
          Store.wallets := [] |};
     Store.clock := 1000 * 86400 + 64800;
     Store.faults := [] |}.

(** The activity row [earn_coins] inserts. *)
Definition earned_row (a : Schemas.ActivityCreate) (user : string)
    (base streak now : Z) : Store.Activity :=
  {| Store.values :=
       {| Store.user_id := user;
          Store.activity_type := Schemas.value (Schemas.activity_type a);
          Store.coins_earned := spec_final_coins base streak;
          Store.duration_minutes := Schemas.duration_minutes a;
          Store.notes := Schemas.notes a;
          Store.streak_days := streak;
          Store.multiplier_applied := Policy.get_streak_multiplier streak |};
     Store.created_at := now |}.

Definition pomodoro : Schemas.ActivityCreate :=
  {| Schemas.activity_type := Schemas.POMODORO;
     Schemas.duration_minutes := Some 25;
     Schemas.notes := None |}.

Definition total_coins (results : list Wallet.EarnResult) : Z :=
  fold_right (fun r acc => Wallet.final_coins r + acc) 0 results.

(** The records of a user, as the history query orders them. *)
Definition recent_first (t : Store.Tables) (user : string)
  : list Store.Activity :=
  Store.order_desc (filter (Store.of_user user) (Store.activities t)).

Definition history_reply (limit : Z) (l : list Store.Activity)
  : Handler.exn + Wallet.History :=
  match Store.limit_rows limit l with
  | Store.Data d =>
      inr {| Wallet.history_activities := d; Wallet.total := List.length d |}
  | Store.APIError =>
      inl (Handler.HTTPException 500 "Failed to get history: APIError")
  end.

(** * The rest of the backend

    The handlers of [api/wallet.py] that read the wallet and the
    statistics, and the handlers of [api/auth.py] (the same as in
    [main_old.py]), over a store that also holds the users. *)
Module App.

(** A row of [users]; [id] and [created_at] are set by the store. *)
Record User := {
  id : string;
  email : string;
  password_hash : string;
  created_at : Z
}.

(** What the code calls in the bcrypt and JWT libraries and in the
    validator of e-mail addresses; [None] stands for an exception. *)
Record Libs := {
  valid_email : string -> bool;
    (* EmailStr *)
  hashpw : string -> option string;
    (* hash_password(password) *)
  checkpw : string -> string -> option bool;
    (* verify_password(password, hashed) *)
  jwt_encode : string -> Z -> string;
    (* create_access_token(user_id), at a time *)
  jwt_decode : string -> Z -> option (option string)
    (* verify_token(token), at a time: payload.get("sub") *)
}.

(** The users, the identifiers the store gives to the users to come, and
    the world of the wallet code. *)
Record World := {
  users : list User;
  ids : list string;
  store : Store.World
}.

Inductive op : Type -> Type :=
| Base {B : Type} (o : Store.op B) : op B
| SelectWallet (user : string) : op (Store.outcome (list Store.Wallet))
    (* wallets.select('*').eq('user_id', user) *)
| SelectUserActivities (user : string)
    : op (Store.outcome (list Store.Activity))
    (* activities.select('*').eq('user_id', user) *)
| SelectUserIdByEmail (e : string) : op (Store.outcome (list string))
    (* users.select('id').eq('email', e) *)
| SelectUserByEmail (e : string) : op (Store.outcome (list User))
    (* users.select('*').eq('email', e) *)
| SelectUserById (i : string) : op (Store.outcome (list User))
    (* users.select('*').eq('id', i) *)
| InsertUser (e hash : string) : op (Store.outcome (list User))
    (* users.insert({'email': e, 'password_hash': hash}) *)
| InsertWallet (user : string) (balance : Z)
    : op (Store.outcome (list Store.Wallet))
    (* wallets.insert({'user_id': user, 'balance': balance}) *)
| DeleteUser (i : string) : op (Store.outcome (list User)).
    (* users.delete().eq('id', i) *)

Definition has_email (e : string) (u : User) : bool := String.eqb (email u) e.
Definition has_id (i : string) (u : User) : bool := String.eqb (id u) i.

(** A call of this layer on the users and the tables: the new users, the
    identifiers left, the new tables and the rows returned. *)
Definition query {B} (o : op B) (now : Z) (us : list User)
    (fresh : list string) (t : Store.Tables)
  : list User * list string * Store.Tables * B :=
  match o in op B return list User * list string * Store.Tables * B with
  | Base o' => let '(t', r) := Store.query o' now t in (us, fresh, t', r)
  | SelectWallet user =>
      (us, fresh, t,
       Store.Data (filter (Store.owned_by user) (Store.wallets t)))
  | SelectUserActivities user =>
      (us, fresh, t,
       Store.Data (filter (Store.of_user user) (Store.activities t)))
  | SelectUserIdByEmail e =>
      (us, fresh, t, Store.Data (map id (filter (has_email e) us)))
  | SelectUserByEmail e =>
      (us, fresh, t, Store.Data (filter (has_email e) us))
  | SelectUserById i =>
      (us, fresh, t, Store.Data (filter (has_id i) us))
  | InsertUser e hash =>
      match fresh with
      | [] => (us, fresh, t, Store.APIError)
      | i :: fresh' =>
          let row := {| id := i; email := e; password_hash := hash;
                        created_at := now |} in
          ((us ++ [row])%list, fresh', t, Store.Data [row])
      end
  | InsertWallet user balance =>
      let row := {| Store.wallet_user_id := user;
                    Store.balance := balance;
                    Store.updated_at := now |} in
      (us, fresh,
       {| Store.activities := Store.activities t;
          Store.wallets := (Store.wallets t ++ [row])%list |},
       Store.Data [row])
  | DeleteUser i =>
      (filter (fun u => negb (has_id i u)) us, fresh, t,
       Store.Data (filter (has_id i) us))
  end.

Definition unreachable {B} (o : op B) (now : Z) : B :=
  match o in op B return B with
  | Base o' => Store.unreachable o' now
  | SelectWallet _ => Store.APIError
  | SelectUserActivities _ => Store.APIError
  | SelectUserIdByEmail _ => Store.APIError
  | SelectUserByEmail _ => Store.APIError
  | SelectUserById _ => Store.APIError
  | InsertUser _ _ => Store.APIError
  | InsertWallet _ _ => Store.APIError
  | DeleteUser _ => Store.APIError
  end.

(** One call in a world: a call of the wallet code is the one of [Store];
    the other calls consume the next fault entry like it. *)
Definition exec {B} (o : op B) (w : World) : World * B :=
  match o in op B return World * B with
  | Base o' =>
      let '(s, r) := Store.exec o' (store w) in
      ({| users := users w; ids := ids w; store := s |}, r)
  | o' =>
      let s := store w in
      match Store.faults s with
      | true :: fs =>
          ({| users := users w; ids := ids w;
              store := {| Store.tables := Store.tables s;
                          Store.clock := Store.clock s;
                          Store.faults := fs |} |},
           unreachable o' (Store.clock s))
      | fs =>
          let '(us, fresh, t, r) :=
            query o' (Store.clock s) (users w) (ids w) (Store.tables s) in
          ({| users := us; ids := fresh;
              store := {| Store.tables := t;
                          Store.clock := Store.clock s;
                          Store.faults := tl fs |} |}, r)
      end
  end.

Inductive prog (A : Type) : Type :=
| Ret (a : A)
| Raise (e : Handler.exn)
| Call {B : Type} (o : op B) (k : B -> prog A).
Arguments Ret {A} a.
Arguments Raise {A} e.
Arguments Call {A B} o k.

Fixpoint bind {A B} (p : prog A) (f : A -> prog B) : prog B :=
  match p with
  | Ret a => f a
  | Raise e => Raise e
  | Call o k => Call o (fun r => bind (k r) f)
  end.

Fixpoint try_except {A} (body : prog A) (handler : Handler.exn -> prog A)
  : prog A :=
  match body with
  | Ret a => Ret a
  | Raise e => handler e
  | Call o k => Call o (fun r => try_except (k r) handler)
  end.

(** A handler of the wallet code, called from this layer. *)
Fixpoint lift {A} (p : Handler.prog A) : prog A :=
  match p with
  | Handler.Ret a => Ret a
  | Handler.Raise e => Raise e
  | Handler.Call o k => Call (Base o) (fun r => lift (k r))
  end.

Definition execute {A} (o : op (Store.outcome A)) : prog A :=
  Call o (fun r => match r with
                   | Store.Data d => Ret d
                   | Store.APIError => Raise (Handler.Exception "APIError")
                   end).

Definition utcnow : prog Z := Call (Base Store.UtcNow) Ret.

Definition value_or {A} (o : option A) (msg : string) : prog A :=
  match o with
  | Some a => Ret a
  | None => Raise (Handler.Exception msg)
  end.

Fixpoint run {A} (p : prog A) (w : World) : World * (Handler.exn + A) :=
  match p with
  | Ret a => (w, inr a)
  | Raise e => (w, inl e)
  | Call o k => let '(w', r) := exec o w in run (k r) w'
  end.

(** [except HTTPException: raise] and [except Exception as e: raise
    HTTPException(500, prefix + str(e))]. *)
Definition reraise_as_500 {A} (prefix : string) (e : Handler.exn) : prog A :=
  match e with
  | Handler.HTTPException _ _ => Raise e
  | _ => Raise (Handler.HTTPException 500 (prefix ++ Handler.str e)%string)
  end.

(** *** [api/wallet.py]: the balance and the statistics *)

Definition get_balance (current_user : string) : prog Store.Wallet :=
  try_except
    (bind (execute (SelectWallet current_user)) (fun wallet_result =>
     match wallet_result with
     | [] => Raise (Handler.HTTPException 404 "Wallet not found")
     | wallet :: _ => Ret wallet
     end))
    (reraise_as_500 "Failed to get balance: ").

(** [activity_counts[k] = activity_counts.get(k, 0) + 1] on a dict kept in
    insertion order. *)
Fixpoint count_add (k : string) (d : list (string * Z)) : list (string * Z) :=
  match d with
  | [] => [(k, 1)]
  | (k', n) :: d' =>
      if String.eqb k' k then (k', n + 1) :: d' else (k', n) :: count_add k d'
  end.

Definition activity_counts (rows : list Store.Activity) : list (string * Z) :=
  fold_left (fun d a => count_add (Store.activity_type (Store.values a)) d)
            rows [].

(** [max(d, key=d.get)]: the first key, in the order of the dict, whose
    value is the greatest. *)
Definition max_by_value (d : list (string * Z)) : option (string * Z) :=
  fold_left (fun best kv =>
               match best with
               | None => Some kv
               | Some (_, m) => if m <? snd kv then Some kv else best
               end)
            d None.

Definition sum_coins (rows : list Store.Activity) : Z :=
  fold_left (fun acc a => acc + Store.coins_earned (Store.values a)) rows 0.

Record Stats := {
  stats_balance : Z;
  total_activities : Z;
  total_earned : Z;
  current_streak : Z;
  favorite_activity : option string;
  next_streak_bonus : Policy.StreakTarget
}.

Definition get_user_stats (current_user : string) : prog Stats :=
  try_except
    (bind (execute (Base (Store.SelectBalance current_user))) (fun wallet =>
     let balance := match wallet with b :: _ => b | [] => 0 end in
     bind (execute (SelectUserActivities current_user)) (fun activities =>
     let total_activities := Z.of_nat (List.length activities) in
     let total_earned := sum_coins activities in
     bind (lift (Wallet.calculate_user_streak current_user)) (fun streak =>
     let favorite :=
       match activities with
       | [] => None
       | _ => option_map fst (max_by_value (activity_counts activities))
       end in
     bind (value_or (Policy.get_next_streak_target streak) "ValueError")
       (fun next =>
     Ret {| stats_balance := balance;
            total_activities := total_activities;
            total_earned := total_earned;
            current_streak := streak;
            favorite_activity := favorite;
            next_streak_bonus := next |})))))
    (fun e =>
       Raise (Handler.HTTPException 500
                ("Failed to get stats: " ++ Handler.str e)%string)).

(** *** [api/auth.py] *)

(** [UserCreate] and [UserLogin], once validated. *)
Record Credentials := {
  cred_email : string;
  cred_password : string
}.

Record UserResponse := {
  resp_id : string;
  resp_email : string;
  resp_created_at : Z
}.

Record TokenResponse := {
  access_token : string;
  token_type : string;
  token_user : UserResponse
}.

(** The [UserResponse] built from a row of [users]. *)
Definition response_of (u : User) : UserResponse :=
  {| resp_id := id u; resp_email := email u; resp_created_at := created_at u |}.

(** The [TokenResponse] of a user: a token created for the [id] of the row,
    and the [UserResponse] of the row. *)
Definition token_for (L : Libs) (u : User) : prog TokenResponse :=
  bind utcnow (fun now =>
  Ret {| access_token := jwt_encode L (id u) now;
         token_type := "bearer";
         token_user := response_of u |}).

Definition register (L : Libs) (user_data : Credentials)
  : prog TokenResponse :=
  try_except
    (bind (execute (SelectUserIdByEmail (cred_email user_data)))
       (fun existing =>
     match existing with
     | _ :: _ => Raise (Handler.HTTPException 400 "Email already registered")
     | [] =>
         bind (value_or (hashpw L (cred_password user_data)) "ValueError")
           (fun hashed_password =>
         bind (execute (InsertUser (cred_email user_data) hashed_password))
           (fun user_result =>
         match user_result with
         | [] => Raise (Handler.HTTPException 500 "Failed to create user")
         | user :: _ =>
             bind (execute (InsertWallet (id user) 100))
               (fun wallet_result =>
             match wallet_result with
             | [] =>
                 bind (execute (DeleteUser (id user))) (fun _ =>
                 Raise (Handler.HTTPException 500 "Failed to create wallet"))
             | _ :: _ => token_for L user
             end)
         end))
     end))
    (reraise_as_500 "Registration failed: ").

Definition login (L : Libs) (credentials : Credentials)
  : prog TokenResponse :=
  try_except
    (bind (execute (SelectUserByEmail (cred_email credentials)))
       (fun user_result =>
     match user_result with
     | [] => Raise (Handler.HTTPException 401 "Invalid credentials")
     | user :: _ =>
         bind (value_or (checkpw L (cred_password credentials)
                                 (password_hash user)) "ValueError")
           (fun verified =>
         if verified then token_for L user
         else Raise (Handler.HTTPException 401 "Invalid credentials"))
     end))
    (reraise_as_500 "Login failed: ").

Definition get_current_user (L : Libs) (token : string) : prog UserResponse :=
  try_except
    (bind utcnow (fun now =>
     bind (value_or (jwt_decode L token now) "Invalid token") (fun sub =>
     match sub with
     | None | Some EmptyString =>
         Raise (Handler.HTTPException 401 "Invalid token")
     | Some user_id =>
         bind (execute (SelectUserById user_id)) (fun user_result =>
         match user_result with
         | [] => Raise (Handler.HTTPException 401 "User not found")
         | user :: _ => Ret (response_of user)
         end)
     end)))
    (fun e =>
       match e with
       | Handler.HTTPException _ _ => Raise e
       | _ => Raise (Handler.HTTPException 401 "Invalid token")
       end).

(** A route that depends on [get_current_user]. *)
Definition authenticated {A} (L : Libs) (token : string)
    (route : string -> prog A) : prog A :=
  bind (get_current_user L token) (fun current_user =>
  route (resp_id current_user)).



End App.

(** ** Vocabulary of the further properties *)

(** The calls that change no row. *)
Definition store_reads {B} (o : Store.op B) : bool :=
  match o with
  | Store.InsertActivity _ | Store.UpdateWallet _ _ _ => false
  | _ => true
  end.

Definition reads {B} (o : App.op B) : bool :=
  match o with
  | App.Base o' => store_reads o'
  | App.InsertUser _ _ | App.InsertWallet _ _ | App.DeleteUser _ => false
  | _ => true
  end.

(** A handler all of whose calls change no row. *)
Inductive ReadOnly {A : Type} : App.prog A -> Prop :=
| ReadOnly_Ret (a : A) : ReadOnly (App.Ret a)
| ReadOnly_Raise (e : Handler.exn) : ReadOnly (App.Raise e)
| ReadOnly_Call {B : Type} (o : App.op B) (k : B -> App.prog A) :
    reads o = true -> (forall r, ReadOnly (k r)) -> ReadOnly (App.Call o k).

(** Libraries to run the handlers with: a hash that is the password behind
    a prefix, a token that is the user behind a prefix. *)
Definition toy_libs : App.Libs :=
  {| App.valid_email :=
       fun e => match index 0 "@" e with Some _ => true | None => false end;
     App.hashpw := fun p => Some ("bcrypt:" ++ p)%string;
     App.checkpw := fun p h => Some (String.eqb h ("bcrypt:" ++ p)%string);
     App.jwt_encode := fun u _ => ("jwt:" ++ u)%string;
     App.jwt_decode :=
       fun tok _ =>
         if prefix "jwt:" tok
         then Some (Some (substring 4 (String.length tok - 4) tok))
         else None |}.

(** The world of ana with its users: ana is registered with the password
    [secret1]. *)
Definition ana_app (faults : list bool) : App.World :=
  {| App.users :=
       [ {| App.id := "ana"; App.email := "ana@example.org";
            App.password_hash := "bcrypt:secret1"; App.created_at := 0 |} ];
     App.ids := ["u2"; "u3"];
     App.store := ana_world faults |}.

(** The statistics of a user, read off the tables at a time. *)
Definition stats_of (t : Store.Tables) (user : string) (now : Z)
    (next : Policy.StreakTarget) : App.Stats :=
  let rows := filter (Store.of_user user) (Store.activities t) in
  {| App.stats_balance :=
       match map Store.balance (filter (Store.owned_by user) (Store.wallets t))
       with b :: _ => b | [] => 0 end;
     App.total_activities := Z.of_nat (List.length rows);
     App.total_earned := App.sum_coins rows;
     App.current_streak := streak_of t user now;
     App.favorite_activity :=
       match rows with
       | [] => None
       | _ => option_map fst (App.max_by_value (App.activity_counts rows))
       end;
     App.next_streak_bonus := next |}.

(** The calls that read or write the rows of one user only (reading the
    clock is such a call for every user). *)
Definition concerns (u : string) {B} (o : Store.op B) : bool :=
  match o with
  | Store.UtcNow => true
  | Store.SelectCreatedAt user _ => String.eqb user u
  | Store.InsertActivity v => String.eqb (Store.user_id v) u
  | Store.SelectBalance user => String.eqb user u
  | Store.UpdateWallet user _ _ => String.eqb user u
  | Store.SelectActivities user _ => String.eqb user u
  end.

(** A request all of whose calls concern one user. *)
Fixpoint About (u : string) {A} (p : Handler.prog A) : Prop :=
  match p with
  | Handler.Call o k => concerns u o = true /\ forall r, About u (k r)
  | _ => True
  end.

(** What the store holds for a user, and the time. *)
Definition view (u : string) (w : Store.World)
  : list Store.Activity * list Store.Wallet * Z :=
  (filter (Store.of_user u) (Store.activities (Store.tables w)),
   filter (Store.owned_by u) (Store.wallets (Store.tables w)),
   Store.clock w).

(** The first [n] steps of a request served alone. *)
Fixpoint steps {A} (n : nat) (p : Handler.prog A) (w : Store.World)
  : Store.World * Handler.prog A :=
  match n with
  | O => (w, p)
  | S n' => let '(w', p') := Handler.step p w in steps n' p' w'
  end.

(** The multipliers of a table do not decrease with the thresholds and are
    at least 1.0. *)
Definition increasing_table (table : list (Z * float)) : Prop :=
  (forall d m d' m', In (d, m) table -> In (d', m') table -> d <= d' ->
                     SFleb m m' = true)
  /\ (forall d m, In (d, m) table -> SFleb (PyFloat.literal 10 1) m = true).

(** The user and the wallet a registration creates. *)
Definition registered (w : App.World) (c : App.Credentials) (i hash : string)
  : App.World :=
  let s := App.store w in
  {| App.users :=
       (App.users w
          ++ [ {| App.id := i; App.email := App.cred_email c;
                  App.password_hash := hash;
                  App.created_at := Store.clock s |} ])%list;
     App.ids := tl (App.ids w);
     App.store :=
       {| Store.tables :=
            {| Store.activities := Store.activities (Store.tables s);
               Store.wallets :=
                 (Store.wallets (Store.tables s)
                    ++ [ {| Store.wallet_user_id := i;
                            Store.balance := 100;
                            Store.updated_at := Store.clock s |} ])%list |};
          Store.clock := Store.clock s;
          Store.faults := [] |} |}.

(** The answer of a login on a store that answers. *)
Definition login_reply (L : App.Libs) (c : App.Credentials) (w : App.World)
  : Handler.exn + App.TokenResponse :=
  match filter (App.has_email (App.cred_email c)) (App.users w) with
  | [] => inl (Handler.HTTPException 401 "Invalid credentials")
  | u :: _ =>
      match App.checkpw L (App.cred_password c) (App.password_hash u) with
      | Some true =>
          inr {| App.access_token :=
                   App.jwt_encode L (App.id u) (Store.clock (App.store w));
                 App.token_type := "bearer";
                 App.token_user := App.response_of u |}
      | Some false => inl (Handler.HTTPException 401 "Invalid credentials")
      | None => inl (Handler.HTTPException 500 "Login failed: ValueError")
      end
  end.

(** The number of times a type occurs among the types of some rows. *)
Definition occurrences (k : string) (ks : list string) : Z :=
  Z.of_nat (count_occ string_dec ks k).

(** The types of some rows in the order in which they first appear. *)
Definition first_seen (ks : list string) : list string :=
  fold_left (fun seen k => if existsb (String.eqb k) seen then seen
                           else (seen ++ [k])%list)
            ks [].

(** * Properties *)

(** ** Facts about [sorted] *)

(** Membership carried along a permutation, in either direction. *)
Ltac perm_in Hp :=
  eapply Permutation_in;
  [first [exact Hp | symmetry; exact Hp] | eassumption].

Lemma Forall_perm {A} (P : A -> Prop) (l l' : list A) :
  Permutation l l' -> Forall P l -> Forall P l'.
Proof.
  intros Hp H. rewrite Forall_forall in *. intros x Hx.
  apply H. eapply Permutation_in; [symmetry; exact Hp | exact Hx].
Qed.

Lemma ForallOrdPairs_impl {A} (R R' : A -> A -> Prop) (l : list A) :
  (forall x y, R x y -> R' x y) ->
  ForallOrdPairs R l -> ForallOrdPairs R' l.
Proof.
  intros HR. induction 1 as [|x l Hx Hl IH]; constructor; [|assumption].
  eapply Forall_impl; [|exact Hx]. intros y. apply HR.
Qed.

Section SortedFacts.
Context {A : Type}.
Variable ltr : A -> A -> bool.

Lemma insert_perm (x : A) (l : list A) :
  Permutation (Py.insert ltr x l) (x :: l).
Proof.
  induction l as [|y l IH]; simpl; [reflexivity|].
  destruct (ltr y x); [|reflexivity].
  rewrite IH. apply perm_swap.
Qed.

Lemma fold_insert_perm (l : list A) :
  Permutation (fold_right (Py.insert ltr) [] l) l.
Proof.
  induction l as [|x l IH]; simpl; [reflexivity|].
  rewrite insert_perm. now constructor.
Qed.

Variable R : A -> A -> Prop.
Hypothesis R_trans : forall a b c, R a b -> R b c -> R a c.

Lemma insert_sorted (x : A) (l : list A) :
  Forall (placed ltr R x) l ->
  StronglySorted R l -> StronglySorted R (Py.insert ltr x l).
Proof.
  induction l as [|y l IH]; simpl; intros Hp Hs.
  - repeat constructor.
  - inversion Hp as [|? ? Hy Hl]; subst.
    inversion Hs as [|? ? Hs' Hall]; subst.
    unfold placed in Hy. destruct (ltr y x).
    + constructor; [now apply IH|].
      apply (Forall_perm _ (x :: l)).
      * symmetry. apply insert_perm.
      * now constructor.
    + constructor; [assumption|].
      constructor; [assumption|].
      eapply Forall_impl; [|exact Hall]. intros z Hz. eauto.
Qed.

Lemma fold_insert_sorted (l : list A) :
  ForallOrdPairs (placed ltr R) l ->
  StronglySorted R (fold_right (Py.insert ltr) [] l).
Proof.
  induction 1 as [|x l Hx Hl IH]; simpl; [constructor|].
  apply insert_sorted; [|assumption].
  apply (Forall_perm _ l); [|assumption].
  symmetry. apply fold_insert_perm.
Qed.
End SortedFacts.

Lemma sorted_perm {A} (lt : A -> A -> bool) (reverse : bool) (l : list A) :
  Permutation (Py.sorted lt reverse l) l.
Proof. unfold Py.sorted. apply fold_insert_perm. Qed.

(** Distinct keys, pair by pair. *)
Lemma NoDup_keys_pairs (table : list (Z * float)) :
  NoDup (map fst table) ->
  ForallOrdPairs (fun x y => fst x <> fst y) table.
Proof.
  induction table as [|x t IH]; simpl; intros H; [constructor|].
  inversion H as [|? ? Hx Ht]; subst. constructor; [|auto].
  apply Forall_forall. intros y Hy E. apply Hx. rewrite E. now apply in_map.
Qed.

(** A table with distinct keys comes out of [sorted(..., reverse=True)]
    with strictly decreasing thresholds. *)
Lemma sorted_items_desc (table : list (Z * float)) :
  NoDup (map fst table) ->
  StronglySorted (fun a b => fst b < fst a)
                 (Py.sorted Py.item_ltb true table).
Proof.
  intros H. unfold Py.sorted.
  apply (fold_insert_sorted _ (fun a b => fst b < fst a)); [intros; lia|].
  eapply ForallOrdPairs_impl; [|apply NoDup_keys_pairs, H].
  intros [dx mx] [dy my] Hxy. unfold placed, Py.item_ltb. simpl in *.
  destruct (dx <? dy) eqn:E1; simpl; [lia|].
  destruct (dx =? dy) eqn:E2; simpl; lia.
Qed.

(** ... and out of [sorted(...)] with strictly increasing thresholds. *)
Lemma sorted_items_asc (table : list (Z * float)) :
  NoDup (map fst table) ->
  StronglySorted (fun a b => fst a < fst b)
                 (Py.sorted Py.item_ltb false table).
Proof.
  intros H. unfold Py.sorted.
  apply (fold_insert_sorted _ (fun a b => fst a < fst b)); [intros; lia|].
  eapply ForallOrdPairs_impl; [|apply NoDup_keys_pairs, H].
  intros [dx mx] [dy my] Hxy. unfold placed, Py.item_ltb. simpl in *.
  destruct (dy <? dx) eqn:E1; simpl; [lia|].
  destruct (dy =? dx) eqn:E2; simpl; lia.
Qed.

(** ** The multiplier tiers *)

(** What the descending scan finds in a list of strictly decreasing
    thresholds. *)
Lemma first_item_desc (s : Z) (l : list (Z * float)) :
  StronglySorted (fun a b => fst b < fst a) l ->
  match Policy.first_item (fun it => s >=? fst it) l with
  | Some (d, m) =>
      In (d, m) l /\ d <= s /\
      forall d' m', In (d', m') l -> d' <= s -> d' <= d
  | None => forall d' m', In (d', m') l -> s < d'
  end.
Proof.
  induction 1 as [|[d m] l Hs IH Hall]; simpl.
  - intros ? ? [].
  - destruct (s >=? d) eqn:E.
    + split; [now left|]. split; [lia|].
      intros d' m' [Heq|Hin] _; [injection Heq; lia|].
      rewrite Forall_forall in Hall. specialize (Hall _ Hin). simpl in Hall. lia.
    + destruct (Policy.first_item _ l) as [[d0 m0]|].
      * destruct IH as (Hin & Hle & Hmax). split; [now right|]. split; [lia|].
        intros d' m' [Heq|Hin'] Hd'; [injection Heq; lia|]. eauto.
      * intros d' m' [Heq|Hin]; [injection Heq; lia|]. eauto.
Qed.

(** A dictionary maps a key to one value. *)
Lemma NoDup_keys_functional (table : list (Z * float)) d m m' :
  NoDup (map fst table) -> In (d, m) table -> In (d, m') table -> m = m'.
Proof.
  induction table as [|[d0 m0] t IH]; simpl; intros Hnd H1 H2; [contradiction|].
  inversion Hnd as [|? ? Hd0 Ht]; subst.
  destruct H1 as [E1|H1], H2 as [E2|H2].
  - congruence.
  - injection E1 as -> ->. exfalso. apply Hd0.
    change d with (fst (d, m')). now apply in_map.
  - injection E2 as -> ->. exfalso. apply Hd0.
    change d with (fst (d, m)). now apply in_map.
  - auto.
Qed.

Lemma get_streak_multiplier_of_selects (table : list (Z * float)) (s : Z) :
  NoDup (map fst table) ->
  selects table s (Policy.get_streak_multiplier_of table s).
Proof.
  intros Hnd. unfold Policy.get_streak_multiplier_of, selects.
  pose proof (first_item_desc s _ (sorted_items_desc table Hnd)) as H.
  pose proof (sorted_perm Py.item_ltb true table) as Hp.
  destruct (Policy.first_item _ _) as [[d m]|].
  - left. destruct H as (Hin & Hle & Hmax). exists d, m.
    split; [eapply Permutation_in; eauto|]. split; [assumption|].
    split; [|reflexivity]. intros d' m' Hin'. apply (Hmax d' m').
    perm_in Hp.
  - right. split; [|reflexivity]. intros d' m' Hin'. apply (H d' m').
    perm_in Hp.
Qed.

Lemma selects_functional (table : list (Z * float)) (s : Z) (r r' : float) :
  NoDup (map fst table) -> selects table s r -> selects table s r' -> r = r'.
Proof.
  intros Hnd [(d & m & Hin & Hle & Hmax & ->)|[Hnone ->]]
             [(d' & m' & Hin' & Hle' & Hmax' & ->)|[Hnone' ->]].
  - assert (d = d') as <-.
    { specialize (Hmax _ _ Hin' Hle'). specialize (Hmax' _ _ Hin Hle). lia. }
    eapply NoDup_keys_functional; eauto.
  - specialize (Hnone' _ _ Hin). lia.
  - specialize (Hnone _ _ Hin'). lia.
  - reflexivity.
Qed.

Lemma selects_perm (table table' : list (Z * float)) (s : Z) (r : float) :
  Permutation table table' -> selects table s r -> selects table' s r.
Proof.
  intros Hp [(d & m & Hin & Hle & Hmax & ->)|[Hnone ->]].
  - left. exists d, m. split; [eapply Permutation_in; eauto|].
    split; [assumption|]. split; [|reflexivity]. intros d' m' Hin'.
    apply (Hmax d' m').
    perm_in Hp.
  - right. split; [|reflexivity]. intros d' m' Hin'. apply (Hnone d' m').
    perm_in Hp.
Qed.

(** The configured table as the two scans see it. *)
Lemma sorted_configured_desc :
  Py.sorted Py.item_ltb true Policy.STREAK_MULTIPLIERS =
    [ (30, PyFloat.literal 20 1); (7, PyFloat.literal 15 1);
      (3, PyFloat.literal 12 1) ].
Proof. reflexivity. Qed.

Lemma sorted_configured_asc :
  Py.sorted Py.item_ltb false Policy.STREAK_MULTIPLIERS =
    [ (3, PyFloat.literal 12 1); (7, PyFloat.literal 15 1);
      (30, PyFloat.literal 20 1) ].
Proof. reflexivity. Qed.

(** The configured table, tier by tier. *)
Lemma get_streak_multiplier_tiers (s : Z) :
  Policy.get_streak_multiplier s =
    if s >=? 30 then PyFloat.literal 20 1
    else if s >=? 7 then PyFloat.literal 15 1
    else if s >=? 3 then PyFloat.literal 12 1
    else PyFloat.literal 10 1.
Proof.
  unfold Policy.get_streak_multiplier, Policy.get_streak_multiplier_of.
  rewrite sorted_configured_desc. simpl Policy.first_item.
  destruct (s >=? 30); [reflexivity|].
  destruct (s >=? 7); [reflexivity|].
  destruct (s >=? 3); reflexivity.
Qed.

(** The literals of the table are the binary64 numbers nearest to their
    decimals: 1.0, 1.5 and 2.0 are exact, 1.2 is 0x3FF3333333333333. *)
Lemma literal_values :
  PyFloat.literal 10 1 = S754_finite false 4503599627370496 (-52) /\
  PyFloat.literal 12 1 = S754_finite false 5404319552844595 (-52) /\
  PyFloat.literal 15 1 = S754_finite false 6755399441055744 (-52) /\
  PyFloat.literal 20 1 = S754_finite false 4503599627370496 (-51).
Proof. repeat split; vm_compute; reflexivity. Qed.

(** C1: the multiplier of a streak is that of the highest threshold of the
    table that the streak reaches, and 1.0 below every threshold, whatever
    the order in which the entries of the table were written; on the
    configured table streaks 2, 3, 6, 7, 29, 30 and 1000 give 1.0, 1.2,
    1.2, 1.5, 1.5, 2.0 and 2.0. *)
Theorem streak_multiplier_highest_threshold
    (table : list (Z * float)) (streak_days : Z)
    (Hdict : NoDup (map fst table)) :
  selects table streak_days (Policy.get_streak_multiplier_of table streak_days)
  /\ (forall table', Permutation table table' ->
        Policy.get_streak_multiplier_of table' streak_days
        = Policy.get_streak_multiplier_of table streak_days)
  /\ PyFloat.to_Q (PyFloat.literal 10 1) = Some 1%Q
  /\ Policy.get_streak_multiplier 2 = PyFloat.literal 10 1
  /\ Policy.get_streak_multiplier 3 = PyFloat.literal 12 1
  /\ Policy.get_streak_multiplier 6 = PyFloat.literal 12 1
  /\ Policy.get_streak_multiplier 7 = PyFloat.literal 15 1
  /\ Policy.get_streak_multiplier 29 = PyFloat.literal 15 1
  /\ Policy.get_streak_multiplier 30 = PyFloat.literal 20 1
  /\ Policy.get_streak_multiplier 1000 = PyFloat.literal 20 1.
Proof.
  split; [now apply get_streak_multiplier_of_selects|].
  split.
  - intros table' Hp.
    assert (Hnd' : NoDup (map fst table')).
    { eapply Permutation_NoDup; [|exact Hdict]. now apply Permutation_map. }
    apply (selects_functional table' streak_days); [assumption| |].
    + now apply get_streak_multiplier_of_selects.
    + apply (selects_perm table); [assumption|].
      now apply get_streak_multiplier_of_selects.
  - repeat split; vm_compute; reflexivity.
Qed.

Lemma streak_multiplier_highest_threshold_witness :
  NoDup (map fst [(30, PyFloat.literal 20 1); (3, PyFloat.literal 12 1);
                  (7, PyFloat.literal 15 1)])
  /\ Policy.get_streak_multiplier_of
       [(30, PyFloat.literal 20 1); (3, PyFloat.literal 12 1);
        (7, PyFloat.literal 15 1)] 6
     = Policy.get_streak_multiplier_of Policy.STREAK_MULTIPLIERS 6.
Proof.
  assert (H : NoDup (map fst [(30, PyFloat.literal 20 1);
                              (3, PyFloat.literal 12 1);
                              (7, PyFloat.literal 15 1)])).
  { simpl. repeat constructor; simpl; intuition lia. }
  split; [exact H|].
  destruct (streak_multiplier_highest_threshold _ 6 H) as (_ & Hperm & _).
  symmetry. apply Hperm.
  unfold Policy.STREAK_MULTIPLIERS.
  apply Permutation_sym.
  apply (perm_trans (l' := [(3, PyFloat.literal 12 1);
                            (30, PyFloat.literal 20 1);
                            (7, PyFloat.literal 15 1)])).
  - constructor. apply perm_swap.
  - apply perm_swap.
Defined.

(** C10: the multiplier function of the modular source and the one of the
    single-file variant agree on every streak. *)
Theorem get_streak_multiplier_same_as_main_old (streak_days : Z) :
  Policy.get_streak_multiplier streak_days
  = MainOld.get_streak_multiplier streak_days.
Proof.
  rewrite get_streak_multiplier_tiers.
  unfold MainOld.get_streak_multiplier.
  change (Py.sorted Py.item_ltb true MainOld.STREAK_MULTIPLIERS)
    with (Py.sorted Py.item_ltb true Policy.STREAK_MULTIPLIERS).
  rewrite sorted_configured_desc. simpl.
  destruct (streak_days >=? 30); [reflexivity|].
  destruct (streak_days >=? 7); [reflexivity|].
  destruct (streak_days >=? 3); reflexivity.
Qed.

(** ** The next milestone *)

(** What the ascending scan finds in a list of strictly increasing
    thresholds. *)
Lemma first_item_asc (c : Z) (l : list (Z * float)) :
  StronglySorted (fun a b => fst a < fst b) l ->
  match Policy.first_item (fun it => c <? fst it) l with
  | Some (d, m) =>
      In (d, m) l /\ c < d /\
      forall d' m', In (d', m') l -> c < d' -> d <= d'
  | None => forall d' m', In (d', m') l -> d' <= c
  end.
Proof.
  induction 1 as [|[d m] l Hs IH Hall]; simpl.
  - intros ? ? [].
  - destruct (c <? d) eqn:E.
    + split; [now left|]. split; [lia|].
      intros d' m' [Heq|Hin] _; [injection Heq; lia|].
      rewrite Forall_forall in Hall. specialize (Hall _ Hin). simpl in Hall. lia.
    + destruct (Policy.first_item _ l) as [[d0 m0]|].
      * destruct IH as (Hin & Hle & Hmin). split; [now right|]. split; [lia|].
        intros d' m' [Heq|Hin'] Hd'; [injection Heq; lia|]. eauto.
      * intros d' m' [Heq|Hin]; [injection Heq; lia|]. eauto.
Qed.

Lemma max_spec (l : list Z) :
  l <> [] ->
  exists top, Py.max l = Some top /\ In top l /\ forall x, In x l -> x <= top.
Proof.
  induction l as [|x l IH]; [congruence|]. intros _. simpl.
  destruct l as [|y l'].
  - exists x. simpl. intuition lia.
  - destruct IH as (top & -> & Hin & Hmax); [congruence|].
    destruct (top <? x) eqn:E.
    + exists x. split; [reflexivity|]. split; [now left|].
      intros z [<-|Hz]; [lia|]. specialize (Hmax z Hz). lia.
    + exists top. split; [reflexivity|]. split; [now right|].
      intros z [<-|Hz]; [lia|]. auto.
Qed.

Lemma getitem_spec (table : list (Z * float)) (k : Z) :
  In k (map fst table) ->
  exists v, Py.getitem Z.eqb table k = Some v /\ In (k, v) table.
Proof.
  induction table as [|[k0 v0] t IH]; simpl; [contradiction|].
  intros H. destruct (k0 =? k) eqn:E.
  - exists v0. apply Z.eqb_eq in E. subst. auto.
  - destruct H as [H|H]; [lia|].
    destruct (IH H) as (v & -> & Hin). eauto.
Qed.

Lemma get_next_streak_target_of_milestone (table : list (Z * float)) (c : Z) :
  NoDup (map fst table) -> table <> [] ->
  milestone table c (Policy.get_next_streak_target_of table c).
Proof.
  intros Hnd Hne. unfold Policy.get_next_streak_target_of, milestone.
  pose proof (first_item_asc c _ (sorted_items_asc table Hnd)) as H.
  pose proof (sorted_perm Py.item_ltb false table) as Hp.
  destruct (Policy.first_item _ _) as [[d m]|].
  - left. destruct H as (Hin & Hlt & Hmin). exists d, m.
    split; [eapply Permutation_in; eauto|]. split; [assumption|].
    split; [|reflexivity]. intros d' m' Hin'. apply (Hmin d' m').
    perm_in Hp.
  - right.
    destruct (max_spec (map fst table)) as (top & -> & Hin & Hmax).
    { destruct table; [congruence|discriminate]. }
    destruct (getitem_spec table top Hin) as (m & -> & Hm).
    exists top, m. split; [assumption|]. split.
    + apply (H top m). perm_in Hp.
    + split; [|reflexivity]. intros d' m' Hin'. apply Hmax.
      change d' with (fst (d', m')). now apply in_map.
Qed.

(** The configured table, milestone by milestone. *)
Lemma get_next_streak_target_tiers (c : Z) :
  Policy.get_next_streak_target c =
    Some (if c <? 3 then
            {| Policy.days_needed := 3 - c; Policy.target_days := 3;
               Policy.bonus_multiplier := PyFloat.literal 12 1;
               Policy.message := None |}
          else if c <? 7 then
            {| Policy.days_needed := 7 - c; Policy.target_days := 7;
               Policy.bonus_multiplier := PyFloat.literal 15 1;
               Policy.message := None |}
          else if c <? 30 then
            {| Policy.days_needed := 30 - c; Policy.target_days := 30;
               Policy.bonus_multiplier := PyFloat.literal 20 1;
               Policy.message := None |}
          else
            {| Policy.days_needed := 0; Policy.target_days := c;
               Policy.bonus_multiplier := PyFloat.literal 20 1;
               Policy.message := Some "Maximum streak bonus achieved!" |}).
Proof.
  unfold Policy.get_next_streak_target, Policy.get_next_streak_target_of.
  rewrite sorted_configured_asc. simpl Policy.first_item.
  destruct (c <? 3); [reflexivity|].
  destruct (c <? 7); [reflexivity|].
  destruct (c <? 30); reflexivity.
Qed.

(** C9: the next milestone of a streak is the smallest threshold strictly
    above it, with that threshold's multiplier and the days remaining; a
    streak that has reached the highest threshold gets zero days remaining
    and the highest threshold's multiplier, as a result and not an error. *)
Theorem next_streak_target_smallest_above
    (table : list (Z * float)) (current_streak : Z)
    (Hdict : NoDup (map fst table)) (Hconfigured : table <> []) :
  milestone table current_streak
    (Policy.get_next_streak_target_of table current_streak)
  /\ (30 <= current_streak ->
      Policy.get_next_streak_target current_streak =
        Some {| Policy.days_needed := 0;
                Policy.target_days := current_streak;
                Policy.bonus_multiplier := PyFloat.literal 20 1;
                Policy.message := Some "Maximum streak bonus achieved!" |})
  /\ (current_streak < 30 ->
      exists d m,
        In (d, m) Policy.STREAK_MULTIPLIERS /\ current_streak < d /\
        (forall d' m', In (d', m') Policy.STREAK_MULTIPLIERS ->
                       current_streak < d' -> d <= d') /\
        Policy.get_next_streak_target current_streak =
          Some {| Policy.days_needed := d - current_streak;
                  Policy.target_days := d;
                  Policy.bonus_multiplier := m;
                  Policy.message := None |}).
Proof.
  split; [now apply get_next_streak_target_of_milestone|].
  rewrite get_next_streak_target_tiers. split.
  - intros H.
    replace (current_streak <? 3) with false by lia.
    replace (current_streak <? 7) with false by lia.
    replace (current_streak <? 30) with false by lia. reflexivity.
  - intros H. unfold Policy.STREAK_MULTIPLIERS.
    destruct (current_streak <? 3) eqn:E3;
      [|destruct (current_streak <? 7) eqn:E7;
        [|replace (current_streak <? 30) with true by lia]].
    + exists 3, (PyFloat.literal 12 1).
      split; [left; reflexivity|]. split; [lia|]. split; [|reflexivity].
      intros d' m' [E|[E|[E|[]]]] Hd; injection E; lia.
    + exists 7, (PyFloat.literal 15 1).
      split; [right; left; reflexivity|]. split; [lia|]. split; [|reflexivity].
      intros d' m' [E|[E|[E|[]]]] Hd; injection E; lia.
    + exists 30, (PyFloat.literal 20 1).
      split; [right; right; left; reflexivity|]. split; [lia|].
      split; [|reflexivity].
      intros d' m' [E|[E|[E|[]]]] Hd; injection E; lia.
Qed.

Lemma next_streak_target_smallest_above_witness :
  milestone Policy.STREAK_MULTIPLIERS 5
    (Policy.get_next_streak_target_of Policy.STREAK_MULTIPLIERS 5).
Proof.
  assert (Hnd : NoDup (map fst Policy.STREAK_MULTIPLIERS)).
  { simpl. repeat constructor; simpl; intuition lia. }
  assert (Hne : Policy.STREAK_MULTIPLIERS <> []) by discriminate.
  exact (proj1 (next_streak_target_smallest_above _ 5 Hnd Hne)).
Defined.

(** ** The coin amount *)

Lemma base_coins_cases (a : Schemas.ActivityType) :
  exists base,
    Py.getitem Schemas.ActivityType_eqb Policy.ACTIVITY_COINS a = Some base
    /\ (base = 50 \/ base = 75 \/ base = 100 \/ base = 200).
Proof. destruct a; simpl; eexists; split; eauto. Qed.

(** The sixteen products of the policy, in binary64 and in exact
    arithmetic. *)
Lemma final_coins_exact (base s : Z) :
  base = 50 \/ base = 75 \/ base = 100 \/ base = 200 ->
  Policy.final_coins base (Policy.get_streak_multiplier s)
  = Some (spec_final_coins base s).
Proof.
  intros Hb. rewrite get_streak_multiplier_tiers.
  unfold spec_final_coins, spec_multiplier, spec_tenths.
  rewrite !(Z.geb_leb s).
  destruct (30 <=? s); [|destruct (7 <=? s); [|destruct (3 <=? s)]];
    destruct Hb as [-> | [-> | [-> | ->]]]; vm_compute; reflexivity.
Qed.

(** The multiplier the code applies is the binary64 number nearest to the
    decimal of the tier. *)
Lemma multiplier_is_rounded_decimal (s : Z) :
  Policy.get_streak_multiplier s = PyFloat.literal (spec_tenths s) 1.
Proof.
  rewrite get_streak_multiplier_tiers. unfold spec_tenths.
  rewrite !(Z.geb_leb s).
  destruct (30 <=? s); [reflexivity|].
  destruct (7 <=? s); [reflexivity|].
  destruct (3 <=? s); reflexivity.
Qed.

(** The binary64 number 1.2 is below 12/10, so that the exact product of 75
    and it has floor 89; the product the code computes is rounded to the
    nearest binary64, which is 90, before [int] truncates it. *)
Remark product_75_by_1_2 :
  PyFloat.to_Q (PyFloat.literal 12 1)
    = Some (5404319552844595 # 4503599627370496)
  /\ Qfloor (75 * (5404319552844595 # 4503599627370496)) = 89
  /\ PyFloat.mul (PyFloat.of_int 75) (PyFloat.literal 12 1) = PyFloat.of_int 90
  /\ Policy.final_coins 75 (PyFloat.literal 12 1) = Some 90.
Proof. repeat split; vm_compute; reflexivity. Qed.

(** C5: the coins of an activity are the floor of the base coins times the
    multiplier of the streak's tier, never more than that product; the
    result is a function of the activity type and the streak; base 50 at
    1.5 gives 75 and base 75 at 1.2 gives 90. *)
Theorem final_coins_truncated (a : Schemas.ActivityType) (streak_days : Z) :
  (exists base_coins,
      Py.getitem Schemas.ActivityType_eqb Policy.ACTIVITY_COINS a
        = Some base_coins
      /\ Policy.reward a streak_days
         = Some (base_coins, Policy.get_streak_multiplier streak_days,
                 spec_final_coins base_coins streak_days)
      /\ (inject_Z (spec_final_coins base_coins streak_days)
          <= inject_Z base_coins * spec_multiplier streak_days)%Q
      /\ (inject_Z base_coins * spec_multiplier streak_days
          < inject_Z (spec_final_coins base_coins streak_days + 1))%Q
      /\ 0 <= spec_final_coins base_coins streak_days
      /\ Policy.get_streak_multiplier streak_days
         = PyFloat.literal (spec_tenths streak_days) 1)
  /\ (forall a' streak_days',
        a' = a -> streak_days' = streak_days ->
        Policy.reward a' streak_days' = Policy.reward a streak_days)
  /\ Policy.final_coins 50 (PyFloat.literal 15 1) = Some 75
  /\ Policy.final_coins 75 (PyFloat.literal 12 1) = Some 90.
Proof.
  split; [|split; [intros; subst; reflexivity | split; reflexivity]].
  destruct (base_coins_cases a) as (base & Hbase & Hb).
  exists base. split; [assumption|].
  split.
  { unfold Policy.reward. rewrite Hbase.
    now rewrite (final_coins_exact base streak_days Hb). }
  unfold spec_final_coins.
  split; [apply Qfloor_le|]. split; [apply Qlt_floor|].
  split; [|apply multiplier_is_rounded_decimal].
  change 0 with (Qfloor 0). apply Qfloor_resp_le.
  unfold spec_multiplier, spec_tenths.
  destruct (30 <=? streak_days);
    [|destruct (7 <=? streak_days); [|destruct (3 <=? streak_days)]];
    destruct Hb as [-> | [-> | [-> | ->]]]; vm_compute; discriminate.
Qed.

(** ** The streak *)

Lemma streak_loop_unfold (s : Wallet.date_set) (c k : Z) :
  Wallet.streak_loop s c k =
    if Wallet.date_in c s then Wallet.streak_loop s (c - 1) (k + 1) else k.
Proof.
  apply (Wallet.streak_loop_elim
           (fun s c k r =>
              r = if Wallet.date_in c s
                  then Wallet.streak_loop s (c - 1) (k + 1) else k)).
  - clear. intros s c e k _ _. now rewrite e.
  - clear. intros s c e k _. now rewrite e.
Qed.

(** The loop leaves with the number of days it found present in a row,
    the first absent day not counted. *)
Lemma streak_loop_spec (s : Wallet.date_set) (c k : Z) :
  k <= Wallet.streak_loop s c k
  /\ (forall i, 0 <= i < Wallet.streak_loop s c k - k ->
                Wallet.date_in (c - i) s = true)
  /\ Wallet.date_in (c - (Wallet.streak_loop s c k - k)) s = false.
Proof.
  apply (Wallet.streak_loop_elim
           (fun s c k r =>
              k <= r
              /\ (forall i, 0 <= i < r - k -> Wallet.date_in (c - i) s = true)
              /\ Wallet.date_in (c - (r - k)) s = false)).
  - clear. intros s c e k (Hle & Hin & Hout) _.
    split; [lia|]. split.
    + intros i Hi. destruct (Z.eq_dec i 0) as [->|Hne].
      * now rewrite Z.sub_0_r.
      * replace (c - i) with (c - 1 - (i - 1)) by lia. apply Hin. lia.
    + replace (c - (Wallet.streak_loop s (c - 1) (k + 1) - k))
        with (c - 1 - (Wallet.streak_loop s (c - 1) (k + 1) - (k + 1))) by lia.
      exact Hout.
  - clear. intros s c e k _.
    split; [lia|]. split; [intros; lia|].
    now rewrite Z.sub_diag, Z.sub_0_r.
Qed.

Lemma date_in_fold (data : list Z) (acc : Wallet.date_set) (d : Z) :
  Wallet.date_in d
    (fold_left (fun s created_at => Wallet.date_add (Store.date_of created_at) s)
               data acc) = true
  <-> In d (map Store.date_of data) \/ In d acc.
Proof.
  revert acc. induction data as [|x data IH]; intros acc; simpl.
  - unfold Wallet.date_in. split.
    + intros H. right. now apply set_mem_correct1 in H.
    + intros [[]|H]. now apply set_mem_correct2.
  - rewrite IH. unfold Wallet.date_add. rewrite set_add_iff.
    intuition congruence.
Qed.

Lemma date_in_dates_of (data : list Z) (d : Z) :
  Wallet.date_in d (dates_of data) = true <-> In d (map Store.date_of data).
Proof.
  unfold dates_of. rewrite date_in_fold. simpl. tauto.
Qed.

Lemma in_window_rows (t : Store.Tables) (user : string) (now x : Z) :
  In x (window_rows t user now) <->
  exists a, In a (Store.activities t)
            /\ Store.user_id (Store.values a) = user
            /\ now - Wallet.sixty_days <= Store.created_at a
            /\ Store.created_at a = x.
Proof.
  unfold window_rows. rewrite in_map_iff. split.
  - intros (a & Hx & Ha). exists a.
    apply (Permutation_in _ (sorted_perm _ _ _)) in Ha.
    apply filter_In in Ha. destruct Ha as (Ha & Hf).
    apply andb_prop in Hf. destruct Hf as (Hu & Hw).
    unfold Store.of_user in Hu. apply String.eqb_eq in Hu.
    repeat split; try assumption. lia.
  - intros (a & Ha & Hu & Hw & Hx). exists a. split; [assumption|].
    apply (Permutation_in _ (Permutation_sym (sorted_perm _ _ _))).
    apply filter_In. split; [assumption|].
    apply andb_true_intro. split.
    + unfold Store.of_user. now apply String.eqb_eq.
    + lia.
Qed.

Lemma active_on_window_rows (t : Store.Tables) (user : string) (now d : Z) :
  active_on t user now d <->
  In d (map Store.date_of (window_rows t user now)).
Proof.
  unfold active_on. rewrite in_map_iff. split.
  - intros (a & Ha & Hu & Hw & Hd). exists (Store.created_at a).
    split; [assumption|]. apply in_window_rows. eauto 6.
  - intros (x & Hd & Hx). apply in_window_rows in Hx.
    destruct Hx as (a & Ha & Hu & Hw & <-). eauto 6.
Qed.

Lemma exec_utcnow (w : Store.World) :
  Store.exec Store.UtcNow w
  = ({| Store.tables := Store.tables w; Store.clock := Store.clock w;
        Store.faults := Store.faults w |}, Store.clock w).
Proof. reflexivity. Qed.

(** A store call that finds the store reachable. *)
Lemma exec_reachable {B} (o : Store.op B) (w : Store.World) :
  Store.is_store_call o = true ->
  hd false (Store.faults w) = false ->
  Store.exec o w
  = (let '(t, r) := Store.query o (Store.clock w) (Store.tables w) in
     ({| Store.tables := t; Store.clock := Store.clock w;
         Store.faults := tl (Store.faults w) |}, r)).
Proof.
  intros Ho Hfs. unfold Store.exec. rewrite Ho.
  destruct (Store.faults w) as [|[] fs]; [reflexivity|discriminate|reflexivity].
Qed.

Lemma run_calculate_user_streak (w : Store.World) (user : string) :
  hd false (Store.faults w) = false ->
  Handler.run (Wallet.calculate_user_streak user) w
  = (served w, inr (streak_of (Store.tables w) user (Store.clock w))).
Proof.
  intros Hfs. unfold Wallet.calculate_user_streak.
  cbn -[Store.exec Wallet.streak_loop Wallet.sixty_days].
  rewrite exec_utcnow.
  cbn -[Store.exec Wallet.streak_loop Wallet.sixty_days].
  rewrite exec_reachable by (reflexivity || exact Hfs).
  cbn -[Store.exec Wallet.streak_loop Wallet.sixty_days].
  unfold served, streak_of.
  fold (window_rows (Store.tables w) user (Store.clock w)).
  destruct (window_rows (Store.tables w) user (Store.clock w)) as [|x data];
    reflexivity.
Qed.

(** ... and when it does not. *)
Lemma run_calculate_user_streak_unreachable (w : Store.World) (user : string)
    (fs : list bool) :
  Store.faults w = true :: fs ->
  Handler.run (Wallet.calculate_user_streak user) w
  = ({| Store.tables := Store.tables w; Store.clock := Store.clock w;
        Store.faults := fs |}, inr 0).
Proof.
  destruct w as [t now fs0]. simpl. intros ->. reflexivity.
Qed.

Lemma streak_of_spec (t : Store.Tables) (user : string) (now : Z) :
  0 <= streak_of t user now
  /\ (forall i, 0 <= i < streak_of t user now ->
                active_on t user now (Store.date_of now - i))
  /\ ~ active_on t user now (Store.date_of now - streak_of t user now).
Proof.
  unfold streak_of.
  destruct (window_rows t user now) as [|x data] eqn:E.
  - split; [lia|]. split; [intros; lia|].
    rewrite active_on_window_rows, E. simpl. tauto.
  - rewrite <- E.
    pose proof (streak_loop_spec (dates_of (window_rows t user now))
                                 (Store.date_of now) 0) as (Hle & Hin & Hout).
    rewrite Z.sub_0_r in Hin, Hout.
    split; [assumption|]. split.
    + intros i Hi. apply active_on_window_rows, date_in_dates_of. auto.
    + intros Ha. apply active_on_window_rows, date_in_dates_of in Ha.
      congruence.
Qed.

(** The length of the run of present days that ends today is determined. *)
Lemma consecutive_unique (P : Z -> Prop) (r n : Z) :
  0 <= r -> (forall i, 0 <= i < r -> P i) -> ~ P r ->
  0 <= n -> (forall i, 0 <= i < n -> P i) -> ~ P n ->
  r = n.
Proof.
  intros Hr Hpr Hnr Hn Hpn Hnn.
  destruct (Z.lt_trichotomy r n) as [H|[H|H]]; [|assumption|].
  - exfalso. apply Hnr, Hpn. lia.
  - exfalso. apply Hnn, Hpr. lia.
Qed.

(** The lookback reaches sixty calendar days behind today. *)
Lemma active_on_within_window (t : Store.Tables) (user : string) (now d : Z) :
  active_on t user now d -> Store.date_of now - 60 <= d.
Proof.
  intros (a & _ & _ & Hw & <-). unfold Store.date_of, Wallet.sixty_days in *.
  unfold Store.seconds_per_day in *.
  replace (now / 86400 - 60) with ((now - 60 * 86400) / 86400).
  - apply Z.div_le_mono; lia.
  - replace (now - 60 * 86400) with (now + (-60) * 86400) by lia.
    rewrite Z.div_add by lia. lia.
Qed.

(** The streak never exceeds the sixty-one calendar days the lookback
    touches. *)
Lemma streak_of_le_61 (t : Store.Tables) (user : string) (now : Z) :
  streak_of t user now <= 61.
Proof.
  destruct (streak_of_spec t user now) as (Hle & Hin & _).
  destruct (Z_le_gt_dec (streak_of t user now) 61) as [H|H]; [assumption|].
  assert (Ha : active_on t user now (Store.date_of now - 61)) by (apply Hin; lia).
  apply active_on_within_window in Ha. lia.
Qed.

(** C4, as the code has it: when the store answers, the streak is the
    number of consecutive calendar days, counted backward from today, on
    which the user has an activity of the lookback: every one of these days
    is present, the day before them is absent and not counted, and no other
    number has this property; no activity gives 0.  The lookback starts
    sixty days before now, to the second, so that it touches sixty-one
    calendar days: the streak is at most 61, and when the sixty days up to
    today are present it is 60 or 61, according to whether an activity of
    the lookback falls on the day before them. *)
Theorem streak_counts_consecutive_days (w : Store.World) (user : string)
    (Hreachable : hd false (Store.faults w) = false) :
  let today := Store.date_of (Store.clock w) in
  let present := active_on (Store.tables w) user (Store.clock w) in
  exists streak,
    Handler.run (Wallet.calculate_user_streak user) w = (served w, inr streak)
    /\ 0 <= streak <= 61
    /\ (forall i, 0 <= i < streak -> present (today - i))
    /\ ~ present (today - streak)
    /\ (forall n, 0 <= n -> (forall i, 0 <= i < n -> present (today - i)) ->
                  ~ present (today - n) -> streak = n)
    /\ (Store.activities (Store.tables w) = [] -> streak = 0)
    /\ ((forall i, 0 <= i < 60 -> present (today - i)) ->
        (~ present (today - 60) -> streak = 60)
        /\ (present (today - 60) -> streak = 61)).
Proof.
  intros today present.
  exists (streak_of (Store.tables w) user (Store.clock w)).
  destruct (streak_of_spec (Store.tables w) user (Store.clock w))
    as (Hle & Hin & Hout).
  pose proof (streak_of_le_61 (Store.tables w) user (Store.clock w)) as Hmax.
  fold today in Hin, Hout. fold present in Hin, Hout.
  assert (Huniq : forall n, 0 <= n ->
            (forall i, 0 <= i < n -> present (today - i)) ->
            ~ present (today - n) ->
            streak_of (Store.tables w) user (Store.clock w) = n).
  { intros n Hn Hpn Hnn.
    apply (consecutive_unique (fun i => present (today - i))); assumption. }
  split; [now apply run_calculate_user_streak|].
  split; [lia|].
  repeat (split; [assumption|]).
  split.
  - intros Hempty. apply Huniq; [lia|intros; lia|].
    intros (a & Ha & _). rewrite Hempty in Ha. exact Ha.
  - intros Hall. split.
    + intros Hnot. apply Huniq; [lia|assumption|assumption].
    + intros H60. apply Huniq; [lia| |].
      * intros i Hi. destruct (Z.eq_dec i 60) as [->|Hne]; [assumption|].
        apply Hall. lia.
      * intros H61. apply active_on_within_window in H61. subst today. lia.
Qed.

Lemma streak_counts_consecutive_days_witness :
  hd false (Store.faults (ana_world [])) = false
  /\ exists streak,
       Handler.run (Wallet.calculate_user_streak "ana") (ana_world [])
       = (served (ana_world []), inr streak)
       /\ 0 <= streak <= 61.
Proof.
  split; [reflexivity|].
  destruct (streak_counts_consecutive_days (ana_world []) "ana" eq_refl)
    as (streak & Hrun & Hle & _).
  exists streak. split; assumption.
Defined.

(** The bound is reached: an activity late in the evening sixty days ago is
    still within the lookback at 18:00 today. *)
Example streak_of_dan :
  Handler.run (Wallet.calculate_user_streak "dan") dan_world
  = (dan_world, inr 61).
Proof. vm_compute. reflexivity. Qed.

(** C4 as stated fails: dan has been active every day for a hundred days,
    every one of the sixty days up to today holds an activity of his within
    the lookback, and his streak is 61. *)
Lemma sixty_days_present_streak_61 :
  (forall i, 0 <= i < 60 ->
     active_on (Store.tables dan_world) "dan" (Store.clock dan_world)
               (Store.date_of (Store.clock dan_world) - i))
  /\ snd (Handler.run (Wallet.calculate_user_streak "dan") dan_world)
     = inr 61
  /\ snd (Handler.run (Wallet.calculate_user_streak "dan") dan_world)
     <> inr 60.
Proof.
  split.
  - intros i Hi.
    exists (activity_at "dan" (noon (1000 - Z.of_nat (Z.to_nat i)))).
    split.
    + unfold dan_world. cbn [Store.tables Store.activities].
      apply in_or_app. left.
      apply (in_map (fun i => activity_at "dan" (noon (1000 - Z.of_nat i)))).
      apply in_seq. lia.
    + rewrite Z2Nat.id by lia. split; [reflexivity|].
      unfold dan_world, activity_at, noon, Wallet.sixty_days, Store.date_of,
        Store.seconds_per_day.
      cbn [Store.clock Store.created_at]. split; [lia|].
      replace ((1000 - i) * 86400 + 43200) with (43200 + (1000 - i) * 86400)
        by lia.
      rewrite Z.div_add by lia.
      replace ((1000 * 86400 + 64800) / 86400) with 1000 by reflexivity.
      replace (43200 / 86400) with 0 by reflexivity. lia.
  - rewrite streak_of_dan. split; [reflexivity|discriminate].
Qed.

(** Two activities on the same day count once, and the gap two days ago
    ends the streak. *)
Example streak_of_ana :
  Handler.run (Wallet.calculate_user_streak "ana") (ana_world [])
  = (ana_world [], inr 2).
Proof. vm_compute. reflexivity. Qed.

(** ** Running handlers *)

Lemma run_bind {A B} (p : Handler.prog A) (f : A -> Handler.prog B)
    (w : Store.World) :
  Handler.run (Handler.bind p f) w =
    match Handler.run p w with
    | (w', inr a) => Handler.run (f a) w'
    | (w', inl e) => (w', inl e)
    end.
Proof.
  revert w. induction p as [a|e|B0 o k IH]; intros w; simpl; try reflexivity.
  destruct (Store.exec o w) as [w' r]. apply IH.
Qed.

Lemma run_try_except {A} (p : Handler.prog A)
    (h : Handler.exn -> Handler.prog A) (w : Store.World) :
  Handler.run (Handler.try_except p h) w =
    match Handler.run p w with
    | (w', inr a) => (w', inr a)
    | (w', inl e) => Handler.run (h e) w'
    end.
Proof.
  revert w. induction p as [a|e|B0 o k IH]; intros w; simpl; try reflexivity.
  destruct (Store.exec o w) as [w' r]. apply IH.
Qed.

(** [calculate_user_streak] returns in every world: no exception leaves
    it. *)
Lemma calculate_user_streak_returns (w : Store.World) (user : string) :
  exists w' streak,
    Handler.run (Wallet.calculate_user_streak user) w = (w', inr streak).
Proof.
  unfold Wallet.calculate_user_streak. rewrite run_try_except.
  destruct (Handler.run _ w) as [w' [e|a]]; simpl; eauto.
Qed.

(** ** Storage errors in the streak computation *)

(** C6, as the code has it: when the store is unreachable for the lookback
    query, the exception is caught inside [calculate_user_streak], which
    returns 0 to its caller; no exception ever leaves the function. *)
Theorem streak_defaults_to_zero_on_storage_error
    (w : Store.World) (user : string) (fs : list bool)
    (Hunreachable : Store.faults w = true :: fs) :
  Handler.run (Wallet.calculate_user_streak user) w
  = ({| Store.tables := Store.tables w; Store.clock := Store.clock w;
        Store.faults := fs |}, inr 0)
  /\ forall w0, exists w' streak,
       Handler.run (Wallet.calculate_user_streak user) w0 = (w', inr streak).
Proof.
  split; [now apply run_calculate_user_streak_unreachable|].
  intros w0. apply calculate_user_streak_returns.
Qed.

Lemma streak_defaults_to_zero_on_storage_error_witness :
  Store.faults (ana_world [true]) = [true]
  /\ Handler.run (Wallet.calculate_user_streak "ana") (ana_world [true])
     = (ana_world [], inr 0).
Proof.
  split; [reflexivity|].
  exact (proj1 (streak_defaults_to_zero_on_storage_error
                  (ana_world [true]) "ana" [] eq_refl)).
Defined.

(** C6 as stated fails: ana's streak is 2, the store is unreachable for the
    lookback query, and the computation returns 0 instead of raising. *)
Lemma storage_error_is_swallowed :
  snd (Handler.run (Wallet.calculate_user_streak "ana") (ana_world [])) = inr 2
  /\ snd (Handler.run (Wallet.calculate_user_streak "ana") (ana_world [true]))
     = inr 0
  /\ ~ exists e,
       snd (Handler.run (Wallet.calculate_user_streak "ana") (ana_world [true]))
       = inl e.
Proof.
  split; [vm_compute; reflexivity|].
  split; [vm_compute; reflexivity|].
  intros (e & He). vm_compute in He. discriminate.
Qed.

(** ** Unknown activity types *)

Lemma ActivityType_of_value_unknown (s : string) :
  (forall a, Schemas.value a <> s) -> Schemas.ActivityType_of_value s = None.
Proof.
  intros H. unfold Schemas.ActivityType_of_value. cbn [find].
  destruct (String.eqb_spec (Schemas.value Schemas.POMODORO) s) as [E|_];
    [exfalso; exact (H _ E)|].
  destruct (String.eqb_spec (Schemas.value Schemas.EXERCISE) s) as [E|_];
    [exfalso; exact (H _ E)|].
  destruct (String.eqb_spec (Schemas.value Schemas.STUDY) s) as [E|_];
    [exfalso; exact (H _ E)|].
  destruct (String.eqb_spec (Schemas.value Schemas.DEEP_WORK) s) as [E|_];
    [exfalso; exact (H _ E)|].
  reflexivity.
Qed.

(** C7: an earn request whose activity type is none of the values of the
    enumeration is answered with a validation error, and the world (the
    wallets and the activities in it) is left as it was. *)
Theorem unknown_activity_type_rejected
    (body : Schemas.ActivityCreateBody) (user : string) (w : Store.World)
    (Hunknown : forall a, Schemas.value a <> Schemas.body_activity_type body) :
  Handler.run (Wallet.post_earn body user) w
  = (w, inl Handler.RequestValidationError).
Proof.
  unfold Wallet.post_earn, Schemas.validate.
  now rewrite (ActivityType_of_value_unknown _ Hunknown).
Qed.

Lemma unknown_activity_type_rejected_witness :
  (forall a, Schemas.value a <> "nap_15min")
  /\ Handler.run
       (Wallet.post_earn
          {| Schemas.body_activity_type := "nap_15min";
             Schemas.body_duration_minutes := Some 15;
             Schemas.body_notes := None |} "ana") (ana_world [])
     = (ana_world [], inl Handler.RequestValidationError).
Proof.
  assert (H : forall a, Schemas.value a <> "nap_15min")
    by (intros []; discriminate).
  split; [exact H|].
  exact (unknown_activity_type_rejected
           {| Schemas.body_activity_type := "nap_15min";
              Schemas.body_duration_minutes := Some 15;
              Schemas.body_notes := None |} "ana" (ana_world []) H).
Defined.

(** ** The earn transaction *)

Lemma owned_by_set_balance (user : string) (nb now : Z) (x : Store.Wallet) :
  Store.owned_by user (Store.set_balance user nb now x)
  = Store.owned_by user x.
Proof.
  unfold Store.set_balance.
  destruct (Store.owned_by user x) eqn:E; [|exact E]. exact E.
Qed.

Lemma filter_set_balance (user : string) (nb now : Z) (ws : list Store.Wallet) :
  filter (Store.owned_by user) (map (Store.set_balance user nb now) ws)
  = map (Store.set_balance user nb now) (filter (Store.owned_by user) ws).
Proof.
  induction ws as [|x ws IH]; simpl; [reflexivity|].
  rewrite owned_by_set_balance.
  destruct (Store.owned_by user x); simpl; now rewrite IH.
Qed.

(** After the update a reader sees the new balance. *)
Lemma balance_of_set_balance (user : string) (nb now : Z)
    (acts : list Store.Activity) (ws : list Store.Wallet) :
  filter (Store.owned_by user) ws <> [] ->
  Store.balance_of
    {| Store.activities := acts;
       Store.wallets := map (Store.set_balance user nb now) ws |} user
  = Some nb.
Proof.
  intros Hne. unfold Store.balance_of. cbn [Store.wallets].
  rewrite filter_set_balance.
  destruct (filter (Store.owned_by user) ws) as [|x l] eqn:E; [congruence|].
  assert (Hx : Store.owned_by user x = true).
  { assert (Hin : In x (filter (Store.owned_by user) ws))
      by (rewrite E; now left).
    now apply filter_In in Hin. }
  simpl. unfold Store.set_balance. now rewrite Hx.
Qed.

Lemma run_earn_coins (w : Store.World) (a : Schemas.ActivityCreate)
    (user : string) :
  Store.faults w = [] ->
  exists base,
    Py.getitem Schemas.ActivityType_eqb Policy.ACTIVITY_COINS
      (Schemas.activity_type a) = Some base
    /\ let now := Store.clock w in
       let streak := streak_of (Store.tables w) user now in
       let coins := spec_final_coins base streak in
       let acts :=
         (Store.activities (Store.tables w)
            ++ [earned_row a user base streak now])%list in
       Handler.run (Wallet.earn_coins a user) w =
         match map Store.balance
                   (filter (Store.owned_by user)
                           (Store.wallets (Store.tables w))) with
         | [] =>
             ({| Store.tables :=
                   {| Store.activities := acts;
                      Store.wallets := Store.wallets (Store.tables w) |};
                 Store.clock := now; Store.faults := [] |},
              inl (Handler.HTTPException 404 "Wallet not found"))
         | current_balance :: _ =>
             ({| Store.tables :=
                   {| Store.activities := acts;
                      Store.wallets :=
                        map (Store.set_balance user (current_balance + coins)
                                               now)
                            (Store.wallets (Store.tables w)) |};
                 Store.clock := now; Store.faults := [] |},
              inr {| Wallet.earned_message := "Coins earned successfully!";
                     Wallet.earned_activity_type :=
                       Schemas.value (Schemas.activity_type a);
                     Wallet.base_coins := base;
                     Wallet.earned_streak_days := streak;
                     Wallet.streak_multiplier :=
                       Policy.get_streak_multiplier streak;
                     Wallet.final_coins := coins;
                     Wallet.new_balance := current_balance + coins |})
         end.
Proof.
  intros Hfs.
  destruct (base_coins_cases (Schemas.activity_type a)) as (base & Hbase & Hb).
  exists base. split; [assumption|]. intros now streak coins acts.
  subst now streak coins acts.
  unfold Wallet.earn_coins. rewrite run_try_except, Hbase.
  cbn [Handler.value_or Handler.bind].
  rewrite run_bind, run_calculate_user_streak by (now rewrite Hfs).
  destruct w as [[acts ws] now fs]. cbn [Store.faults] in Hfs. subst fs.
  unfold served, earned_row.
  cbn [Store.tables Store.clock Store.faults Store.activities Store.wallets tl].
  remember (streak_of _ user now) as streak eqn:Hstreak. clear Hstreak.
  rewrite (final_coins_exact base streak Hb).
  remember (spec_final_coins base streak) as coins eqn:Hcoins. clear Hcoins.
  cbn -[Policy.get_streak_multiplier].
  destruct (filter (Store.owned_by user) ws) as [|w0 ws0] eqn:Hown.
  - cbn -[Policy.get_streak_multiplier]. reflexivity.
  - cbn -[Policy.get_streak_multiplier].
    rewrite filter_set_balance, Hown. reflexivity.
Qed.

(** C3, where the code departs from it: carl has no wallet, and his earn
    request is answered 404 after his activity was recorded; ana's request
    meets an unreachable store at the balance update, and is answered 500
    with her activity recorded and her balance as before. *)
Theorem earn_failure_leaves_orphan_activity :
  (let '(w', r) :=
     Handler.run (Wallet.earn_coins pomodoro "carl") (ana_world []) in
   r = inl (Handler.HTTPException 404 "Wallet not found")
   /\ Store.activities (Store.tables w')
      = (Store.activities (Store.tables (ana_world []))
           ++ [ {| Store.values :=
                     {| Store.user_id := "carl";
                        Store.activity_type := "pomodoro_25min";
                        Store.coins_earned := 50;
                        Store.duration_minutes := Some 25;
                        Store.notes := None;
                        Store.streak_days := 0;
                        Store.multiplier_applied := PyFloat.literal 10 1 |};
                   Store.created_at := Store.clock (ana_world []) |} ])%list
   /\ Store.balance_of (Store.tables w') "carl" = None)
  /\
  (let '(w', r) :=
     Handler.run (Wallet.earn_coins pomodoro "ana")
                 (ana_world [false; false; false; true]) in
   r = inl (Handler.HTTPException 500 "Failed to earn coins: APIError")
   /\ Store.activities (Store.tables w')
      = (Store.activities (Store.tables (ana_world []))
           ++ [ {| Store.values :=
                     {| Store.user_id := "ana";
                        Store.activity_type := "pomodoro_25min";
                        Store.coins_earned := 50;
                        Store.duration_minutes := Some 25;
                        Store.notes := None;
                        Store.streak_days := 2;
                        Store.multiplier_applied := PyFloat.literal 10 1 |};
                   Store.created_at := Store.clock (ana_world []) |} ])%list
   /\ Store.balance_of (Store.tables w') "ana" = Some 100).
Proof. split; vm_compute; repeat split; reflexivity. Qed.

(** ** Concurrent and consecutive earns *)

Lemma balance_of_hd (t : Store.Tables) (user : string) (b : Z) :
  Store.balance_of t user = Some b ->
  exists rest,
    map Store.balance (filter (Store.owned_by user) (Store.wallets t))
    = b :: rest
    /\ filter (Store.owned_by user) (Store.wallets t) <> [].
Proof.
  unfold Store.balance_of.
  destruct (filter (Store.owned_by user) (Store.wallets t)) as [|x l];
    simpl; [discriminate|].
  intros [= <-]. exists (map Store.balance l). split; [reflexivity|discriminate].
Qed.

(** *** Serving one after the other is one of the interleavings *)

Lemma nth_error_set_nth {A} (i : nat) (x y : A) (l : list A) :
  nth_error l i = Some y -> nth_error (Handler.set_nth i x l) i = Some x.
Proof.
  revert i. induction l as [|z l IH]; intros [|i]; simpl; try discriminate;
    auto.
Qed.

Lemma set_nth_set_nth {A} (i : nat) (x y : A) (l : list A) :
  Handler.set_nth i x (Handler.set_nth i y l) = Handler.set_nth i x l.
Proof.
  revert i. induction l as [|z l IH]; intros [|i]; simpl; try reflexivity.
  now rewrite IH.
Qed.

Lemma set_nth_same {A} (i : nat) (x : A) (l : list A) :
  nth_error l i = Some x -> Handler.set_nth i x l = l.
Proof.
  revert i. induction l as [|z l IH]; intros [|i]; simpl; try discriminate.
  - now intros [= ->].
  - intros H. now rewrite IH.
Qed.

Lemma set_nth_middle {A} (x y : A) (pre post : list A) :
  Handler.set_nth (List.length pre) x (pre ++ y :: post)%list
  = (pre ++ x :: post)%list.
Proof. induction pre as [|z pre IH]; simpl; [reflexivity|]. now rewrite IH. Qed.

Lemma interleave_app {A} (s1 s2 : list nat) (threads : list (Handler.prog A))
    (w : Store.World) :
  Handler.interleave (s1 ++ s2)%list threads w =
    let '(w1, threads1) := Handler.interleave s1 threads w in
    Handler.interleave s2 threads1 w1.
Proof.
  revert threads w. induction s1 as [|i s1 IH]; intros threads w; simpl.
  - reflexivity.
  - destruct (nth_error threads i) as [p|]; [|apply IH].
    destruct (Handler.step p w) as [w' p']. apply IH.
Qed.

(** Giving a request all its steps in a row serves it as [run] does. *)
Lemma interleave_alone {A} (p : Handler.prog A) (w : Store.World) (i : nat)
    (threads : list (Handler.prog A)) :
  nth_error threads i = Some p ->
  Handler.interleave (repeat i (Handler.calls p w)) threads w
  = (fst (Handler.run p w),
     Handler.set_nth i (Handler.answered (snd (Handler.run p w))) threads).
Proof.
  revert w threads.
  induction p as [a|e|B o k IH]; intros w threads Hnth; simpl.
  - now rewrite set_nth_same.
  - now rewrite set_nth_same.
  - destruct (Store.exec o w) as [w' r] eqn:Hexec. simpl.
    rewrite Hnth. simpl. rewrite Hexec.
    rewrite (IH r w' (Handler.set_nth i (k r) threads)).
    + now rewrite set_nth_set_nth.
    + eapply nth_error_set_nth. exact Hnth.
Qed.

Lemma interleave_one_by_one {A} (ps pre : list (Handler.prog A))
    (w : Store.World) :
  Handler.interleave (Handler.one_by_one (List.length pre) ps w)
                     (pre ++ ps)%list w
  = (fst (Handler.run_all ps w),
     (pre ++ map Handler.answered (snd (Handler.run_all ps w)))%list).
Proof.
  revert pre w. induction ps as [|p ps IH]; intros pre w; simpl.
  - reflexivity.
  - rewrite interleave_app.
    rewrite (interleave_alone p w (List.length pre) (pre ++ p :: ps)%list).
    + rewrite set_nth_middle.
      destruct (Handler.run p w) as [w1 r] eqn:Hrun. simpl.
      specialize (IH (pre ++ [Handler.answered r])%list w1).
      rewrite length_app, Nat.add_1_r, <- app_assoc in IH. simpl in IH.
      rewrite IH.
      destruct (Handler.run_all ps w1) as [w2 rs]. simpl.
      now rewrite <- app_assoc.
    + rewrite nth_error_app2 by lia. now rewrite Nat.sub_diag.
Qed.

(** One earn served alone on a reachable store: the balance a reader sees
    grows by the coins granted. *)
Lemma run_earn_coins_balance (w : Store.World) (a : Schemas.ActivityCreate)
    (user : string) (b : Z) :
  Store.faults w = [] ->
  Store.balance_of (Store.tables w) user = Some b ->
  exists w' r,
    Handler.run (Wallet.earn_coins a user) w = (w', inr r)
    /\ Store.faults w' = []
    /\ Wallet.new_balance r = b + Wallet.final_coins r
    /\ Store.balance_of (Store.tables w') user
       = Some (b + Wallet.final_coins r).
Proof.
  intros Hfs Hb.
  destruct (run_earn_coins w a user Hfs) as (base & _ & Hrun).
  destruct (balance_of_hd _ _ _ Hb) as (rest & Hbal & Hne).
  cbv zeta in Hrun. rewrite Hbal in Hrun. rewrite Hrun.
  eexists _, _. split; [reflexivity|]. cbn [Store.faults Store.tables
    Wallet.new_balance Wallet.final_coins].
  split; [reflexivity|]. split; [reflexivity|].
  now apply balance_of_set_balance.
Qed.

(** C2, as the code has it: earn requests of one user that are served one
    after the other on a reachable store all succeed, and the final balance
    is the initial balance plus the coins they granted; this is what the
    interleaving that gives each request all its steps in a row produces.
    Each request writes the balance it read plus its coins. *)
Theorem consecutive_earns_add_up
    (user : string) (requests : list Schemas.ActivityCreate)
    (w : Store.World) (initial : Z)
    (Hreachable : Store.faults w = [])
    (Hwallet : Store.balance_of (Store.tables w) user = Some initial) :
  let earns := map (fun a => Wallet.earn_coins a user) requests in
  exists w' results,
    Handler.run_all earns w = (w', map inr results)
    /\ Handler.interleave (Handler.one_by_one 0 earns w) earns w
       = (w', map Handler.Ret results)
    /\ List.length results = List.length requests
    /\ Store.balance_of (Store.tables w') user
       = Some (initial + total_coins results).
Proof.
  intros earns.
  assert (Hrun : exists w' results,
            Handler.run_all earns w = (w', map inr results)
            /\ List.length results = List.length requests
            /\ Store.balance_of (Store.tables w') user
               = Some (initial + total_coins results)).
  { subst earns. revert w initial Hreachable Hwallet.
    induction requests as [|a requests IH]; intros w initial Hfs Hb.
    - exists w, []. simpl. rewrite Z.add_0_r. auto.
    - destruct (run_earn_coins_balance w a user initial Hfs Hb)
        as (w1 & r & Hrun & Hfs1 & _ & Hb1).
      destruct (IH w1 _ Hfs1 Hb1) as (w2 & rs & Hall & Hlen & Hb2).
      exists w2, (r :: rs). simpl. rewrite Hrun, Hall.
      split; [reflexivity|]. split; [now rewrite Hlen|].
      rewrite Hb2. f_equal. lia. }
  destruct Hrun as (w' & results & Hall & Hlen & Hbal).
  exists w', results.
  split; [assumption|]. split; [|split; assumption].
  pose proof (interleave_one_by_one earns [] w) as Hi.
  simpl in Hi. rewrite Hi, Hall. simpl. now rewrite map_map.
Qed.

Lemma consecutive_earns_add_up_witness :
  Store.faults (ana_world []) = []
  /\ Store.balance_of (Store.tables (ana_world [])) "ana" = Some 100
  /\ exists w' results,
       Handler.run_all
         (map (fun a => Wallet.earn_coins a "ana") [pomodoro; pomodoro])
         (ana_world [])
       = (w', map inr results)
       /\ List.length results = 2%nat
       /\ Store.balance_of (Store.tables w') "ana"
          = Some (100 + total_coins results).
Proof.
  split; [reflexivity|]. split; [reflexivity|].
  destruct (consecutive_earns_add_up "ana" [pomodoro; pomodoro] (ana_world [])
              100 eq_refl eq_refl) as (w' & results & Hall & _ & Hlen & Hbal).
  exists w', results. repeat split; assumption.
Defined.

(** Two earns of ana in a row: 100, 150, 200. *)
Example two_earns_in_a_row :
  let '(w', results) :=
    Handler.run_all
      [Wallet.earn_coins pomodoro "ana"; Wallet.earn_coins pomodoro "ana"]
      (ana_world []) in
  map (fun r => match r with
                | inr e => Some (Wallet.final_coins e, Wallet.new_balance e)
                | inl _ => None
                end) results
  = [Some (50, 150); Some (50, 200)]
  /\ Store.balance_of (Store.tables w') "ana" = Some 200.
Proof. vm_compute. split; reflexivity. Qed.

(** C2 as stated fails: two earn requests of ana, each granting 50 coins,
    overlap between the read and the write of the balance; both succeed and
    the balance goes from 100 to 150. *)
Lemma concurrent_earns_lose_update :
  let '(w', threads) :=
    Handler.interleave
      [0; 0; 0; 0; 0; 1; 1; 1; 1; 1; 0; 0; 1; 1]%nat
      [Wallet.earn_coins pomodoro "ana"; Wallet.earn_coins pomodoro "ana"]
      (ana_world []) in
  exists r1 r2,
    threads = [Handler.Ret r1; Handler.Ret r2]
    /\ Wallet.final_coins r1 = 50 /\ Wallet.final_coins r2 = 50
    /\ Store.balance_of (Store.tables (ana_world [])) "ana" = Some 100
    /\ Store.balance_of (Store.tables w') "ana" = Some 150
    /\ Store.balance_of (Store.tables w') "ana"
       <> Some (100 + Wallet.final_coins r1 + Wallet.final_coins r2).
Proof.
  vm_compute. eexists _, _. split; [reflexivity|].
  repeat split; discriminate.
Qed.

(** ** The activity history *)

Lemma ForallOrdPairs_all {A} (R : A -> A -> Prop) (l : list A) :
  (forall x y, R x y) -> ForallOrdPairs R l.
Proof.
  intros HR. induction l as [|x l IH]; constructor; [|assumption].
  apply Forall_forall. intros y _. apply HR.
Qed.

(** [order('created_at', desc=True)]: the most recent first. *)
Lemma order_desc_sorted (l : list Store.Activity) :
  StronglySorted (fun a b => Store.created_at b <= Store.created_at a)
                 (Store.order_desc l).
Proof.
  unfold Store.order_desc, Py.sorted.
  apply (fold_insert_sorted _
           (fun a b => Store.created_at b <= Store.created_at a));
    [intros; lia|].
  apply ForallOrdPairs_all. intros x y. unfold placed.
  destruct (Store.created_at x <? Store.created_at y) eqn:E; lia.
Qed.

Lemma sorted_app_le {A} (R : A -> A -> Prop) (l1 l2 : list A) :
  StronglySorted R (l1 ++ l2) ->
  forall x y, In x l1 -> In y l2 -> R x y.
Proof.
  induction l1 as [|a l1 IH]; simpl; intros Hs x y Hx Hy; [contradiction|].
  inversion Hs as [|? ? Hs' Hall]; subst.
  destruct Hx as [<-|Hx]; [|eauto].
  rewrite Forall_forall in Hall. apply Hall, in_or_app. now right.
Qed.

Lemma sorted_app_l {A} (R : A -> A -> Prop) (l1 l2 : list A) :
  StronglySorted R (l1 ++ l2) -> StronglySorted R l1.
Proof.
  induction l1 as [|a l1 IH]; simpl; intros Hs; [constructor|].
  inversion Hs as [|? ? Hs' Hall]; subst. constructor; [auto|].
  rewrite Forall_forall in *. intros x Hx. apply Hall, in_or_app. now left.
Qed.

Lemma run_get_activity_history (w : Store.World) (limit : Z) (user : string) :
  Handler.run (Wallet.get_activity_history limit user) w
  = match Store.faults w with
    | true :: fs =>
        ({| Store.tables := Store.tables w; Store.clock := Store.clock w;
            Store.faults := fs |},
         inl (Handler.HTTPException 500 "Failed to get history: APIError"))
    | _ => (served w,
            history_reply limit (recent_first (Store.tables w) user))
    end.
Proof.
  unfold Wallet.get_activity_history, history_reply, recent_first, served.
  destruct w as [t now fs]. cbn -[Store.order_desc].
  destruct fs as [|[] fs]; cbn -[Store.order_desc]; try reflexivity;
    destruct (Store.limit_rows limit _); reflexivity.
Qed.

(** C8, as the code has it: with a positive limit the history holds the
    [limit] most recent records of the user, most recent first, and their
    number; an omitted limit is 10; no limit is rejected as invalid: every
    limit is passed to the store, and the answer is the store's rows or
    HTTP 500, with the tables untouched. *)
Theorem history_most_recent_first
    (w : Store.World) (user : string) (limit : Z)
    (Hreachable : hd false (Store.faults w) = false)
    (Hpositive : 0 < limit) :
  (exists returned rest,
      Handler.run (Wallet.get_history (Some limit) user) w
      = (served w, inr {| Wallet.history_activities := returned;
                          Wallet.total := List.length returned |})
      /\ Permutation (returned ++ rest)
           (filter (Store.of_user user) (Store.activities (Store.tables w)))
      /\ List.length returned
         = Nat.min (Z.to_nat limit)
             (List.length (filter (Store.of_user user)
                                  (Store.activities (Store.tables w))))
      /\ StronglySorted
           (fun a b => Store.created_at b <= Store.created_at a) returned
      /\ (forall x y, In x returned -> In y rest ->
                      Store.created_at y <= Store.created_at x))
  /\ Wallet.get_history None user = Wallet.get_history (Some 10) user
  /\ (forall (n : Z) (w0 : Store.World),
        let '(w', r) := Handler.run (Wallet.get_history (Some n) user) w0 in
        Store.tables w' = Store.tables w0
        /\ r <> inl Handler.RequestValidationError
        /\ (n <= 0 -> forall e, r = inl e ->
              e = Handler.HTTPException 500 "Failed to get history: APIError")).
Proof.
  split; [|split; [reflexivity|]].
  - exists (firstn (Z.to_nat limit) (recent_first (Store.tables w) user)),
           (skipn (Z.to_nat limit) (recent_first (Store.tables w) user)).
    pose proof (order_desc_sorted
                  (filter (Store.of_user user)
                          (Store.activities (Store.tables w)))) as Hs.
    fold (recent_first (Store.tables w) user) in Hs.
    rewrite <- (firstn_skipn (Z.to_nat limit)) in Hs.
    split.
    + unfold Wallet.get_history. rewrite run_get_activity_history.
      unfold history_reply, Store.limit_rows.
      replace (limit <? 0) with false by lia.
      destruct (Store.faults w) as [|[] fs]; [reflexivity|discriminate|reflexivity].
    + split.
      { rewrite firstn_skipn. apply sorted_perm. }
      split.
      { rewrite length_firstn. f_equal. apply Permutation_length, sorted_perm. }
      split; [eapply sorted_app_l; exact Hs|].
      intros x y Hx Hy.
      exact (sorted_app_le _ _ _ Hs x y Hx Hy).
  - intros n w0. unfold Wallet.get_history.
    rewrite run_get_activity_history.
    destruct (Store.faults w0) as [|[] fs]; unfold history_reply, served;
      cbn [Store.tables]; (split; [reflexivity|]);
      try (split; [discriminate|intros _ e [= <-]; reflexivity]);
      destruct (Store.limit_rows n _);
      (split; [discriminate|intros _ e H; inversion H; reflexivity]).
Qed.

Lemma history_most_recent_first_witness :
  hd false (Store.faults (ana_world [])) = false
  /\ 0 < 2
  /\ exists returned rest,
       Handler.run (Wallet.get_history (Some 2) "ana") (ana_world [])
       = (served (ana_world []),
          inr {| Wallet.history_activities := returned;
                 Wallet.total := List.length returned |})
       /\ Permutation (returned ++ rest)
            (filter (Store.of_user "ana")
                    (Store.activities (Store.tables (ana_world []))))
       /\ List.length returned
          = Nat.min (Z.to_nat 2)
              (List.length
                 (filter (Store.of_user "ana")
                         (Store.activities (Store.tables (ana_world [])))))
       /\ StronglySorted
            (fun a b => Store.created_at b <= Store.created_at a) returned
       /\ (forall x y, In x returned -> In y rest ->
                       Store.created_at y <= Store.created_at x).
Proof.
  split; [reflexivity|]. split; [lia|].
  exact (proj1 (history_most_recent_first (ana_world []) "ana" 2
                  eq_refl eq_refl)).
Defined.

(** The two most recent records of ana, out of four. *)
Example history_of_ana :
  Handler.run (Wallet.get_history (Some 2) "ana") (ana_world [])
  = (ana_world [],
     inr {| Wallet.history_activities :=
              [ activity_at "ana" (noon 1000 + 60);
                activity_at "ana" (noon 1000) ];
            Wallet.total := 2 |}).
Proof. vm_compute. reflexivity. Qed.

(** C8 as stated fails: limits 0 and -1 are not rejected as invalid; they
    reach the store, which answers 0 with no rows and refuses -1. *)
Lemma non_positive_limit_not_validated :
  Handler.run (Wallet.get_history (Some 0) "ana") (ana_world [])
  = (ana_world [],
     inr {| Wallet.history_activities := []; Wallet.total := 0 |})
  /\ Handler.run (Wallet.get_history (Some (-1)) "ana") (ana_world [])
     = (ana_world [],
        inl (Handler.HTTPException 500 "Failed to get history: APIError"))
  /\ snd (Handler.run (Wallet.get_history (Some 0) "ana") (ana_world []))
     <> inl Handler.RequestValidationError
  /\ snd (Handler.run (Wallet.get_history (Some (-1)) "ana") (ana_world []))
     <> inl Handler.RequestValidationError.
Proof.
  split; [vm_compute; reflexivity|].
  split; [vm_compute; reflexivity|].
  split; vm_compute; discriminate.
Qed.

(** * Further properties of the code *)

(** ** The enumeration of activity types *)




(** ** The multiplier as a function of the streak *)

(** On such a table a longer streak never has a lower multiplier, and no
    streak has less than 1.0. *)
Lemma streak_multiplier_of_monotone
    (table : list (Z * float)) (s s' : Z)
    (Hdict : NoDup (map fst table)) (Hinc : increasing_table table)
    (Hle : s <= s') :
  SFleb (Policy.get_streak_multiplier_of table s)
        (Policy.get_streak_multiplier_of table s') = true
  /\ SFleb (PyFloat.literal 10 1)
           (Policy.get_streak_multiplier_of table s) = true.
Proof.
  destruct Hinc as [Hmono Hone].
  pose proof (get_streak_multiplier_of_selects table s Hdict) as Hs.
  pose proof (get_streak_multiplier_of_selects table s' Hdict) as Hs'.
  destruct Hs as [(d & m & Hin & Hd & Hmax & ->)|[Hnone ->]];
    destruct Hs' as [(d' & m' & Hin' & Hd' & Hmax' & ->)|[Hnone' ->]].
  - split; [|now apply (Hone d)].
    apply (Hmono d m d' m'); try assumption. apply (Hmax' d m); [assumption|lia].
  - specialize (Hnone' d m Hin). lia.
  - split; [now apply (Hone d')|reflexivity].
  - split; reflexivity.
Qed.

Lemma configured_table_increasing :
  NoDup (map fst Policy.STREAK_MULTIPLIERS)
  /\ increasing_table Policy.STREAK_MULTIPLIERS.
Proof.
  split.
  - simpl. repeat constructor; simpl; intuition lia.
  - split.
    + intros d m d' m' [E|[E|[E|[]]]] [E'|[E'|[E'|[]]]] Hle;
        injection E as <- <-; injection E' as <- <-;
        first [reflexivity | lia].
    + intros d m [E|[E|[E|[]]]]; injection E as <- <-; reflexivity.
Qed.

(** X2: a longer streak never has a lower multiplier, and every streak, the
    negative ones included, has at least 1.0 and at most 2.0. *)
Theorem streak_multiplier_monotone (s s' : Z) (Hle : s <= s') :
  SFleb (Policy.get_streak_multiplier s) (Policy.get_streak_multiplier s')
  = true
  /\ SFleb (PyFloat.literal 10 1) (Policy.get_streak_multiplier s) = true
  /\ SFleb (Policy.get_streak_multiplier s) (PyFloat.literal 20 1) = true.
Proof.
  destruct configured_table_increasing as [Hnd Hinc].
  destruct (streak_multiplier_of_monotone _ s s' Hnd Hinc Hle) as [H1 H2].
  split; [exact H1|]. split; [exact H2|].
  rewrite get_streak_multiplier_tiers.
  destruct (s >=? 30); [reflexivity|].
  destruct (s >=? 7); [reflexivity|].
  destruct (s >=? 3); reflexivity.
Qed.

Lemma streak_multiplier_monotone_witness :
  6 <= 7
  /\ SFleb (Policy.get_streak_multiplier 6) (Policy.get_streak_multiplier 7)
     = true.
Proof.
  split; [lia|].
  exact (proj1 (streak_multiplier_monotone 6 7 ltac:(lia))).
Defined.

(** ** The next milestone and the multiplier *)

Lemma selects_at_threshold (table : list (Z * float)) (d : Z) (m : float) :
  In (d, m) table -> selects table d m.
Proof.
  intros Hin. left. exists d, m. repeat split; auto; lia.
Qed.

(** X3: the milestone [get_next_streak_target] announces is honoured by
    [get_streak_multiplier]: the streak reaches the announced multiplier
    exactly at the target day, [days_needed] days from now, and keeps its
    present multiplier on every day before it. *)
Theorem next_target_is_honoured
    (table : list (Z * float)) (c : Z)
    (Hdict : NoDup (map fst table)) (Hconfigured : table <> []) :
  exists t,
    Policy.get_next_streak_target_of table c = Some t
    /\ 0 <= Policy.days_needed t
    /\ Policy.target_days t = c + Policy.days_needed t
    /\ Policy.get_streak_multiplier_of table (Policy.target_days t)
       = Policy.bonus_multiplier t
    /\ (forall s, c <= s < Policy.target_days t ->
          Policy.get_streak_multiplier_of table s
          = Policy.get_streak_multiplier_of table c).
Proof.
  destruct (get_next_streak_target_of_milestone table c Hdict Hconfigured)
    as [(d & m & Hin & Hlt & Hmin & ->)|(top & m & Hin & Hle & Hmax & ->)];
    eexists; (split; [reflexivity|]); cbn [Policy.days_needed
      Policy.target_days Policy.bonus_multiplier].
  - split; [lia|]. split; [lia|]. split.
    + apply (selects_functional table d); try assumption.
      * now apply get_streak_multiplier_of_selects.
      * now apply selects_at_threshold.
    + intros s Hs.
      apply (selects_functional table s); try assumption;
        [now apply get_streak_multiplier_of_selects|].
      destruct (get_streak_multiplier_of_selects table c Hdict)
        as [(d0 & m0 & Hin0 & Hd0 & Hmax0 & ->)|[Hnone ->]].
      * left. exists d0, m0. split; [assumption|]. split; [lia|].
        split; [|reflexivity]. intros d' m' Hin' Hd'.
        destruct (Z_le_gt_dec d' c) as [Hc|Hc]; [eauto|].
        specialize (Hmin d' m' Hin'). lia.
      * right. split; [|reflexivity]. intros d' m' Hin'.
        specialize (Hnone d' m' Hin'). specialize (Hmin d' m' Hin'). lia.
  - split; [lia|]. split; [lia|]. split; [|intros; lia].
    apply (selects_functional table c); try assumption;
      [now apply get_streak_multiplier_of_selects|].
    left. exists top, m. split; [assumption|]. split; [assumption|].
    split; [|reflexivity]. intros d' m' Hin' _. eauto.
Qed.

Lemma next_target_is_honoured_witness :
  NoDup (map fst Policy.STREAK_MULTIPLIERS)
  /\ Policy.STREAK_MULTIPLIERS <> []
  /\ exists t,
       Policy.get_next_streak_target 5 = Some t
       /\ 0 <= Policy.days_needed t
       /\ Policy.target_days t = 5 + Policy.days_needed t
       /\ Policy.get_streak_multiplier (Policy.target_days t)
          = Policy.bonus_multiplier t
       /\ (forall s, 5 <= s < Policy.target_days t ->
             Policy.get_streak_multiplier s = Policy.get_streak_multiplier 5).
Proof.
  assert (Hne : Policy.STREAK_MULTIPLIERS <> []) by discriminate.
  split; [exact (proj1 configured_table_increasing)|]. split; [exact Hne|].
  exact (next_target_is_honoured Policy.STREAK_MULTIPLIERS 5
           (proj1 configured_table_increasing) Hne).
Defined.

(** ** The reward as a function of the streak *)

Lemma spec_tenths_bounds (s s' : Z) :
  s <= s' -> 10 <= spec_tenths s <= spec_tenths s' /\ spec_tenths s' <= 20.
Proof.
  intros Hle. unfold spec_tenths.
  destruct (30 <=? s) eqn:A, (7 <=? s) eqn:B, (3 <=? s) eqn:C,
           (30 <=? s') eqn:A', (7 <=? s') eqn:B', (3 <=? s') eqn:C'; lia.
Qed.

Lemma spec_final_coins_eq (base s : Z) :
  spec_final_coins base s = base * spec_tenths s / 10.
Proof.
  unfold spec_final_coins, spec_multiplier, Qfloor. simpl. reflexivity.
Qed.

(** X4: the coins of an activity are at least its base coins and at most twice
    as many, and a longer streak never pays less. *)
Theorem reward_bounds_and_monotone
    (a : Schemas.ActivityType) (s s' : Z) (Hle : s <= s') :
  exists base m m' coins coins',
    Policy.reward a s = Some (base, m, coins)
    /\ Policy.reward a s' = Some (base, m', coins')
    /\ base <= coins /\ coins <= coins' /\ coins' <= 2 * base.
Proof.
  destruct (base_coins_cases a) as (base & Hbase & Hb).
  exists base, (Policy.get_streak_multiplier s),
         (Policy.get_streak_multiplier s'),
         (spec_final_coins base s), (spec_final_coins base s').
  unfold Policy.reward. rewrite Hbase.
  rewrite !(final_coins_exact base _ Hb).
  split; [reflexivity|]. split; [reflexivity|].
  rewrite !spec_final_coins_eq.
  destruct (spec_tenths_bounds s s' Hle) as [[H10 Hmono] H20].
  assert (Hpos : 0 < base) by lia.
  split; [|split].
  - apply Z.div_le_lower_bound; nia.
  - apply Z.div_le_mono; nia.
  - apply Z.div_le_upper_bound; nia.
Qed.

Lemma reward_bounds_and_monotone_witness :
  2 <= 7
  /\ exists base m m' coins coins',
       Policy.reward Schemas.EXERCISE 2 = Some (base, m, coins)
       /\ Policy.reward Schemas.EXERCISE 7 = Some (base, m', coins')
       /\ base <= coins /\ coins <= coins' /\ coins' <= 2 * base.
Proof.
  split; [lia|].
  exact (reward_bounds_and_monotone Schemas.EXERCISE 2 7 ltac:(lia)).
Defined.

(** ** The streak and the rows it reads *)

Lemma filter_andb {A} (f g : A -> bool) (l : list A) :
  filter (fun a => f a && g a) l = filter g (filter f l).
Proof.
  induction l as [|x l IH]; simpl; [reflexivity|].
  destruct (f x); simpl; [destruct (g x)|]; now rewrite IH.
Qed.

(** X5: the streak of a user depends on that user's activity rows only: two
    stores that hold the same rows for the user give the same streak at the
    same time, whatever their other rows and their wallets are. *)
Theorem streak_reads_own_rows_only (w1 w2 : Store.World) (user : string)
    (Hclock : Store.clock w1 = Store.clock w2)
    (Hreachable1 : hd false (Store.faults w1) = false)
    (Hreachable2 : hd false (Store.faults w2) = false)
    (Hrows : filter (Store.of_user user) (Store.activities (Store.tables w1))
             = filter (Store.of_user user)
                      (Store.activities (Store.tables w2))) :
  snd (Handler.run (Wallet.calculate_user_streak user) w1)
  = snd (Handler.run (Wallet.calculate_user_streak user) w2).
Proof.
  rewrite !run_calculate_user_streak by assumption. simpl. f_equal.
  unfold streak_of, window_rows.
  rewrite (filter_andb (Store.of_user user)
             (fun a => Store.clock w1 - Wallet.sixty_days
                       <=? Store.created_at a)).
  rewrite (filter_andb (Store.of_user user)
             (fun a => Store.clock w2 - Wallet.sixty_days
                       <=? Store.created_at a)).
  now rewrite Hrows, Hclock.
Qed.

Lemma streak_reads_own_rows_only_witness :
  snd (Handler.run (Wallet.calculate_user_streak "ana") (ana_world []))
  = snd (Handler.run (Wallet.calculate_user_streak "ana")
           {| Store.tables :=
                {| Store.activities :=
                     [ activity_at "ana" (noon 997);
                       activity_at "ana" (noon 999);
                       activity_at "dan" (noon 998);
                       activity_at "ana" (noon 1000);
                       activity_at "dan" (noon 1000);
                       activity_at "ana" (noon 1000 + 60) ];
                   Store.wallets := [] |};
              Store.clock := 1000 * 86400 + 64800;
              Store.faults := [false; true] |}).
Proof.
  apply streak_reads_own_rows_only; reflexivity.
Defined.

(** ** What an earn leaves behind *)

Lemma filter_other_set_balance (user other : string) (nb now : Z)
    (ws : list Store.Wallet) :
  other <> user ->
  filter (Store.owned_by other) (map (Store.set_balance user nb now) ws)
  = filter (Store.owned_by other) ws.
Proof.
  intros Hne. induction ws as [|x ws IH]; simpl; [reflexivity|].
  rewrite IH. unfold Store.set_balance.
  destruct (Store.owned_by user x) eqn:Eu; [|reflexivity].
  unfold Store.owned_by in *. simpl.
  apply String.eqb_eq in Eu.
  destruct (String.eqb_spec (Store.wallet_user_id x) other) as [Eo|_];
    [congruence|reflexivity].
Qed.

(** X6: a successful earn appends one activity row, which records the user,
    the type, the coins granted, the multiplier applied and the streak it
    was granted for; that streak is the one measured before the row was
    inserted, the three amounts are those of the reward policy for it, the
    new balance is the balance read plus the coins, and the wallet rows of
    the other users are left as they were. *)
Theorem earn_records_what_it_grants
    (w : Store.World) (a : Schemas.ActivityCreate) (user : string) (b : Z)
    (Hreachable : Store.faults w = [])
    (Hwallet : Store.balance_of (Store.tables w) user = Some b) :
  exists w' r row,
    Handler.run (Wallet.earn_coins a user) w = (w', inr r)
    /\ Store.activities (Store.tables w')
       = (Store.activities (Store.tables w) ++ [row])%list
    /\ Store.user_id (Store.values row) = user
    /\ Store.activity_type (Store.values row)
       = Schemas.value (Schemas.activity_type a)
    /\ Store.coins_earned (Store.values row) = Wallet.final_coins r
    /\ Store.streak_days (Store.values row) = Wallet.earned_streak_days r
    /\ Store.multiplier_applied (Store.values row)
       = Wallet.streak_multiplier r
    /\ Store.created_at row = Store.clock w
    /\ snd (Handler.run (Wallet.calculate_user_streak user) w)
       = inr (Wallet.earned_streak_days r)
    /\ Policy.reward (Schemas.activity_type a) (Wallet.earned_streak_days r)
       = Some (Wallet.base_coins r, Wallet.streak_multiplier r,
               Wallet.final_coins r)
    /\ Wallet.new_balance r = b + Wallet.final_coins r
    /\ (forall other, other <> user ->
          filter (Store.owned_by other) (Store.wallets (Store.tables w'))
          = filter (Store.owned_by other) (Store.wallets (Store.tables w))).
Proof.
  destruct (run_earn_coins w a user Hreachable) as (base & Hbase & Hrun).
  destruct (balance_of_hd _ _ _ Hwallet) as (rest & Hbal & Hne).
  cbv zeta in Hrun. rewrite Hbal in Hrun.
  eexists _, _, _. split; [exact Hrun|].
  cbn [Store.tables Store.activities Store.wallets Wallet.final_coins
       Wallet.earned_streak_days Wallet.streak_multiplier Wallet.base_coins
       Wallet.new_balance].
  split; [reflexivity|].
  unfold earned_row. cbn [Store.values Store.user_id Store.activity_type
    Store.coins_earned Store.streak_days Store.multiplier_applied
    Store.created_at].
  repeat (split; [reflexivity|]).
  split.
  { rewrite run_calculate_user_streak by (now rewrite Hreachable).
    reflexivity. }
  split.
  { unfold Policy.reward. rewrite Hbase.
    destruct (base_coins_cases (Schemas.activity_type a))
      as (base' & Hbase' & Hb).
    assert (base' = base) as -> by congruence.
    now rewrite (final_coins_exact base _ Hb). }
  split; [reflexivity|].
  intros other Hother. now apply filter_other_set_balance.
Qed.

Lemma earn_records_what_it_grants_witness :
  Store.faults (ana_world []) = []
  /\ Store.balance_of (Store.tables (ana_world [])) "ana" = Some 100
  /\ exists w' r row,
       Handler.run (Wallet.earn_coins pomodoro "ana") (ana_world [])
       = (w', inr r)
       /\ Store.activities (Store.tables w')
          = (Store.activities (Store.tables (ana_world [])) ++ [row])%list
       /\ Store.coins_earned (Store.values row) = Wallet.final_coins r
       /\ Wallet.new_balance r = 100 + Wallet.final_coins r.
Proof.
  split; [reflexivity|]. split; [reflexivity|].
  destruct (earn_records_what_it_grants (ana_world []) pomodoro "ana" 100
              eq_refl eq_refl)
    as (w' & r & row & Hrun & Hacts & _ & _ & Hcoins & _ & _ & _ & _ & _
        & Hnew & _).
  exists w', r, row. repeat split; assumption.
Defined.

(** ** The streak before and after an earn *)

Lemma sixty_days_nonneg : 0 <= Wallet.sixty_days.
Proof. unfold Wallet.sixty_days, Store.seconds_per_day. lia. Qed.

(** The row of an earn makes today a day with an activity and changes no
    other day. *)
Lemma active_on_after_insert (t : Store.Tables) (user : string) (now d : Z)
    (row : Store.Activity) (ws : list Store.Wallet) :
  Store.user_id (Store.values row) = user ->
  Store.created_at row = now ->
  active_on {| Store.activities := (Store.activities t ++ [row])%list;
               Store.wallets := ws |} user now d
  <-> active_on t user now d \/ d = Store.date_of now.
Proof.
  intros Hu Hc. pose proof sixty_days_nonneg as H60.
  unfold active_on. cbn [Store.activities]. split.
  - intros (a & Ha & Hua & Hw & Hd). apply in_app_or in Ha.
    destruct Ha as [Ha|[<-|[]]].
    + left. eauto 6.
    + right. now rewrite <- Hd, Hc.
  - intros [(a & Ha & Hua & Hw & Hd) | ->].
    + exists a. split; [apply in_or_app; now left|]. auto.
    + exists row. split; [apply in_or_app; right; now left|].
      split; [assumption|]. split; [lia|]. now rewrite Hc.
Qed.

(** X7: the earn that a user makes is rewarded for the streak as it was before
    it; once it is recorded the streak is at least 1. The first earn of a
    day starts or extends the streak, and an earn on a day that already had
    one leaves the streak as it was. *)
Theorem streak_after_earn
    (w : Store.World) (a : Schemas.ActivityCreate) (user : string) (b : Z)
    (Hreachable : Store.faults w = [])
    (Hwallet : Store.balance_of (Store.tables w) user = Some b) :
  exists w' r after,
    Handler.run (Wallet.earn_coins a user) w = (w', inr r)
    /\ Handler.run (Wallet.calculate_user_streak user) w' = (w', inr after)
    /\ 1 <= after
    /\ Wallet.earned_streak_days r <= after
    /\ (1 <= Wallet.earned_streak_days r ->
        after = Wallet.earned_streak_days r).
Proof.
  destruct (run_earn_coins w a user Hreachable) as (base & Hbase & Hrun).
  destruct (balance_of_hd _ _ _ Hwallet) as (rest & Hbal & Hne).
  cbv zeta in Hrun. rewrite Hbal in Hrun.
  set (now := Store.clock w) in *.
  set (before := streak_of (Store.tables w) user now) in *.
  match type of Hrun with _ = (?w1, _) => set (w' := w1) in * end.
  exists w'. eexists. exists (streak_of (Store.tables w') user now).
  split; [exact Hrun|]. cbn [Wallet.earned_streak_days].
  split.
  { rewrite run_calculate_user_streak by reflexivity. reflexivity. }
  assert (Hact : forall d,
            active_on (Store.tables w') user now d
            <-> active_on (Store.tables w) user now d
                \/ d = Store.date_of now).
  { intros d. subst w'. cbn [Store.tables].
    apply active_on_after_insert; reflexivity. }
  destruct (streak_of_spec (Store.tables w) user now) as (Hb0 & Hbin & Hbout).
  destruct (streak_of_spec (Store.tables w') user now) as (Ha0 & Hain & Haout).
  fold before in Hb0, Hbin, Hbout.
  assert (Hone : 1 <= streak_of (Store.tables w') user now).
  { destruct (Z_le_gt_dec 1 (streak_of (Store.tables w') user now))
      as [H|H]; [assumption|].
    exfalso. apply Haout. apply Hact. right.
    replace (streak_of (Store.tables w') user now) with 0 by lia. lia. }
  assert (Hsame : 1 <= before ->
                  streak_of (Store.tables w') user now = before).
  { intros H1.
    assert (Htoday : active_on (Store.tables w) user now (Store.date_of now)).
    { specialize (Hbin 0). rewrite Z.sub_0_r in Hbin. apply Hbin. lia. }
    apply (consecutive_unique
             (fun i => active_on (Store.tables w') user now
                         (Store.date_of now - i))); try assumption.
    - intros i Hi. apply Hact. left. now apply Hbin.
    - intros H. apply Hact in H. destruct H as [H|H]; [now apply Hbout|].
      lia. }
  split; [assumption|]. split; [|assumption].
  destruct (Z_le_gt_dec 1 before) as [H|H]; [rewrite Hsame by assumption|];
    lia.
Qed.

Lemma streak_after_earn_witness :
  Store.faults (ana_world []) = []
  /\ Store.balance_of (Store.tables (ana_world [])) "ana" = Some 100
  /\ exists w' r after,
       Handler.run (Wallet.earn_coins pomodoro "ana") (ana_world [])
       = (w', inr r)
       /\ Handler.run (Wallet.calculate_user_streak "ana") w'
          = (w', inr after)
       /\ 1 <= after
       /\ Wallet.earned_streak_days r <= after.
Proof.
  split; [reflexivity|]. split; [reflexivity|].
  destruct (streak_after_earn (ana_world []) pomodoro "ana" 100
              eq_refl eq_refl)
    as (w' & r & after & Hrun & Hstreak & Hone & Hle & _).
  exists w', r, after. repeat split; assumption.
Defined.

(** ** An earn on a store that fails once *)

(** X8: when the store is unreachable for the lookback of the streak and
    reachable afterwards, the earn succeeds all the same: it is granted for
    streak 0 at multiplier 1.0, the base coins and no more, whatever the
    activities of the user are. *)
Theorem earn_without_streak_lookup
    (w : Store.World) (a : Schemas.ActivityCreate) (user : string) (b : Z)
    (Hfaults : Store.faults w = [true])
    (Hwallet : Store.balance_of (Store.tables w) user = Some b) :
  exists w' r,
    Handler.run (Wallet.earn_coins a user) w = (w', inr r)
    /\ Wallet.earned_streak_days r = 0
    /\ Wallet.streak_multiplier r = PyFloat.literal 10 1
    /\ Wallet.final_coins r = Wallet.base_coins r
    /\ Wallet.new_balance r = b + Wallet.base_coins r
    /\ Store.balance_of (Store.tables w') user
       = Some (b + Wallet.base_coins r).
Proof.
  destruct (base_coins_cases (Schemas.activity_type a)) as (base & Hbase & Hb).
  destruct (balance_of_hd _ _ _ Hwallet) as (rest & Hbal & Hne).
  unfold Wallet.earn_coins. rewrite run_try_except, Hbase.
  cbn [Handler.value_or Handler.bind].
  rewrite run_bind, (run_calculate_user_streak_unreachable w user [] Hfaults).
  rewrite (final_coins_exact base 0 Hb).
  assert (Hcoins : spec_final_coins base 0 = base).
  { rewrite spec_final_coins_eq. change (spec_tenths 0) with 10.
    now rewrite Z.div_mul by lia. }
  rewrite Hcoins.
  destruct w as [[acts ws] now fs].
  cbn [Store.tables Store.clock Store.wallets] in *.
  cbn -[Policy.get_streak_multiplier].
  destruct (filter (Store.owned_by user) ws) as [|w0 ws0] eqn:Hown;
    [congruence|].
  cbn -[Policy.get_streak_multiplier].
  rewrite filter_set_balance, Hown.
  cbn -[Policy.get_streak_multiplier].
  eexists _, _. split; [reflexivity|].
  cbn [Wallet.earned_streak_days Wallet.streak_multiplier Wallet.final_coins
       Wallet.base_coins Wallet.new_balance Store.tables].
  injection Hbal as Hb0 _. rewrite Hb0.
  split; [reflexivity|]. split; [reflexivity|]. split; [reflexivity|].
  split; [reflexivity|].
  apply balance_of_set_balance. now rewrite Hown.
Qed.

Lemma earn_without_streak_lookup_witness :
  Store.faults (ana_world [true]) = [true]
  /\ Store.balance_of (Store.tables (ana_world [true])) "ana" = Some 100
  /\ exists w' r,
       Handler.run (Wallet.earn_coins pomodoro "ana") (ana_world [true])
       = (w', inr r)
       /\ Wallet.earned_streak_days r = 0
       /\ Wallet.final_coins r = Wallet.base_coins r.
Proof.
  split; [reflexivity|]. split; [reflexivity|].
  destruct (earn_without_streak_lookup (ana_world [true]) pomodoro "ana" 100
              eq_refl eq_refl)
    as (w' & r & Hrun & Hstreak & _ & Hcoins & _).
  exists w', r. repeat split; assumption.
Defined.

(** X9: when the store is unreachable for the insertion of the activity, the
    earn is answered 500 and nothing has changed: no activity row, no
    balance. *)
Theorem earn_when_insert_fails
    (w : Store.World) (a : Schemas.ActivityCreate) (user : string)
    (fs : list bool)
    (Hfaults : Store.faults w = false :: true :: fs) :
  Handler.run (Wallet.earn_coins a user) w
  = ({| Store.tables := Store.tables w; Store.clock := Store.clock w;
        Store.faults := fs |},
     inl (Handler.HTTPException 500 "Failed to earn coins: APIError")).
Proof.
  destruct (base_coins_cases (Schemas.activity_type a)) as (base & Hbase & Hb).
  unfold Wallet.earn_coins. rewrite run_try_except, Hbase.
  cbn [Handler.value_or Handler.bind].
  rewrite run_bind, run_calculate_user_streak by (now rewrite Hfaults).
  destruct w as [t now fs0]. cbn [Store.faults] in Hfaults. subst fs0.
  unfold served. cbn [Store.tables Store.clock Store.faults tl].
  remember (streak_of t user now) as streak eqn:Hstreak. clear Hstreak.
  rewrite (final_coins_exact base streak Hb).
  cbn -[Policy.get_streak_multiplier spec_final_coins]. reflexivity.
Qed.

Lemma earn_when_insert_fails_witness :
  Store.faults (ana_world [false; true]) = [false; true]
  /\ Handler.run (Wallet.earn_coins pomodoro "ana") (ana_world [false; true])
     = (ana_world [],
        inl (Handler.HTTPException 500 "Failed to earn coins: APIError")).
Proof.
  split; [reflexivity|].
  exact (earn_when_insert_fails (ana_world [false; true]) pomodoro "ana" []
           eq_refl).
Defined.

(** ** Running the handlers of the whole backend *)

Lemma app_run_bind {A B} (p : App.prog A) (f : A -> App.prog B)
    (w : App.World) :
  App.run (App.bind p f) w =
    match App.run p w with
    | (w', inr a) => App.run (f a) w'
    | (w', inl e) => (w', inl e)
    end.
Proof.
  revert w. induction p as [a|e|B0 o k IH]; intros w; simpl; try reflexivity.
  destruct (App.exec o w) as [w' r]. apply IH.
Qed.

Lemma app_run_try_except {A} (p : App.prog A)
    (h : Handler.exn -> App.prog A) (w : App.World) :
  App.run (App.try_except p h) w =
    match App.run p w with
    | (w', inr a) => (w', inr a)
    | (w', inl e) => App.run (h e) w'
    end.
Proof.
  revert w. induction p as [a|e|B0 o k IH]; intros w; simpl; try reflexivity.
  destruct (App.exec o w) as [w' r]. apply IH.
Qed.

(** A handler of the wallet code runs in the whole backend as it runs on
    the wallet store, and leaves the users alone. *)
Lemma app_run_lift {A} (p : Handler.prog A) (w : App.World) :
  App.run (App.lift p) w =
    let '(s, r) := Handler.run p (App.store w) in
    ({| App.users := App.users w; App.ids := App.ids w; App.store := s |}, r).
Proof.
  revert w. induction p as [a|e|B0 o k IH]; intros w; simpl.
  - now destruct w.
  - now destruct w.
  - destruct (Store.exec o (App.store w)) as [s r]. rewrite IH. reflexivity.
Qed.

(** *** Handlers that only read *)

Lemma exec_reads {B} (o : App.op B) (w : App.World) :
  reads o = true ->
  App.users (fst (App.exec o w)) = App.users w
  /\ App.ids (fst (App.exec o w)) = App.ids w
  /\ Store.tables (App.store (fst (App.exec o w)))
     = Store.tables (App.store w).
Proof.
  destruct o as [B o'| | | | | | | |]; simpl; try discriminate; intros H.
  - destruct o'; try discriminate H; unfold Store.exec; cbn;
      try (destruct (Store.faults (App.store w)) as [|[] fs]; cbn);
      auto.
  - destruct (Store.faults (App.store w)) as [|[] fs]; simpl; auto.
  - destruct (Store.faults (App.store w)) as [|[] fs]; simpl; auto.
  - destruct (Store.faults (App.store w)) as [|[] fs]; simpl; auto.
  - destruct (Store.faults (App.store w)) as [|[] fs]; simpl; auto.
  - destruct (Store.faults (App.store w)) as [|[] fs]; simpl; auto.
Qed.

Lemma run_read_only {A} (p : App.prog A) (w : App.World) :
  ReadOnly p ->
  App.users (fst (App.run p w)) = App.users w
  /\ App.ids (fst (App.run p w)) = App.ids w
  /\ Store.tables (App.store (fst (App.run p w)))
     = Store.tables (App.store w).
Proof.
  intros H. revert w. induction H as [a|e|B o k Ho Hk IH]; intros w; simpl;
    auto.
  pose proof (exec_reads o w Ho) as (Hu & Hi & Ht).
  destruct (App.exec o w) as [w' r]. simpl in *.
  destruct (IH r w') as (Hu' & Hi' & Ht'). repeat split; congruence.
Qed.

Lemma read_only_bind {A B} (p : App.prog A) (f : A -> App.prog B) :
  ReadOnly p -> (forall a, ReadOnly (f a)) -> ReadOnly (App.bind p f).
Proof.
  intros Hp Hf. induction Hp; simpl; auto; constructor; auto.
Qed.

Lemma read_only_try_except {A} (p : App.prog A)
    (h : Handler.exn -> App.prog A) :
  ReadOnly p -> (forall e, ReadOnly (h e)) -> ReadOnly (App.try_except p h).
Proof.
  intros Hp Hh. induction Hp; simpl; auto; constructor; auto.
Qed.

Lemma read_only_execute {A} (o : App.op (Store.outcome A)) :
  reads o = true -> ReadOnly (App.execute o).
Proof.
  intros Ho. constructor; [assumption|]. intros [d|]; constructor.
Qed.

Lemma read_only_value_or {A} (o : option A) (msg : string) :
  ReadOnly (App.value_or o msg).
Proof. destruct o; constructor. Qed.

Lemma read_only_reraise {A} (prefix : string) (e : Handler.exn) :
  ReadOnly (@App.reraise_as_500 A prefix e).
Proof. destruct e; constructor. Qed.

Lemma read_only_streak (user : string) :
  ReadOnly (App.lift (Wallet.calculate_user_streak user)).
Proof.
  unfold Wallet.calculate_user_streak.
  cbn -[Wallet.streak_loop Wallet.sixty_days].
  constructor; [reflexivity|]. intros now.
  cbn -[Wallet.streak_loop Wallet.sixty_days].
  constructor; [reflexivity|]. intros [[|x data]|];
    cbn -[Wallet.streak_loop Wallet.sixty_days]; try constructor.
  - reflexivity.
  - intros today. constructor.
Qed.

Lemma read_only_token_for (L : App.Libs) (u : App.User) :
  ReadOnly (App.token_for L u).
Proof.
  unfold App.token_for, App.utcnow. simpl.
  constructor; [reflexivity|]. intros now. constructor.
Qed.

Lemma read_only_get_balance (user : string) : ReadOnly (App.get_balance user).
Proof.
  apply read_only_try_except; [|apply read_only_reraise].
  apply read_only_bind; [now apply read_only_execute|].
  intros [|x l]; constructor.
Qed.

Lemma read_only_get_user_stats (user : string) :
  ReadOnly (App.get_user_stats user).
Proof.
  apply read_only_try_except; [|intros e; constructor].
  apply read_only_bind; [now apply read_only_execute|]. intros wallet.
  apply read_only_bind; [now apply read_only_execute|]. intros activities.
  apply read_only_bind; [apply read_only_streak|]. intros streak.
  apply read_only_bind; [apply read_only_value_or|]. intros next.
  constructor.
Qed.

Lemma read_only_login (L : App.Libs) (c : App.Credentials) :
  ReadOnly (App.login L c).
Proof.
  apply read_only_try_except; [|apply read_only_reraise].
  apply read_only_bind; [now apply read_only_execute|].
  intros [|u l]; [constructor|].
  apply read_only_bind; [apply read_only_value_or|].
  intros []; [apply read_only_token_for|constructor].
Qed.

Lemma read_only_get_current_user (L : App.Libs) (token : string) :
  ReadOnly (App.get_current_user L token).
Proof.
  apply read_only_try_except; [|intros []; constructor].
  apply read_only_bind.
  { constructor; [reflexivity|]. intros now. constructor. }
  intros now. apply read_only_bind; [apply read_only_value_or|].
  intros [[|c s]|]; [constructor| |constructor].
  apply read_only_bind; [now apply read_only_execute|].
  intros [|u l]; constructor.
Qed.

(** X10: the balance, the statistics, the login and the authentication of a
    token, alone or in front of the balance and the statistics, never
    change a row: users, identifiers and tables are after the request what
    they were before, whatever the token and the password are and whichever
    calls the store fails to answer. *)
Theorem read_handlers_change_nothing
    (L : App.Libs) (token : string) (c : App.Credentials) (user : string)
    (w : App.World) :
  let unchanged (w' : App.World) :=
    App.users w' = App.users w /\ App.ids w' = App.ids w
    /\ Store.tables (App.store w') = Store.tables (App.store w) in
  unchanged (fst (App.run (App.get_balance user) w))
  /\ unchanged (fst (App.run (App.get_user_stats user) w))
  /\ unchanged (fst (App.run (App.login L c) w))
  /\ unchanged (fst (App.run (App.get_current_user L token) w))
  /\ unchanged (fst (App.run (App.authenticated L token App.get_balance) w))
  /\ unchanged
       (fst (App.run (App.authenticated L token App.get_user_stats) w)).
Proof.
  cbv zeta.
  split; [apply run_read_only, read_only_get_balance|].
  split; [apply run_read_only, read_only_get_user_stats|].
  split; [apply run_read_only, read_only_login|].
  split; [apply run_read_only, read_only_get_current_user|].
  split; apply run_read_only; unfold App.authenticated;
    (apply read_only_bind; [apply read_only_get_current_user|]); intros u.
  - apply read_only_get_balance.
  - apply read_only_get_user_stats.
Qed.

(** ** The balance *)

Lemma get_next_streak_target_some (c : Z) :
  exists t, Policy.get_next_streak_target c = Some t.
Proof. rewrite get_next_streak_target_tiers. eauto. Qed.

(** The balance endpoint on a store that answers. *)
Lemma run_get_balance (w : App.World) (user : string) :
  hd false (Store.faults (App.store w)) = false ->
  App.run (App.get_balance user) w
  = ({| App.users := App.users w; App.ids := App.ids w;
        App.store := served (App.store w) |},
     match filter (Store.owned_by user)
                  (Store.wallets (Store.tables (App.store w))) with
     | [] => inl (Handler.HTTPException 404 "Wallet not found")
     | wallet :: _ => inr wallet
     end).
Proof.
  intros Hfs. destruct w as [us fresh [t now fs]]. simpl in Hfs.
  unfold App.get_balance, served. cbn.
  destruct fs as [|[] fs]; [|discriminate|]; cbn;
    destruct (filter (Store.owned_by user) (Store.wallets t)); reflexivity.
Qed.

(** X11: after a successful earn the balance endpoint answers with the wallet
    of the user, the new balance that the earn reported, and the time of
    the earn as the time of the last update. *)
Theorem balance_after_earn
    (w : App.World) (a : Schemas.ActivityCreate) (user : string) (b : Z)
    (Hreachable : Store.faults (App.store w) = [])
    (Hwallet : Store.balance_of (Store.tables (App.store w)) user = Some b) :
  exists w' r wallet,
    App.run (App.lift (Wallet.earn_coins a user)) w = (w', inr r)
    /\ App.run (App.get_balance user) w' = (w', inr wallet)
    /\ Store.wallet_user_id wallet = user
    /\ Store.balance wallet = Wallet.new_balance r
    /\ Store.balance wallet = b + Wallet.final_coins r
    /\ Store.updated_at wallet = Store.clock (App.store w).
Proof.
  destruct (run_earn_coins (App.store w) a user Hreachable)
    as (base & _ & Hrun).
  destruct (balance_of_hd _ _ _ Hwallet) as (rest & Hbal & Hne).
  cbv zeta in Hrun. rewrite Hbal in Hrun.
  destruct (filter (Store.owned_by user)
                   (Store.wallets (Store.tables (App.store w))))
    as [|x l] eqn:Hown; [congruence|].
  assert (Hx : Store.owned_by user x = true).
  { assert (Hin : In x (filter (Store.owned_by user)
                          (Store.wallets (Store.tables (App.store w)))))
      by (rewrite Hown; now left).
    now apply filter_In in Hin. }
  eexists _, _, _. split.
  { rewrite app_run_lift, Hrun. reflexivity. }
  rewrite run_get_balance by reflexivity.
  cbn [App.store Store.tables Store.wallets App.users App.ids].
  rewrite filter_set_balance, Hown. cbn [map].
  unfold served. cbn [Store.tables Store.clock Store.faults tl].
  split; [reflexivity|].
  unfold Store.set_balance. rewrite Hx.
  cbn [Store.wallet_user_id Store.balance Store.updated_at
       Wallet.new_balance Wallet.final_coins].
  split; [unfold Store.owned_by in Hx; now apply String.eqb_eq in Hx|].
  split; [reflexivity|]. split; [reflexivity|]. reflexivity.
Qed.

Lemma balance_after_earn_witness :
  Store.faults (App.store (ana_app [])) = []
  /\ Store.balance_of (Store.tables (App.store (ana_app []))) "ana" = Some 100
  /\ exists w' r wallet,
       App.run (App.lift (Wallet.earn_coins pomodoro "ana")) (ana_app [])
       = (w', inr r)
       /\ App.run (App.get_balance "ana") w' = (w', inr wallet)
       /\ Store.balance wallet = Wallet.new_balance r.
Proof.
  split; [reflexivity|]. split; [reflexivity|].
  destruct (balance_after_earn (ana_app []) pomodoro "ana" 100
              eq_refl eq_refl)
    as (w' & r & wallet & Hearn & Hget & _ & Hbal & _).
  exists w', r, wallet. repeat split; assumption.
Defined.

(** ** The statistics *)

(** The statistics endpoint on a store that answers. *)
Lemma run_get_user_stats (w : App.World) (user : string) :
  Store.faults (App.store w) = [] ->
  exists next,
    Policy.get_next_streak_target
      (streak_of (Store.tables (App.store w)) user (Store.clock (App.store w)))
    = Some next
    /\ App.run (App.get_user_stats user) w
       = (w, inr (stats_of (Store.tables (App.store w)) user
                           (Store.clock (App.store w)) next)).
Proof.
  intros Hfs.
  destruct (get_next_streak_target_some
              (streak_of (Store.tables (App.store w)) user
                         (Store.clock (App.store w)))) as (next & Hnext).
  exists next. split; [assumption|].
  destruct w as [us fresh [t now fs]]. simpl in Hfs. subst fs.
  cbn [App.store Store.tables Store.clock] in *.
  unfold App.get_user_stats. rewrite app_run_try_except.
  cbn -[Wallet.calculate_user_streak Policy.get_next_streak_target
        App.lift App.sum_coins App.max_by_value App.activity_counts].
  rewrite app_run_bind, app_run_lift.
  rewrite run_calculate_user_streak by reflexivity.
  unfold served.
  cbn [App.store App.users App.ids Store.tables Store.clock Store.faults tl].
  rewrite Hnext. reflexivity.
Qed.

Lemma sum_coins_app (l : list Store.Activity) (row : Store.Activity) :
  App.sum_coins (l ++ [row])%list
  = App.sum_coins l + Store.coins_earned (Store.values row).
Proof. unfold App.sum_coins. now rewrite fold_left_app. Qed.

(** One earn, as the ledger of the user sees it. *)
Lemma earn_ledger_step (s : Store.World) (a : Schemas.ActivityCreate)
    (user : string) (b : Z) :
  Store.faults s = [] ->
  Store.balance_of (Store.tables s) user = Some b ->
  exists s' r row,
    Handler.run (Wallet.earn_coins a user) s = (s', inr r)
    /\ Store.faults s' = []
    /\ Store.balance_of (Store.tables s') user
       = Some (b + Wallet.final_coins r)
    /\ filter (Store.of_user user) (Store.activities (Store.tables s'))
       = (filter (Store.of_user user) (Store.activities (Store.tables s))
            ++ [row])%list
    /\ Store.coins_earned (Store.values row) = Wallet.final_coins r.
Proof.
  intros Hfs Hb.
  destruct (run_earn_coins s a user Hfs) as (base & _ & Hrun).
  destruct (balance_of_hd _ _ _ Hb) as (rest & Hbal & Hne).
  cbv zeta in Hrun. rewrite Hbal in Hrun.
  eexists _, _, _. split; [exact Hrun|].
  cbn [Store.faults Store.tables Store.activities Wallet.final_coins].
  split; [reflexivity|].
  split; [now apply balance_of_set_balance|].
  split.
  - rewrite filter_app. f_equal. cbn [filter].
    unfold Store.of_user at 1. unfold earned_row at 1.
    cbn [Store.values Store.user_id]. now rewrite String.eqb_refl.
  - reflexivity.
Qed.

Lemma earns_ledger (user : string) (requests : list Schemas.ActivityCreate)
    (s : Store.World) (b : Z) :
  Store.faults s = [] ->
  Store.balance_of (Store.tables s) user = Some b ->
  exists s' results,
    Handler.run_all (map (fun a => Wallet.earn_coins a user) requests) s
    = (s', map inr results)
    /\ Store.faults s' = []
    /\ Store.balance_of (Store.tables s') user
       = Some (b + total_coins results)
    /\ App.sum_coins
         (filter (Store.of_user user) (Store.activities (Store.tables s')))
       = App.sum_coins
           (filter (Store.of_user user) (Store.activities (Store.tables s)))
         + total_coins results
    /\ List.length
         (filter (Store.of_user user) (Store.activities (Store.tables s')))
       = (List.length
            (filter (Store.of_user user) (Store.activities (Store.tables s)))
          + List.length requests)%nat.
Proof.
  revert s b. induction requests as [|a requests IH]; intros s b Hfs Hb.
  - exists s, []. simpl. rewrite !Z.add_0_r, Nat.add_0_r. auto.
  - destruct (earn_ledger_step s a user b Hfs Hb)
      as (s1 & r & row & Hrun & Hfs1 & Hb1 & Hrows & Hcoins).
    destruct (IH s1 _ Hfs1 Hb1) as (s2 & rs & Hall & Hfs2 & Hb2 & Hsum & Hlen).
    exists s2, (r :: rs). simpl. rewrite Hrun, Hall.
    split; [reflexivity|]. split; [assumption|].
    split; [rewrite Hb2; f_equal; lia|].
    split.
    + rewrite Hsum, Hrows, sum_coins_app, Hcoins. lia.
    + rewrite Hlen, Hrows, length_app. simpl. lia.
Qed.

(** X12: the statistics follow the earns: after any number of earns of a user
    served one after the other on a store that answers, the balance and
    the total earned that the statistics report have both grown by the
    coins granted, and the number of activities by the number of earns; the
    balance minus the total earned is what it was. *)
Theorem stats_follow_earns
    (w : App.World) (user : string) (requests : list Schemas.ActivityCreate)
    (b : Z)
    (Hreachable : Store.faults (App.store w) = [])
    (Hwallet : Store.balance_of (Store.tables (App.store w)) user = Some b) :
  exists before s' results after,
    App.run (App.get_user_stats user) w = (w, inr before)
    /\ Handler.run_all (map (fun a => Wallet.earn_coins a user) requests)
                       (App.store w)
       = (s', map inr results)
    /\ App.run (App.get_user_stats user)
         {| App.users := App.users w; App.ids := App.ids w; App.store := s' |}
       = ({| App.users := App.users w; App.ids := App.ids w;
             App.store := s' |}, inr after)
    /\ App.stats_balance before = b
    /\ App.stats_balance after = b + total_coins results
    /\ App.total_earned after = App.total_earned before + total_coins results
    /\ App.total_activities after
       = App.total_activities before + Z.of_nat (List.length requests)
    /\ App.stats_balance after - App.total_earned after
       = App.stats_balance before - App.total_earned before.
Proof.
  destruct (run_get_user_stats w user Hreachable) as (next & _ & Hbefore).
  destruct (earns_ledger user requests (App.store w) b Hreachable Hwallet)
    as (s' & results & Hall & Hfs' & Hb' & Hsum & Hlen).
  destruct (run_get_user_stats
              {| App.users := App.users w; App.ids := App.ids w;
                 App.store := s' |} user Hfs') as (next' & _ & Hafter).
  eexists _, s', results, _.
  split; [exact Hbefore|]. split; [exact Hall|]. split; [exact Hafter|].
  unfold stats_of.
  cbn [App.stats_balance App.total_earned App.total_activities App.store].
  destruct (balance_of_hd _ _ _ Hwallet) as (rest & -> & _).
  destruct (balance_of_hd _ _ _ Hb') as (rest' & -> & _).
  rewrite Hsum, Hlen.
  split; [reflexivity|]. split; [reflexivity|]. split; [reflexivity|].
  split; lia.
Qed.

Lemma stats_follow_earns_witness :
  Store.faults (App.store (ana_app [])) = []
  /\ Store.balance_of (Store.tables (App.store (ana_app []))) "ana" = Some 100
  /\ exists before s' results after,
       App.run (App.get_user_stats "ana") (ana_app [])
       = (ana_app [], inr before)
       /\ Handler.run_all
            (map (fun a => Wallet.earn_coins a "ana") [pomodoro; pomodoro])
            (App.store (ana_app []))
          = (s', map inr results)
       /\ App.stats_balance after - App.total_earned after
          = App.stats_balance before - App.total_earned before.
Proof.
  split; [reflexivity|]. split; [reflexivity|].
  destruct (stats_follow_earns (ana_app []) "ana" [pomodoro; pomodoro] 100
              eq_refl eq_refl)
    as (before & s' & results & after & Hb & Hall & _ & _ & _ & _ & _ & Hgap).
  exists before, s', results, after. repeat split; assumption.
Defined.

(** The statistics of ana: 100 coins, four activities worth 200 coins, a
    streak of 2, one day to the next milestone. *)
Example stats_of_ana :
  snd (App.run (App.get_user_stats "ana") (ana_app []))
  = inr {| App.stats_balance := 100;
           App.total_activities := 4;
           App.total_earned := 200;
           App.current_streak := 2;
           App.favorite_activity := Some "pomodoro_25min";
           App.next_streak_bonus :=
             {| Policy.days_needed := 1; Policy.target_days := 3;
                Policy.bonus_multiplier := PyFloat.literal 12 1;
                Policy.message := None |} |}.
Proof. vm_compute. reflexivity. Qed.

(** X13: a user without a wallet is answered 404 by the balance endpoint, and
    by the statistics endpoint with a balance of 0. *)
Theorem missing_wallet_balance_and_stats
    (w : App.World) (user : string)
    (Hreachable : Store.faults (App.store w) = [])
    (Hnone : Store.balance_of (Store.tables (App.store w)) user = None) :
  snd (App.run (App.get_balance user) w)
  = inl (Handler.HTTPException 404 "Wallet not found")
  /\ exists stats,
       snd (App.run (App.get_user_stats user) w) = inr stats
       /\ App.stats_balance stats = 0.
Proof.
  assert (Hown : filter (Store.owned_by user)
                        (Store.wallets (Store.tables (App.store w))) = []).
  { unfold Store.balance_of in Hnone.
    destruct (filter _ _); [reflexivity|discriminate]. }
  split.
  - rewrite run_get_balance by (now rewrite Hreachable).
    now rewrite Hown.
  - destruct (run_get_user_stats w user Hreachable) as (next & _ & Hrun).
    eexists. rewrite Hrun. split; [reflexivity|].
    unfold stats_of. cbn [App.stats_balance]. now rewrite Hown.
Qed.

Lemma missing_wallet_balance_and_stats_witness :
  Store.faults (App.store (ana_app [])) = []
  /\ Store.balance_of (Store.tables (App.store (ana_app []))) "bob" = None
  /\ snd (App.run (App.get_balance "bob") (ana_app []))
     = inl (Handler.HTTPException 404 "Wallet not found")
  /\ exists stats,
       snd (App.run (App.get_user_stats "bob") (ana_app [])) = inr stats
       /\ App.stats_balance stats = 0.
Proof.
  split; [reflexivity|]. split; [reflexivity|].
  exact (missing_wallet_balance_and_stats (ana_app []) "bob" eq_refl eq_refl).
Defined.

(** X14: the statistics on a store that fails once: a failure of the read of
    the wallet or of the read of the activities is answered 500; a failure
    of the lookback of the streak is not reported at all, the statistics
    are answered with a streak of 0 and the first milestone ahead, the
    balance and the totals being those of the tables. *)
Theorem stats_on_failing_store (w : App.World) (user : string) :
  (hd false (Store.faults (App.store w)) = true ->
   snd (App.run (App.get_user_stats user) w)
   = inl (Handler.HTTPException 500 "Failed to get stats: APIError"))
  /\ (Store.faults (App.store w) = [false; true] ->
      snd (App.run (App.get_user_stats user) w)
      = inl (Handler.HTTPException 500 "Failed to get stats: APIError"))
  /\ (Store.faults (App.store w) = [false; false; true] ->
      exists stats,
        snd (App.run (App.get_user_stats user) w) = inr stats
        /\ App.current_streak stats = 0
        /\ Policy.days_needed (App.next_streak_bonus stats) = 3
        /\ let exact := stats_of (Store.tables (App.store w)) user
                                 (Store.clock (App.store w))
                                 (App.next_streak_bonus stats) in
           App.stats_balance stats = App.stats_balance exact
           /\ App.total_activities stats = App.total_activities exact
           /\ App.total_earned stats = App.total_earned exact
           /\ App.favorite_activity stats = App.favorite_activity exact).
Proof.
  destruct w as [us fresh [t now fs]].
  cbn [App.store Store.faults Store.tables Store.clock].
  split; [|split].
  - destruct fs as [|[] fs]; try discriminate. intros _. reflexivity.
  - intros ->. reflexivity.
  - intros ->. unfold App.get_user_stats. rewrite app_run_try_except.
    cbn -[Wallet.calculate_user_streak Policy.get_next_streak_target
          App.lift App.sum_coins App.max_by_value App.activity_counts].
    rewrite app_run_bind, app_run_lift.
    rewrite (run_calculate_user_streak_unreachable _ user [])
      by reflexivity.
    cbn [App.store App.users App.ids Store.tables Store.clock].
    rewrite get_next_streak_target_tiers.
    cbn -[App.sum_coins App.max_by_value App.activity_counts streak_of].
    eexists. split; [reflexivity|].
    cbn -[App.sum_coins App.max_by_value App.activity_counts streak_of].
    repeat split.
Qed.

Lemma stats_on_failing_store_witness :
  Store.faults (App.store (ana_app [false; false; true]))
  = [false; false; true]
  /\ exists stats,
       snd (App.run (App.get_user_stats "ana")
                    (ana_app [false; false; true])) = inr stats
       /\ App.current_streak stats = 0
       /\ App.stats_balance stats = 100.
Proof.
  split; [reflexivity|].
  destruct (stats_on_failing_store (ana_app [false; false; true]) "ana")
    as (_ & _ & H).
  destruct (H eq_refl) as (stats & Hrun & Hstreak & _ & Hbal & _).
  exists stats. split; [exact Hrun|]. split; [exact Hstreak|].
  rewrite Hbal. reflexivity.
Defined.


(** ** Registration *)

Lemma no_user_with_email (e : string) (us : list App.User) :
  (forall u, In u us -> App.email u <> e) ->
  filter (App.has_email e) us = [].
Proof.
  intros H. induction us as [|u us IH]; simpl; [reflexivity|].
  unfold App.has_email at 1.
  destruct (String.eqb_spec (App.email u) e) as [E|_].
  - exfalso. apply (H u); [now left|assumption].
  - apply IH. intros u' Hu'. apply H. now right.
Qed.

(** X15: a registration with an e-mail address that a user already has is
    answered 400, and nothing is changed. *)
Theorem register_existing_email
    (L : App.Libs) (c : App.Credentials) (w : App.World) (u : App.User)
    (Hreachable : hd false (Store.faults (App.store w)) = false)
    (Hin : In u (App.users w))
    (Hemail : App.email u = App.cred_email c) :
  App.run (App.register L c) w
  = ({| App.users := App.users w; App.ids := App.ids w;
        App.store := served (App.store w) |},
     inl (Handler.HTTPException 400 "Email already registered")).
Proof.
  destruct w as [us fresh [t now fs]].
  cbn [App.users App.store Store.faults] in *.
  assert (Hex : exists x l, filter (App.has_email (App.cred_email c)) us
                            = x :: l).
  { destruct (filter (App.has_email (App.cred_email c)) us) as [|x l] eqn:E;
      [|eauto].
    exfalso. assert (Hu : In u (filter (App.has_email (App.cred_email c)) us)).
    { apply filter_In. split; [assumption|].
      unfold App.has_email. now apply String.eqb_eq. }
    now rewrite E in Hu. }
  destruct Hex as (x & l & Hex).
  unfold App.register, served. cbn.
  destruct fs as [|[] fs]; [|discriminate|]; cbn; rewrite Hex; reflexivity.
Qed.

Lemma register_existing_email_witness :
  hd false (Store.faults (App.store (ana_app []))) = false
  /\ App.run (App.register toy_libs
                {| App.cred_email := "ana@example.org";
                   App.cred_password := "another" |}) (ana_app [])
     = (ana_app [],
        inl (Handler.HTTPException 400 "Email already registered")).
Proof.
  split; [reflexivity|].
  exact (register_existing_email toy_libs
           {| App.cred_email := "ana@example.org";
              App.cred_password := "another" |} (ana_app [])
           {| App.id := "ana"; App.email := "ana@example.org";
              App.password_hash := "bcrypt:secret1"; App.created_at := 0 |}
           eq_refl (or_introl eq_refl) eq_refl).
Defined.

Lemma run_register (L : App.Libs) (c : App.Credentials) (w : App.World)
    (i hash : string) (fresh : list string) :
  Store.faults (App.store w) = [] ->
  (forall u, In u (App.users w) -> App.email u <> App.cred_email c) ->
  App.hashpw L (App.cred_password c) = Some hash ->
  App.ids w = i :: fresh ->
  App.run (App.register L c) w
  = (registered w c i hash,
     inr {| App.access_token :=
              App.jwt_encode L i (Store.clock (App.store w));
            App.token_type := "bearer";
            App.token_user :=
              {| App.resp_id := i; App.resp_email := App.cred_email c;
                 App.resp_created_at := Store.clock (App.store w) |} |}).
Proof.
  intros Hfs Hnew Hhash Hids.
  destruct w as [us ids [t now fs]].
  cbn [App.users App.ids App.store Store.faults Store.clock Store.tables] in *.
  subst fs ids. unfold App.register, registered.
  pose proof (no_user_with_email _ _ Hnew) as Hnone.
  cbn -[App.hashpw App.jwt_encode]. rewrite Hnone.
  cbn -[App.hashpw App.jwt_encode]. rewrite Hhash.
  cbn -[App.jwt_encode]. reflexivity.
Qed.

(** ** Login *)

Lemma run_login (L : App.Libs) (c : App.Credentials) (w : App.World) :
  hd false (Store.faults (App.store w)) = false ->
  App.run (App.login L c) w
  = ({| App.users := App.users w; App.ids := App.ids w;
        App.store := served (App.store w) |}, login_reply L c w).
Proof.
  intros Hfs. destruct w as [us fresh [t now fs]].
  cbn [App.store Store.faults] in Hfs.
  unfold App.login, login_reply, served.
  cbn -[App.checkpw App.jwt_encode].
  destruct fs as [|[] fs]; [|discriminate|];
    cbn -[App.checkpw App.jwt_encode];
    (destruct (filter (App.has_email (App.cred_email c)) us) as [|u l];
     [reflexivity|]);
    (destruct (App.checkpw L (App.cred_password c) (App.password_hash u))
       as [[]|]; reflexivity).
Qed.

(** X16: a login with an e-mail address that no user has and a login with a
    password that does not verify are answered alike, 401 with the same
    detail; a login succeeds only for the first user of the address, with a
    password that verifies against the stored hash, and its token is made
    for the identifier of that user. *)
Theorem login_answers
    (L : App.Libs) (c : App.Credentials) (w : App.World)
    (Hreachable : hd false (Store.faults (App.store w)) = false) :
  ((forall u, In u (App.users w) -> App.email u <> App.cred_email c) ->
   snd (App.run (App.login L c) w)
   = inl (Handler.HTTPException 401 "Invalid credentials"))
  /\ (forall u rest,
        filter (App.has_email (App.cred_email c)) (App.users w) = u :: rest ->
        App.checkpw L (App.cred_password c) (App.password_hash u)
        = Some false ->
        snd (App.run (App.login L c) w)
        = inl (Handler.HTTPException 401 "Invalid credentials"))
  /\ (forall tok,
        snd (App.run (App.login L c) w) = inr tok ->
        exists u rest,
          filter (App.has_email (App.cred_email c)) (App.users w) = u :: rest
          /\ App.checkpw L (App.cred_password c) (App.password_hash u)
             = Some true
          /\ App.token_user tok = App.response_of u
          /\ App.access_token tok
             = App.jwt_encode L (App.id u) (Store.clock (App.store w))).
Proof.
  rewrite run_login by assumption. cbn [snd]. unfold login_reply.
  split; [|split].
  - intros Hnone. now rewrite (no_user_with_email _ _ Hnone).
  - intros u rest -> ->. reflexivity.
  - intros tok.
    destruct (filter (App.has_email (App.cred_email c)) (App.users w))
      as [|u l]; [discriminate|].
    destruct (App.checkpw L (App.cred_password c) (App.password_hash u))
      as [[]|] eqn:Hc; try discriminate.
    intros [= <-]. exists u, l. repeat split. exact Hc.
Qed.

Lemma login_answers_witness :
  hd false (Store.faults (App.store (ana_app []))) = false
  /\ snd (App.run (App.login toy_libs
                     {| App.cred_email := "ana@example.org";
                        App.cred_password := "guess" |}) (ana_app []))
     = snd (App.run (App.login toy_libs
                       {| App.cred_email := "eve@example.org";
                          App.cred_password := "guess" |}) (ana_app [])).
Proof.
  split; [reflexivity|].
  destruct (login_answers toy_libs
              {| App.cred_email := "ana@example.org";
                 App.cred_password := "guess" |} (ana_app []) eq_refl)
    as (_ & Hwrong & _).
  destruct (login_answers toy_libs
              {| App.cred_email := "eve@example.org";
                 App.cred_password := "guess" |} (ana_app []) eq_refl)
    as (Hunknown & _ & _).
  rewrite (Hwrong _ [] eq_refl eq_refl).
  rewrite Hunknown; [reflexivity|].
  intros u [<-|[]]. discriminate.
Defined.

(** X17: a registration on a store that answers, with an e-mail address that no
    user has, creates the user with the hash of the password and a wallet
    of 100 coins for the identifier that the store gave to the user; the
    balance endpoint then answers 100 for that identifier (if no wallet had
    it before), and a login with the same credentials is answered with the
    same user (if the password verifies against its hash). *)
Theorem register_then_balance_and_login
    (L : App.Libs) (c : App.Credentials) (w : App.World)
    (i hash : string) (fresh : list string)
    (Hreachable : Store.faults (App.store w) = [])
    (Hnew : forall u, In u (App.users w) -> App.email u <> App.cred_email c)
    (Hhash : App.hashpw L (App.cred_password c) = Some hash)
    (Hids : App.ids w = i :: fresh)
    (Hverifies : App.checkpw L (App.cred_password c) hash = Some true)
    (Hwallet : Store.balance_of (Store.tables (App.store w)) i = None) :
  exists w' tok wallet tok',
    App.run (App.register L c) w = (w', inr tok)
    /\ App.resp_id (App.token_user tok) = i
    /\ App.resp_email (App.token_user tok) = App.cred_email c
    /\ App.users w'
       = (App.users w
            ++ [ {| App.id := i; App.email := App.cred_email c;
                    App.password_hash := hash;
                    App.created_at := Store.clock (App.store w) |} ])%list
    /\ Store.activities (Store.tables (App.store w'))
       = Store.activities (Store.tables (App.store w))
    /\ App.run (App.get_balance i) w' = (w', inr wallet)
    /\ Store.balance wallet = 100
    /\ App.run (App.login L c) w' = (w', inr tok')
    /\ App.token_user tok' = App.token_user tok.
Proof.
  rewrite (run_register L c w i hash fresh) by assumption.
  eexists _, _, _, _. split; [reflexivity|].
  cbn [App.token_user App.resp_id App.resp_email].
  split; [reflexivity|]. split; [reflexivity|].
  split; [reflexivity|]. split; [reflexivity|].
  assert (Hown : filter (Store.owned_by i)
                        (Store.wallets (Store.tables (App.store w))) = []).
  { unfold Store.balance_of in Hwallet.
    destruct (filter _ _); [reflexivity|discriminate]. }
  rewrite run_get_balance by reflexivity.
  rewrite run_login by reflexivity.
  unfold login_reply, registered, served.
  cbn [App.users App.ids App.store Store.tables Store.wallets Store.clock
       Store.faults tl].
  rewrite !filter_app, Hown, (no_user_with_email _ _ Hnew).
  cbn [filter app]. unfold Store.owned_by at 1, App.has_email at 1.
  cbn [Store.wallet_user_id App.email]. rewrite !String.eqb_refl.
  cbn [App.password_hash]. rewrite Hverifies.
  split; [reflexivity|]. split; [reflexivity|].
  split; reflexivity.
Qed.

Lemma register_then_balance_and_login_witness :
  Store.faults (App.store (ana_app [])) = []
  /\ App.hashpw toy_libs "hunter22" = Some "bcrypt:hunter22"
  /\ App.ids (ana_app []) = ["u2"; "u3"]
  /\ exists w' tok wallet tok',
       App.run (App.register toy_libs
                  {| App.cred_email := "bea@example.org";
                     App.cred_password := "hunter22" |}) (ana_app [])
       = (w', inr tok)
       /\ App.resp_id (App.token_user tok) = "u2"
       /\ App.run (App.get_balance "u2") w' = (w', inr wallet)
       /\ Store.balance wallet = 100
       /\ App.run (App.login toy_libs
                     {| App.cred_email := "bea@example.org";
                        App.cred_password := "hunter22" |}) w'
          = (w', inr tok')
       /\ App.token_user tok' = App.token_user tok.
Proof.
  split; [reflexivity|]. split; [reflexivity|]. split; [reflexivity|].
  assert (Hnew : forall u, In u (App.users (ana_app [])) ->
                           App.email u <> "bea@example.org").
  { intros u [<-|[]]. discriminate. }
  destruct (register_then_balance_and_login toy_libs
              {| App.cred_email := "bea@example.org";
                 App.cred_password := "hunter22" |} (ana_app [])
              "u2" "bcrypt:hunter22" ["u3"]
              eq_refl Hnew eq_refl eq_refl eq_refl eq_refl)
    as (w' & tok & wallet & tok' & Hreg & Hid & _ & _ & _ & Hbal & H100
        & Hlogin & Hsame).
  exists w', tok, wallet, tok'. repeat split; assumption.
Defined.

(** X18: a registration whose wallet cannot be inserted because the store is
    unreachable is answered 500 and is not undone: the user stays, without
    a wallet, and the e-mail address is taken; a registration that fails
    before the user is inserted changes nothing. *)
Theorem register_on_failing_store
    (L : App.Libs) (c : App.Credentials) (w : App.World)
    (i hash : string) (fresh : list string)
    (Hnew : forall u, In u (App.users w) -> App.email u <> App.cred_email c)
    (Hhash : App.hashpw L (App.cred_password c) = Some hash)
    (Hids : App.ids w = i :: fresh) :
  (Store.faults (App.store w) = [false; false; true] ->
   exists w',
     App.run (App.register L c) w
     = (w', inl (Handler.HTTPException 500 "Registration failed: APIError"))
     /\ App.users w'
        = (App.users w
             ++ [ {| App.id := i; App.email := App.cred_email c;
                     App.password_hash := hash;
                     App.created_at := Store.clock (App.store w) |} ])%list
     /\ Store.tables (App.store w') = Store.tables (App.store w)
     /\ Store.faults (App.store w') = []
     /\ snd (App.run (App.register L c) w')
        = inl (Handler.HTTPException 400 "Email already registered"))
  /\ (Store.faults (App.store w) = [false; true]
      \/ Store.faults (App.store w) = [true] ->
      exists w',
        App.run (App.register L c) w
        = (w', inl (Handler.HTTPException 500
                      "Registration failed: APIError"))
        /\ App.users w' = App.users w
        /\ Store.tables (App.store w') = Store.tables (App.store w)).
Proof.
  destruct w as [us ids [t now fs]].
  cbn [App.users App.ids App.store Store.faults Store.clock Store.tables] in *.
  subst ids. pose proof (no_user_with_email _ _ Hnew) as Hnone.
  split.
  - intros ->. unfold App.register.
    cbn -[App.hashpw App.jwt_encode]. rewrite Hnone.
    cbn -[App.hashpw App.jwt_encode]. rewrite Hhash.
    cbn -[App.jwt_encode].
    eexists. split; [reflexivity|].
    cbn [App.users App.store Store.tables Store.faults].
    split; [reflexivity|]. split; [reflexivity|]. split; [reflexivity|].
    cbn -[App.hashpw App.jwt_encode].
    rewrite filter_app, Hnone. cbn [filter app].
    unfold App.has_email at 1. cbn [App.email]. rewrite String.eqb_refl.
    reflexivity.
  - intros [-> | ->]; unfold App.register;
      cbn -[App.hashpw App.jwt_encode].
    + rewrite Hnone. cbn -[App.hashpw App.jwt_encode]. rewrite Hhash.
      cbn -[App.jwt_encode]. eexists. split; [reflexivity|]. split; reflexivity.
    + eexists. split; [reflexivity|]. split; reflexivity.
Qed.

Lemma register_on_failing_store_witness :
  App.ids (ana_app [false; false; true]) = ["u2"; "u3"]
  /\ exists w',
       App.run (App.register toy_libs
                  {| App.cred_email := "bea@example.org";
                     App.cred_password := "hunter22" |})
               (ana_app [false; false; true])
       = (w', inl (Handler.HTTPException 500
                     "Registration failed: APIError"))
       /\ List.length (App.users w') = 2%nat
       /\ Store.balance_of (Store.tables (App.store w')) "u2" = None.
Proof.
  split; [reflexivity|].
  assert (Hnew : forall u, In u (App.users (ana_app [false; false; true])) ->
                           App.email u <> "bea@example.org").
  { intros u [<-|[]]. discriminate. }
  destruct (register_on_failing_store toy_libs
              {| App.cred_email := "bea@example.org";
                 App.cred_password := "hunter22" |}
              (ana_app [false; false; true]) "u2" "bcrypt:hunter22" ["u3"]
              Hnew eq_refl eq_refl) as (H & _).
  destruct (H eq_refl) as (w' & Hrun & Hus & Ht & _).
  exists w'. split; [exact Hrun|].
  split; [now rewrite Hus|]. now rewrite Ht.
Defined.

(** ** The current user *)

(** The errors of the authentication. *)
Lemma get_current_user_raises
    (L : App.Libs) (token : string) (w : App.World) (e : Handler.exn) :
  snd (App.run (App.get_current_user L token) w) = inl e ->
  e = Handler.HTTPException 401 "Invalid token"
  \/ e = Handler.HTTPException 401 "User not found".
Proof.
  destruct w as [us fresh [t now fs]].
  unfold App.get_current_user. cbn -[App.jwt_decode].
  destruct (App.jwt_decode L token now) as [[[|ch sub]|]|];
    cbn -[App.jwt_decode]; try (intros [= <-]; auto).
  destruct fs as [|[] fs]; cbn; try (intros [= <-]; auto);
    destruct (filter (App.has_id (String ch sub)) us); cbn;
    intros [= <-]; auto.
Qed.

(** X19: whatever the token, the libraries and the store do, authentication
    fails with 401 only, and when it succeeds the user it returns is a row
    of the users whose identifier is the subject of the token. *)
Theorem get_current_user_answers
    (L : App.Libs) (token : string) (w : App.World) :
  match snd (App.run (App.get_current_user L token) w) with
  | inl e =>
      e = Handler.HTTPException 401 "Invalid token"
      \/ e = Handler.HTTPException 401 "User not found"
  | inr r =>
      exists u, In u (App.users w) /\ r = App.response_of u
                /\ App.jwt_decode L token (Store.clock (App.store w))
                   = Some (Some (App.id u))
  end.
Proof.
  destruct w as [us fresh [t now fs]].
  unfold App.get_current_user. cbn -[App.jwt_decode].
  destruct (App.jwt_decode L token now) as [[[|ch sub]|]|] eqn:Hdec;
    cbn -[App.jwt_decode]; auto.
  destruct fs as [|[] fs]; cbn; auto;
    (destruct (filter (App.has_id (String ch sub)) us) as [|u l] eqn:Hf;
     cbn; auto;
     assert (Hu : In u (filter (App.has_id (String ch sub)) us))
       by (rewrite Hf; now left);
     apply filter_In in Hu; destruct Hu as [Hin Hid];
     unfold App.has_id in Hid; apply String.eqb_eq in Hid;
     exists u; rewrite Hid; auto).
Qed.

(** X20: a route behind the authentication is not entered when the
    authentication fails: the request is answered 401 and no row is
    changed. *)
Theorem unauthenticated_route_not_entered
    {A} (L : App.Libs) (token : string) (route : string -> App.prog A)
    (w : App.World) (e : Handler.exn)
    (Hfails : snd (App.run (App.get_current_user L token) w) = inl e) :
  snd (App.run (App.authenticated L token route) w) = inl e
  /\ (e = Handler.HTTPException 401 "Invalid token"
      \/ e = Handler.HTTPException 401 "User not found")
  /\ App.users (fst (App.run (App.authenticated L token route) w))
     = App.users w
  /\ Store.tables (App.store (fst (App.run (App.authenticated L token route) w)))
     = Store.tables (App.store w).
Proof.
  pose proof (get_current_user_raises L token w e Hfails) as Hans.
  pose proof (run_read_only _ w (read_only_get_current_user L token))
    as (Hu & _ & Ht).
  unfold App.authenticated. rewrite app_run_bind.
  destruct (App.run (App.get_current_user L token) w) as [w' [e'|r]];
    simpl in *; [|discriminate].
  injection Hfails as ->. auto.
Qed.

Lemma unauthenticated_route_not_entered_witness :
  snd (App.run (App.get_current_user toy_libs "forged") (ana_app []))
  = inl (Handler.HTTPException 401 "Invalid token")
  /\ snd (App.run (App.authenticated toy_libs "forged"
                     (fun u => App.lift (Wallet.earn_coins pomodoro u)))
                  (ana_app []))
     = inl (Handler.HTTPException 401 "Invalid token").
Proof.
  split; [reflexivity|].
  exact (proj1 (unauthenticated_route_not_entered toy_libs "forged"
                  (fun u => App.lift (Wallet.earn_coins pomodoro u))
                  (ana_app [])
                  (Handler.HTTPException 401 "Invalid token") eq_refl)).
Defined.




(** ** Requests of different users do not interfere *)

Lemma exec_same_view {B} (u : string) (o : Store.op B) (w1 w2 : Store.World) :
  concerns u o = true ->
  Store.faults w1 = [] -> Store.faults w2 = [] ->
  view u w1 = view u w2 ->
  snd (Store.exec o w1) = snd (Store.exec o w2)
  /\ view u (fst (Store.exec o w1)) = view u (fst (Store.exec o w2))
  /\ Store.faults (fst (Store.exec o w1)) = []
  /\ Store.faults (fst (Store.exec o w2)) = [].
Proof.
  destruct w1 as [[a1 ws1] now1 fs1], w2 as [[a2 ws2] now2 fs2].
  unfold view. cbn [Store.tables Store.activities Store.wallets Store.clock
                    Store.faults].
  intros Ho -> -> [= Ha Hw Hnow]. subst now2.
  destruct o; cbn [concerns] in Ho; try apply String.eqb_eq in Ho;
    try subst user; unfold Store.exec;
    cbn [Store.is_store_call Store.faults Store.query Store.tables
         Store.clock Store.activities Store.wallets tl fst snd].
  - rewrite Ha, Hw. auto.
  - rewrite !(filter_andb (Store.of_user u)), Ha, Hw. auto.
  - rewrite !filter_app, Ha, Hw. auto.
  - rewrite Hw, Ha. auto.
  - rewrite !filter_set_balance, Hw, Ha. auto.
  - rewrite Ha, Hw. auto.
Qed.

Lemma exec_other_view {B} (u v : string) (o : Store.op B) (w : Store.World) :
  concerns v o = true -> v <> u ->
  Store.faults w = [] ->
  view u (fst (Store.exec o w)) = view u w
  /\ Store.faults (fst (Store.exec o w)) = [].
Proof.
  destruct w as [[a ws] now fs]. unfold view.
  cbn [Store.tables Store.activities Store.wallets Store.clock Store.faults].
  intros Ho Hne ->.
  destruct o; cbn [concerns] in Ho; try apply String.eqb_eq in Ho;
    try subst user; unfold Store.exec;
    cbn [Store.is_store_call Store.faults Store.query Store.tables
         Store.clock Store.activities Store.wallets tl fst snd]; auto.
  - rewrite filter_app. cbn [filter]. unfold Store.of_user at 2.
    cbn [Store.values]. rewrite Ho.
    destruct (String.eqb_spec v u); [contradiction|].
    now rewrite app_nil_r.
  - rewrite (filter_other_set_balance v u) by congruence. auto.
Qed.

Lemma steps_snoc {A} (n : nat) (p pa : Handler.prog A) (w wa : Store.World) :
  steps n p w = (wa, pa) -> steps (S n) p w = Handler.step pa wa.
Proof.
  revert p w. induction n as [|n IH]; intros p w; simpl.
  - intros [= -> ->]. now destruct (Handler.step pa wa).
  - destruct (Handler.step p w) as [w' p']. intros H.
    apply IH in H. exact H.
Qed.

Lemma steps_ret_run {A} (n : nat) (p : Handler.prog A) (w wa : Store.World)
    (r : A) :
  steps n p w = (wa, Handler.Ret r) -> Handler.run p w = (wa, inr r).
Proof.
  revert p w. induction n as [|n IH]; intros p w; simpl.
  - now intros [= -> ->].
  - destruct p as [a|e|B o k]; simpl.
    + intros H. apply IH in H. exact H.
    + intros H. apply IH in H. simpl in H. discriminate.
    + destruct (Store.exec o w) as [w' x]. apply IH.
Qed.

Lemma nth_error_set_nth_other {A} (i j : nat) (x : A) (l : list A) :
  i <> j -> nth_error (Handler.set_nth j x l) i = nth_error l i.
Proof.
  revert i j. induction l as [|y l IH]; intros [|i] [|j] H; simpl;
    try reflexivity; try congruence.
  apply IH. congruence.
Qed.

Lemma nth_error_set_nth_inv {A} (j : nat) (x y : A) (l : list A) :
  nth_error (Handler.set_nth j x l) j = Some y -> y = x.
Proof.
  revert j. induction l as [|z l IH]; intros [|j]; simpl;
    try discriminate; [congruence|apply IH].
Qed.

(** However the requests are interleaved, a request that concerns one user
    advances as it does when served alone, as long as the other requests
    concern other users. *)
Lemma interleave_isolated {A} (u : string) (i : nat) (p : Handler.prog A)
    (w0 : Store.World) (schedule : list nat) :
  forall (threads : list (Handler.prog A)) (w wa : Store.World)
         (n : nat) (pa : Handler.prog A),
    Store.faults w = [] -> Store.faults wa = [] ->
    steps n p w0 = (wa, pa) ->
    nth_error threads i = Some pa ->
    About u pa ->
    view u wa = view u w ->
    (forall j q, j <> i -> nth_error threads j = Some q ->
                 exists v, v <> u /\ About v q) ->
    exists n' wa' pa',
      steps n' p w0 = (wa', pa')
      /\ nth_error (snd (Handler.interleave schedule threads w)) i = Some pa'
      /\ view u wa' = view u (fst (Handler.interleave schedule threads w)).
Proof.
  induction schedule as [|j schedule IH];
    intros threads w wa n pa Hfs Hfa Hsteps Hnth Hpa Hview Hothers; simpl.
  - exists n, wa, pa. auto.
  - destruct (nth_error threads j) as [q|] eqn:Hq; [|eapply IH; eauto].
    destruct (Nat.eq_dec j i) as [->|Hji].
    + assert (q = pa) as -> by congruence.
      destruct pa as [a|e|B o k]; simpl.
      * rewrite set_nth_same by assumption. eapply IH; eauto.
      * rewrite set_nth_same by assumption. eapply IH; eauto.
      * destruct Hpa as [Ho Hk].
        destruct (exec_same_view u o wa w Ho Hfa Hfs Hview)
          as (Hr & Hv & Hfa' & Hfs').
        pose proof (steps_snoc _ _ _ _ _ Hsteps) as Hs. simpl in Hs.
        destruct (Store.exec o w) as [w' r], (Store.exec o wa) as [wa' ra].
        simpl in *. subst ra.
        eapply (IH _ w' wa' (S n) (k r)); eauto.
        -- eapply nth_error_set_nth. exact Hnth.
        -- intros j' q' Hj' Hq'.
           rewrite nth_error_set_nth_other in Hq' by assumption. eauto.
    + destruct (Hothers j q Hji Hq) as (v & Hv & Hqv).
      destruct q as [a|e|B o k]; simpl.
      * rewrite set_nth_same by assumption. eapply IH; eauto.
      * rewrite set_nth_same by assumption. eapply IH; eauto.
      * destruct Hqv as [Ho Hk].
        destruct (exec_other_view u v o w Ho Hv Hfs) as (Hvw & Hfs').
        destruct (Store.exec o w) as [w' r]. simpl in *.
        eapply (IH _ w' wa n pa); eauto.
        -- rewrite nth_error_set_nth_other by congruence. exact Hnth.
        -- congruence.
        -- intros j' q' Hj' Hq'.
           destruct (Nat.eq_dec j' j) as [->|Hjj].
           ++ apply nth_error_set_nth_inv in Hq'. subst q'. eauto.
           ++ rewrite nth_error_set_nth_other in Hq' by assumption. eauto.
Qed.

Lemma about_bind {A B} (u : string) (p : Handler.prog A)
    (f : A -> Handler.prog B) :
  About u p -> (forall a, About u (f a)) -> About u (Handler.bind p f).
Proof.
  intros Hp Hf. induction p as [a|e|B0 o k IH]; simpl in *; auto.
  destruct Hp as [Ho Hk]. split; auto.
Qed.

Lemma about_try_except {A} (u : string) (p : Handler.prog A)
    (h : Handler.exn -> Handler.prog A) :
  About u p -> (forall e, About u (h e)) -> About u (Handler.try_except p h).
Proof.
  intros Hp Hh. induction p as [a|e|B0 o k IH]; simpl in *; auto.
  destruct Hp as [Ho Hk]. split; auto.
Qed.

Lemma about_execute {A} (u : string) (o : Store.op (Store.outcome A)) :
  concerns u o = true -> About u (Handler.execute o).
Proof. intros Ho. split; [assumption|]. intros [d|]; exact I. Qed.

Lemma about_streak (u : string) : About u (Wallet.calculate_user_streak u).
Proof.
  apply about_try_except; [|intros e; exact I].
  apply about_bind; [split; [reflexivity|intros r; exact I]|]. intros now.
  apply about_bind;
    [apply about_execute; simpl; apply String.eqb_refl|].
  intros [|x data]; [exact I|].
  apply about_bind; [split; [reflexivity|intros r; exact I]|].
  intros today. exact I.
Qed.

Lemma about_earn_coins (a : Schemas.ActivityCreate) (u : string) :
  About u (Wallet.earn_coins a u).
Proof.
  apply about_try_except; [|intros []; exact I].
  apply about_bind; [destruct (Py.getitem _ _ _); exact I|]. intros base.
  apply about_bind; [apply about_streak|]. intros streak.
  apply about_bind; [destruct (Policy.final_coins _ _); exact I|].
  intros coins.
  apply about_bind;
    [apply about_execute; simpl; apply String.eqb_refl|].
  intros [|row rows]; [exact I|].
  apply about_bind;
    [apply about_execute; simpl; apply String.eqb_refl|].
  intros [|current rest]; [exact I|].
  apply about_bind; [split; [reflexivity|intros r; exact I]|]. intros now.
  apply about_bind;
    [apply about_execute; simpl; apply String.eqb_refl|].
  intros [|x l]; exact I.
Qed.

(** X22: earn requests of different users do not interfere, however they are
    interleaved: among any number of concurrent earn requests on a store
    that answers, a request whose user has no other request in flight is
    answered as if it were served alone, and when it is answered the
    balance of its user is the balance before plus the coins it granted. *)
Theorem earn_isolated_from_other_users
    (u : string) (a : Schemas.ActivityCreate) (i : nat)
    (requests : list (string * Schemas.ActivityCreate))
    (schedule : list nat) (w : Store.World) (b : Z) (r : Wallet.EarnResult)
    (Hreachable : Store.faults w = [])
    (Hrequest : nth_error requests i = Some (u, a))
    (Hothers : forall j v x, j <> i -> nth_error requests j = Some (v, x) ->
                             v <> u)
    (Hwallet : Store.balance_of (Store.tables w) u = Some b)
    (Hanswered :
       nth_error
         (snd (Handler.interleave schedule
                 (map (fun vx => Wallet.earn_coins (snd vx) (fst vx)) requests)
                 w)) i
       = Some (Handler.Ret r)) :
  snd (Handler.run (Wallet.earn_coins a u) w) = inr r
  /\ Wallet.new_balance r = b + Wallet.final_coins r
  /\ Store.balance_of
       (Store.tables
          (fst (Handler.interleave schedule
                  (map (fun vx => Wallet.earn_coins (snd vx) (fst vx))
                       requests) w))) u
     = Some (b + Wallet.final_coins r).
Proof.
  set (threads := map (fun vx => Wallet.earn_coins (snd vx) (fst vx))
                      requests) in *.
  assert (Hnth : nth_error threads i = Some (Wallet.earn_coins a u)).
  { subst threads. rewrite nth_error_map, Hrequest. reflexivity. }
  assert (Hrest : forall j q, j <> i -> nth_error threads j = Some q ->
                              exists v, v <> u /\ About v q).
  { intros j q Hj Hq. subst threads. rewrite nth_error_map in Hq.
    destruct (nth_error requests j) as [[v x]|] eqn:E; [|discriminate].
    injection Hq as <-. exists v. split; [eapply Hothers; eauto|].
    apply about_earn_coins. }
  destruct (interleave_isolated u i (Wallet.earn_coins a u) w schedule
              threads w w 0 (Wallet.earn_coins a u)
              Hreachable Hreachable eq_refl Hnth (about_earn_coins a u)
              eq_refl Hrest)
    as (n' & wa' & pa' & Hsteps & Hnth' & Hview).
  rewrite Hanswered in Hnth'. injection Hnth' as <-.
  apply steps_ret_run in Hsteps.
  destruct (run_earn_coins_balance w a u b Hreachable Hwallet)
    as (w1 & r1 & Hrun & _ & Hnew & Hbal).
  rewrite Hrun in Hsteps. injection Hsteps as <- <-.
  rewrite Hrun. split; [reflexivity|]. split; [assumption|].
  unfold Store.balance_of in *. unfold view in Hview.
  injection Hview as _ Hw _. now rewrite <- Hw.
Qed.

Lemma earn_isolated_from_other_users_witness :
  let requests := [("carl", pomodoro); ("ana", pomodoro); ("carl", pomodoro)] in
  let threads := map (fun vx => Wallet.earn_coins (snd vx) (fst vx)) requests in
  let schedule := [0; 1; 2; 1; 0; 1; 2; 2; 1; 0; 1; 1; 2; 1]%nat in
  exists r,
    nth_error (snd (Handler.interleave schedule threads (ana_world []))) 1
    = Some (Handler.Ret r)
    /\ Store.balance_of
         (Store.tables (fst (Handler.interleave schedule threads
                               (ana_world [])))) "ana"
       = Some (100 + Wallet.final_coins r).
Proof.
  cbv zeta.
  assert (Hanswered :
    exists r, nth_error
      (snd (Handler.interleave [0; 1; 2; 1; 0; 1; 2; 2; 1; 0; 1; 1; 2; 1]%nat
              (map (fun vx => Wallet.earn_coins (snd vx) (fst vx))
                   [("carl", pomodoro); ("ana", pomodoro);
                    ("carl", pomodoro)])
              (ana_world []))) 1 = Some (Handler.Ret r)).
  { vm_compute. eexists. reflexivity. }
  destruct Hanswered as (r & Hanswered). exists r.
  split; [exact Hanswered|].
  assert (Hothers : forall j v x, j <> 1%nat ->
            nth_error [("carl", pomodoro); ("ana", pomodoro);
                       ("carl", pomodoro)] j = Some (v, x) -> v <> "ana").
  { intros [|[|[|j]]] v x Hj E; simpl in E; try congruence;
      try (injection E as <- _; discriminate).
    destruct j; discriminate. }
  exact (proj2 (proj2 (earn_isolated_from_other_users "ana" pomodoro 1
           [("carl", pomodoro); ("ana", pomodoro); ("carl", pomodoro)]
           [0; 1; 2; 1; 0; 1; 2; 2; 1; 0; 1; 1; 2; 1]%nat (ana_world []) 100 r
           eq_refl eq_refl Hothers eq_refl Hanswered))).
Defined.

(** ** The favourite activity *)

Lemma existsb_eqb_In (k : string) (l : list string) :
  existsb (String.eqb k) l = true <-> In k l.
Proof.
  rewrite existsb_exists. split.
  - intros (x & Hx & E). apply String.eqb_eq in E. now subst.
  - intros H. exists k. split; [assumption|apply String.eqb_refl].
Qed.

Lemma first_seen_snoc (ks : list string) (k : string) :
  first_seen (ks ++ [k])
  = if existsb (String.eqb k) (first_seen ks) then first_seen ks
    else (first_seen ks ++ [k])%list.
Proof. unfold first_seen. now rewrite fold_left_app. Qed.

Lemma first_seen_In (ks : list string) (k : string) :
  In k (first_seen ks) <-> In k ks.
Proof.
  induction ks as [|x ks IH] using rev_ind; [reflexivity|].
  rewrite first_seen_snoc, in_app_iff. simpl.
  destruct (existsb (String.eqb x) (first_seen ks)) eqn:E.
  - apply existsb_eqb_In in E. rewrite IH in *.
    intuition (subst; auto).
  - rewrite in_app_iff, IH. simpl. tauto.
Qed.

Lemma first_seen_NoDup (ks : list string) : NoDup (first_seen ks).
Proof.
  induction ks as [|x ks IH] using rev_ind; [constructor|].
  rewrite first_seen_snoc.
  destruct (existsb (String.eqb x) (first_seen ks)) eqn:E; [assumption|].
  apply NoDup_app; auto.
  - repeat constructor. intros [].
  - intros y Hy [<-|[]]. apply existsb_eqb_In in Hy. congruence.
Qed.

Lemma occurrences_snoc (k x : string) (ks : list string) :
  occurrences k (ks ++ [x])
  = occurrences k ks + (if String.eqb x k then 1 else 0).
Proof.
  unfold occurrences. rewrite count_occ_app. simpl.
  destruct (string_dec x k) as [->|Hne].
  - rewrite String.eqb_refl. lia.
  - apply String.eqb_neq in Hne. rewrite Hne. lia.
Qed.

(** Counting one more row in a dict of counts. *)
Lemma count_add_map (k : string) (g : string -> Z) (l : list string) :
  NoDup l ->
  App.count_add k (map (fun x => (x, g x)) l)
  = if existsb (String.eqb k) l
    then map (fun x => (x, g x + (if String.eqb k x then 1 else 0))) l
    else (map (fun x => (x, g x)) l ++ [(k, 1)])%list.
Proof.
  induction l as [|y l IH]; intros Hnd; simpl; [reflexivity|].
  inversion Hnd as [|? ? Hy Hl]; subst.
  rewrite (String.eqb_sym k y).
  destruct (String.eqb_spec y k) as [->|Hne]; simpl.
  - f_equal. apply map_ext_in. intros x Hx.
    destruct (String.eqb_spec k x) as [->|_]; [contradiction|].
    now rewrite Z.add_0_r.
  - rewrite (IH Hl). rewrite Z.add_0_r.
    destruct (existsb (String.eqb k) l); reflexivity.
Qed.

(** The dict of counts holds, for each type in the order of first
    appearance, the number of rows of the type. *)
Lemma activity_counts_spec (rows : list Store.Activity) :
  App.activity_counts rows
  = map (fun k =>
           (k, occurrences k
                 (map (fun a => Store.activity_type (Store.values a)) rows)))
        (first_seen
           (map (fun a => Store.activity_type (Store.values a)) rows)).
Proof.
  induction rows as [|a rows IH] using rev_ind; [reflexivity|].
  unfold App.activity_counts in *.
  rewrite fold_left_app, map_app. simpl. rewrite IH.
  rewrite (count_add_map _ _ _ (first_seen_NoDup _)), first_seen_snoc.
  set (ks := map (fun a => Store.activity_type (Store.values a)) rows).
  set (k := Store.activity_type (Store.values a)).
  destruct (existsb (String.eqb k) (first_seen ks)) eqn:E.
  - apply map_ext. intros x. now rewrite occurrences_snoc.
  - rewrite map_app. simpl. f_equal.
    + apply map_ext_in. intros x Hx. rewrite occurrences_snoc.
      destruct (String.eqb_spec k x) as [<-|_]; [|now rewrite Z.add_0_r].
      apply existsb_eqb_In in Hx. congruence.
    + rewrite occurrences_snoc, String.eqb_refl.
      assert (Hk : ~ In k ks).
      { intros H. apply first_seen_In, existsb_eqb_In in H. congruence. }
      unfold occurrences.
      rewrite (proj1 (count_occ_not_In string_dec ks k) Hk). reflexivity.
Qed.

(** [max] with a key returns the first of the greatest. *)
Lemma max_by_value_from (d : list (string * Z)) (k0 : string) (m0 : Z) :
  exists f m,
    fold_left (fun best kv =>
                 match best with
                 | None => Some kv
                 | Some (_, m) => if m <? snd kv then Some kv else best
                 end) d (Some (k0, m0)) = Some (f, m)
    /\ m0 <= m
    /\ (forall g n, In (g, n) d -> n <= m)
    /\ ((f, m) = (k0, m0)
        \/ exists d1 d2, d = (d1 ++ (f, m) :: d2)%list
                         /\ m0 < m
                         /\ forall g n, In (g, n) d1 -> n < m).
Proof.
  revert k0 m0. induction d as [|[k n] d IH]; intros k0 m0; simpl.
  - exists k0, m0. split; [reflexivity|]. split; [lia|].
    split; [intros ? ? []|now left].
  - destruct (Z.ltb_spec m0 n) as [E|E].
    + destruct (IH k n) as (f & m & Hf & Hle & Hall & Hpos).
      exists f, m. split; [assumption|]. split; [lia|]. split.
      * intros g x [[= <- <-]|Hin]; [lia|eauto].
      * right. destruct Hpos as [[= -> ->]|(d1 & d2 & -> & Hlt & Hd1)].
        -- exists [], d. split; [reflexivity|]. split; [lia|]. intros ? ? [].
        -- exists ((k, n) :: d1), d2. split; [reflexivity|]. split; [lia|].
           intros g x [[= <- <-]|Hin]; [lia|eauto].
    + destruct (IH k0 m0) as (f & m & Hf & Hle & Hall & Hpos).
      exists f, m. split; [assumption|]. split; [lia|]. split.
      * intros g x [[= <- <-]|Hin]; [lia|eauto].
      * destruct Hpos as [Heq|(d1 & d2 & -> & Hlt & Hd1)]; [now left|].
        right. exists ((k, n) :: d1), d2. split; [reflexivity|].
        split; [lia|]. intros g x [[= <- <-]|Hin]; [lia|eauto].
Qed.

Lemma max_by_value_spec (d : list (string * Z)) :
  match App.max_by_value d with
  | None => d = []
  | Some (f, m) =>
      exists d1 d2, d = (d1 ++ (f, m) :: d2)%list
                    /\ (forall g n, In (g, n) d1 -> n < m)
                    /\ (forall g n, In (g, n) d -> n <= m)
  end.
Proof.
  unfold App.max_by_value. destruct d as [|[k n] d]; simpl; [reflexivity|].
  destruct (max_by_value_from d k n) as (f & m & -> & Hle & Hall & Hpos).
  destruct Hpos as [[= -> ->]|(d1 & d2 & -> & Hlt & Hd1)].
  - exists [], d. split; [reflexivity|]. split; [intros ? ? []|].
    intros g x [[= <- <-]|Hin]; [lia|eauto].
  - exists ((k, n) :: d1), d2. split; [reflexivity|]. split.
    + intros g x [[= <- <-]|Hin]; [lia|eauto].
    + intros g x [[= <- <-]|Hin]; [lia|eauto].
Qed.

(** X23: the favourite activity of the statistics is a type of which the user
    has the most rows; when several types have the most rows, it is the one
    among them that appears first among the rows of the user. A user
    without activity has no favourite. *)
Theorem favorite_is_first_most_frequent
    (w : App.World) (user : string) (stats : App.Stats)
    (Hreachable : Store.faults (App.store w) = [])
    (Hstats : snd (App.run (App.get_user_stats user) w) = inr stats) :
  let ks := map (fun a => Store.activity_type (Store.values a))
                (filter (Store.of_user user)
                        (Store.activities (Store.tables (App.store w)))) in
  match App.favorite_activity stats with
  | None => ks = []
  | Some f =>
      In f ks
      /\ (forall g, occurrences g ks <= occurrences f ks)
      /\ exists before after,
           first_seen ks = (before ++ f :: after)%list
           /\ forall g, In g before -> occurrences g ks < occurrences f ks
  end.
Proof.
  intros ks.
  destruct (run_get_user_stats w user Hreachable) as (next & _ & Hrun).
  rewrite Hrun in Hstats. injection Hstats as <-.
  unfold stats_of. cbn [App.favorite_activity].
  subst ks.
  set (rows := filter (Store.of_user user)
                      (Store.activities (Store.tables (App.store w)))).
  destruct rows as [|a rows'] eqn:Hrows; [reflexivity|].
  rewrite <- Hrows. pose proof (activity_counts_spec rows) as Hc.
  set (ks := map (fun a => Store.activity_type (Store.values a)) rows) in *.
  pose proof (max_by_value_spec (App.activity_counts rows)) as Hm.
  destruct (App.max_by_value (App.activity_counts rows)) as [[f m]|]; simpl.
  - destruct Hm as (d1 & d2 & Hd & Hbefore & Hall).
    rewrite Hc in Hd, Hall.
    assert (Hin : In (f, m) (map (fun k => (k, occurrences k ks))
                                 (first_seen ks))).
    { rewrite Hd. apply in_or_app. right. now left. }
    apply in_map_iff in Hin. destruct Hin as (k & [= -> <-] & Hk).
    split; [now apply first_seen_In|]. split.
    + intros g. destruct (in_dec string_dec g ks) as [Hg|Hg].
      * apply (Hall g). apply in_map_iff. exists g.
        split; [reflexivity|now apply first_seen_In].
      * unfold occurrences.
        rewrite (proj1 (count_occ_not_In string_dec ks g) Hg). lia.
    + apply map_eq_app in Hd.
      destruct Hd as (l1 & l2 & Hfs & Hl1 & Hl2).
      destruct l2 as [|x l2]; [discriminate|].
      injection Hl2 as -> _ _.
      exists l1, l2. split; [assumption|].
      intros g Hg. apply (Hbefore g). rewrite <- Hl1.
      apply in_map_iff. exists g. auto.
  - exfalso. rewrite Hc in Hm. apply map_eq_nil in Hm.
    assert (Hk : In (Store.activity_type (Store.values a)) (first_seen ks)).
    { apply first_seen_In. subst ks. rewrite Hrows. now left. }
    rewrite Hm in Hk. exact Hk.
Qed.

Lemma favorite_is_first_most_frequent_witness :
  Store.faults (App.store (ana_app [])) = []
  /\ exists stats,
       snd (App.run (App.get_user_stats "ana") (ana_app [])) = inr stats
       /\ forall g,
            occurrences g
              (map (fun a => Store.activity_type (Store.values a))
                   (filter (Store.of_user "ana")
                      (Store.activities
                         (Store.tables (App.store (ana_app []))))))
            <= occurrences "pomodoro_25min"
                 (map (fun a => Store.activity_type (Store.values a))
                      (filter (Store.of_user "ana")
                         (Store.activities
                            (Store.tables (App.store (ana_app [])))))).
Proof.
  split; [reflexivity|].
  eexists. split; [exact stats_of_ana|].
  pose proof (favorite_is_first_most_frequent (ana_app []) "ana" _ eq_refl
                stats_of_ana) as H.
  cbv zeta in H. cbn [App.favorite_activity] in H.
  destruct H as (_ & H & _). exact H.
Defined.
